(** * LatexGenCpp: the document-model-to-markup engine, embedded in Rocq

    The definitions below follow [src/latexgen.cpp] and the class
    declarations of [latexgen.h].  A [std::string] is a Rocq [string] (a
    sequence of bytes, so an accented letter of a UTF-8 literal is two
    characters, as in C++); a [std::stringstream] that is only written with
    [<<] and read once with [str()] is the concatenation of what was written,
    in order; a [std::map] is a [gmap] that is iterated in increasing key
    order; a [std::set] is a [gset]; a [std::vector] is a [list]. *)

From Stdlib Require Import ZArith Ascii String.
From stdpp Require Import base gmap strings list sorting.

Local Open Scope Z_scope.
Local Open Scope nat_scope.

(** ** Strings *)

Definition nl : string := String (ascii_of_nat 10) "".
Definition dq : string := String (ascii_of_nat 34) "".

(** Everything written to a stream by a range-for loop. *)
Definition str_concat (l : list string) : string := foldr String.append "" l.

(** [s.find(needle, pos)]; [None] is [npos].  The needles of this program are
    never empty. *)
Definition str_find (needle s : string) (pos : nat) : option nat :=
  String.index pos needle s.

(** [s.substr(pos, len)] and [s.substr(pos)] for [pos <= s.length()]. *)
Definition substr (s : string) (pos len : nat) : string :=
  String.substring pos len s.
Definition substr_from (s : string) (pos : nat) : string :=
  String.substring pos (String.length s - pos) s.

(** [s.replace(pos, len, by)] for [pos <= s.length()]. *)
Definition str_replace (s : string) (pos len : nat) (by_ : string) : string :=
  substr s 0 pos +:+ by_ +:+ substr_from s (pos + len).

(** [s.compare(pos, env.length(), env) == 0]: the [env.length()] characters
    of [s] from [pos] on are exactly [env]. *)
Definition compare_at (s : string) (pos : nat) (env : string) : bool :=
  String.eqb (substr s pos (String.length env)) env.

(** [s.find(needle) != npos]. *)
Definition contains (needle s : string) : bool :=
  match str_find needle s 0 with Some _ => true | None => false end.

(** ** std::map<std::string, std::string> in iteration order *)

Definition key_le (p q : string * string) : Prop := String.le p.1 q.1.

#[global] Instance key_le_dec : RelDecision key_le.
Proof. intros p q. unfold key_le. apply _. Defined.

(** The (key, value) pairs of a map in the order a range-for loop over a
    [std::map] visits them: increasing keys, bytes compared as unsigned. *)
Definition map_items (m : gmap string string) : list (string * string) :=
  merge_sort key_le (map_to_list m).

(** ** sanitizeMathContent *)

Definition mathEnvs : list string :=
  [ "\begin{equation}"; "\end{equation}";
    "\begin{equation*}"; "\end{equation*}";
    "\begin{align}"; "\end{align}";
    "\begin{align*}"; "\end{align*}";
    "$"; "$$" ].

Definition replacements : gmap string string :=
  list_to_map
    [ ("é", "\text{é}");
      ("è", "\text{è}");
      ("ê", "\text{ê}");
      ("à", "\text{à}");
      ("ù", "\text{ù}");
      ("ç", "\text{ç}");
      ("Productivité", "\text{Productivité}");
      ("Qualité", "\text{Qualité}");
      ("Documents", "\text{Documents}");
      ("Temps", "\text{Temps}") ].

(** The inner [while] loop of one replacement pair: find the next occurrence
    of [key] from [repPos] on, replace it, continue after the inserted text.
    [None] when the fuel runs out before [find] fails. *)
Fixpoint replace_loop (fuel : nat) (key value mathContent : string)
    (repPos : nat) : option string :=
  match fuel with
  | O => None
  | S fuel' =>
      match str_find key mathContent repPos with
      | None => Some mathContent
      | Some p =>
          replace_loop fuel' key value
            (str_replace mathContent p (String.length key) value)
            (p + String.length value)
      end
  end.

(** The [for (const auto &rep : replacements)] loop. *)
Fixpoint replace_each (reps : list (string * string)) (mathContent : string)
    : option string :=
  match reps with
  | [] => Some mathContent
  | (key, value) :: reps' =>
      match replace_loop (S (String.length mathContent)) key value mathContent 0 with
      | None => None
      | Some mathContent' => replace_each reps' mathContent'
      end
  end.

(** The first marker of [mathEnvs], in list order, found at [pos]. *)
Definition find_marker (result : string) (pos : nat) : option string :=
  List.find (compare_at result pos) mathEnvs.

(** The outer [while (pos < result.length())] loop, on the loop variables
    [result], [pos], [inMathMode] and [startMathPos]. *)
Fixpoint sanitize_loop (fuel : nat) (result : string) (pos : nat)
    (inMathMode : bool) (startMathPos : nat) : option string :=
  match fuel with
  | O => None
  | S fuel' =>
      if pos <? String.length result then
        match find_marker result pos with
        | Some env =>
            if negb inMathMode then
              sanitize_loop fuel' result (pos + String.length env) true
                (pos + String.length env)
            else
              let mathContent := substr result startMathPos (pos - startMathPos) in
              match replace_each (map_items replacements) mathContent with
              | None => None
              | Some mathContent' =>
                  sanitize_loop fuel'
                    (str_replace result startMathPos (pos - startMathPos) mathContent')
                    (startMathPos + String.length mathContent' + String.length env)
                    false startMathPos
              end
        | None => sanitize_loop fuel' result (S pos) inMathMode startMathPos
        end
      else Some result
  end.

Definition sanitize_run (content : string) : option string :=
  sanitize_loop (S (String.length content)) content 0 false 0.

(** The loop always ends within its fuel ([sanitize_run_total] below), so the
    second branch is never taken. *)
Definition sanitizeMathContent (content : string) : string :=
  match sanitize_run content with
  | Some result => result
  | None => content
  end.

(** ** Enumerations of the header *)

Inductive DocumentType := ARTICLE | REPORT | BOOK | PRESENTATION.

Inductive Language :=
  ENGLISH | FRENCH | GERMAN | SPANISH | ITALIAN | PORTUGUESE | DUTCH
| RUSSIAN | CHINESE | JAPANESE | ARABIC.

Inductive BibStyle :=
  PLAIN | ALPHA | ABBRV | ACM | IEEE | APA | CHICAGO | MLA | HARVARD | CUSTOM.

#[global] Instance Language_eq_dec : EqDecision Language.
Proof. solve_decision. Defined.

Definition getBabelLanguageName (lang : Language) : string :=
  match lang with
  | ENGLISH => "english"
  | FRENCH => "french"
  | GERMAN => "german,provide=*"
  | SPANISH => "spanish,provide=*"
  | ITALIAN => "italian,provide=*"
  | PORTUGUESE => "portuguese,provide=*"
  | DUTCH => "dutch,provide=*"
  | RUSSIAN => "russian,provide=*"
  | CHINESE => "chinese,provide=*"
  | JAPANESE => "japanese,provide=*"
  | ARABIC => "arabic,provide=*"
  end.

(** ** class Section *)

Module Section.

Inductive Level := CHAPTER | SECTION | SUBSECTION | SUBSUBSECTION.

Record t := mk {
  m_title : string;
  m_level : Level;
  m_content : list string
}.

Definition new (title : string) (level : Level) : t := mk title level [].

Definition addContent (content : string) (self : t) : t :=
  mk (m_title self) (m_level self) (m_content self ++ [content]).

(** The [default:] case of the switch ([\paragraph]) is for no value of the
    enumeration. *)
Definition generate (self : t) : string :=
  match m_level self with
  | CHAPTER => "\chapter{" +:+ m_title self +:+ "}" +:+ nl
  | SECTION => "\section{" +:+ m_title self +:+ "}" +:+ nl
  | SUBSECTION => "\subsection{" +:+ m_title self +:+ "}" +:+ nl
  | SUBSUBSECTION => "\subsubsection{" +:+ m_title self +:+ "}" +:+ nl
  end
  +:+ str_concat (map (fun content => content +:+ nl) (m_content self)).

End Section.

(** ** class Environment and its six variants

    [m_name] is protected and assigned by the constructors only.  [Table],
    [Figure] and [Algorithm] pass a constant to the base constructor, the
    other three a name that depends on their arguments, which is kept as a
    field. *)

Definition Environment_begin (m_name : string) : string :=
  "\begin{" +:+ m_name +:+ "}" +:+ nl.

Definition Environment_end (m_name : string) : string :=
  "\end{" +:+ m_name +:+ "}" +:+ nl.

(** An optional line [\cmd{arg}], written when [arg] is not empty. *)
Definition opt_line (cmd arg : string) : string :=
  if String.eqb arg "" then "" else cmd +:+ "{" +:+ arg +:+ "}" +:+ nl.

(** [if (!m_options.empty() && m_options.find("position") != m_options.end())
    ss << "[" << m_options.at("position") << "]"]. *)
Definition position_option (m_options : gmap string string) : string :=
  match m_options !! "position" with
  | Some position => "[" +:+ position +:+ "]"
  | None => ""
  end.

Module Table.

Record t := mk {
  m_headers : list string;
  m_rows : list (list string);
  m_caption : string;
  m_label : string;
  m_options : gmap string string
}.

Definition m_name : string := "table".

Definition new (headers : list string) (position : string) : t :=
  mk headers [] "" "" (<["position" := position]> ∅).

Definition setCaption (caption : string) (self : t) : t :=
  mk (m_headers self) (m_rows self) caption (m_label self) (m_options self).

Definition setLabel (label : string) (self : t) : t :=
  mk (m_headers self) (m_rows self) (m_caption self) label (m_options self).

Definition addRow (row : list string) (self : t) : t :=
  mk (m_headers self) (m_rows self ++ [row]) (m_caption self) (m_label self)
     (m_options self).

Definition begin_ (self : t) : string := Environment_begin m_name.
Definition end_ (self : t) : string := Environment_end m_name.

(** The loop [for (i = ...; i < row.size() && i < numCols; ++i)
    { ss << row[i]; if (i < numCols - 1) ss << " & "; }] from index [i] on,
    [row] being what is left of the row from that index.  [numCols - 1] is
    only evaluated under [i < numCols], where it does not wrap. *)
Fixpoint cells (numCols i : nat) (row : list string) : string :=
  match row with
  | [] => ""
  | cell :: row' =>
      if i <? numCols then
        cell +:+ (if i <? numCols - 1 then " & " else "")
             +:+ cells numCols (S i) row'
      else ""
  end.

(** The column specification, between [\begin{tabular}{] and [}]. *)
Definition column_spec (numCols : nat) : string :=
  str_concat (replicate numCols "|c") +:+ "|".

(** One line of the tabular: the cells and the terminator. *)
Definition row_line (numCols : nat) (row : list string) : string :=
  cells numCols 0 row +:+ " \\ \hline" +:+ nl.

Definition generate (self : t) : string :=
  let numCols := length (m_headers self) in
  "\begin{table}" +:+ position_option (m_options self)
  +:+ nl +:+ "\centering" +:+ nl
  +:+ "\begin{tabular}{" +:+ column_spec numCols +:+ "}" +:+ nl
  +:+ "\hline" +:+ nl
  +:+ row_line numCols (m_headers self)
  +:+ str_concat (map (row_line numCols) (m_rows self))
  +:+ "\end{tabular}" +:+ nl
  +:+ opt_line "\caption" (m_caption self)
  +:+ opt_line "\label" (m_label self)
  +:+ "\end{table}" +:+ nl.

End Table.

Module Figure.

Record t := mk {
  m_imagePath : string;
  m_caption : string;
  m_label : string;
  m_width : string;
  m_options : gmap string string
}.

Definition m_name : string := "figure".

Definition new (imagePath position : string) : t :=
  mk imagePath "" "" "0.8\textwidth" (<["position" := position]> ∅).

Definition setCaption (caption : string) (self : t) : t :=
  mk (m_imagePath self) caption (m_label self) (m_width self) (m_options self).

Definition setLabel (label : string) (self : t) : t :=
  mk (m_imagePath self) (m_caption self) label (m_width self) (m_options self).

Definition setWidth (width : string) (self : t) : t :=
  mk (m_imagePath self) (m_caption self) (m_label self) width (m_options self).

Definition begin_ (self : t) : string := Environment_begin m_name.
Definition end_ (self : t) : string := Environment_end m_name.

Definition generate (self : t) : string :=
  "\begin{figure}" +:+ position_option (m_options self)
  +:+ nl +:+ "\centering" +:+ nl
  +:+ "\includegraphics"
  +:+ (if String.eqb (m_width self) "" then ""
       else "[width=" +:+ m_width self +:+ "]")
  +:+ "{" +:+ m_imagePath self +:+ "}" +:+ nl
  +:+ opt_line "\caption" (m_caption self)
  +:+ opt_line "\label" (m_label self)
  +:+ "\end{figure}" +:+ nl.

End Figure.

Module Equation.

Record t := mk {
  m_name : string;
  m_content : string;
  m_label : string
}.

Definition new (numbered : bool) : t :=
  mk (if numbered then "equation" else "equation*") "" "".

Definition setContent (content : string) (self : t) : t :=
  mk (m_name self) content (m_label self).

Definition setLabel (label : string) (self : t) : t :=
  mk (m_name self) (m_content self) label.

Definition begin_ (self : t) : string := Environment_begin (m_name self).
Definition end_ (self : t) : string := Environment_end (m_name self).

Definition generate (self : t) : string :=
  begin_ self
  +:+ m_content self +:+ nl
  +:+ opt_line "\label" (m_label self)
  +:+ end_ self.

End Equation.

Module List.

Inductive ListType := ITEMIZE | ENUMERATE | DESCRIPTION.

Record t := mk {
  m_name : string;
  m_type : ListType;
  m_items : list string;
  m_itemLabels : gmap nat string
}.

Definition new (type : ListType) : t :=
  mk (match type with
      | ITEMIZE => "itemize"
      | ENUMERATE => "enumerate"
      | DESCRIPTION => "description"
      end) type [] ∅.

Definition addItem (item label : string) (self : t) : t :=
  mk (m_name self) (m_type self) (m_items self ++ [item])
     (if String.eqb label "" then m_itemLabels self
      else <[length (m_items self) := label]> (m_itemLabels self)).

Definition begin_ (self : t) : string := Environment_begin (m_name self).
Definition end_ (self : t) : string := Environment_end (m_name self).

(** The body of the loop over the item indices. *)
Definition item_line (self : t) (i : nat) (item : string) : string :=
  "\item "
  +:+ match m_type self, m_itemLabels self !! i with
      | DESCRIPTION, Some label => "[" +:+ label +:+ "] "
      | _, _ => ""
      end
  +:+ item +:+ nl.

Definition generate (self : t) : string :=
  begin_ self
  +:+ str_concat (imap (item_line self) (m_items self))
  +:+ end_ self.

End List.

Module TheoremEnvironment.

Inductive Type_ :=
  THEOREM | LEMMA | PROPOSITION | COROLLARY | DEFINITION | EXAMPLE | REMARK
| PROOF | CUSTOM.

Record t := mk {
  m_name : string;
  m_type : Type_;
  m_content : string;
  m_title : string;
  m_customType : string
}.

Definition getEnvironmentName (type : Type_) : string :=
  match type with
  | THEOREM => "theorem"
  | LEMMA => "lemma"
  | PROPOSITION => "proposition"
  | COROLLARY => "corollary"
  | DEFINITION => "definition"
  | EXAMPLE => "example"
  | REMARK => "remark"
  | PROOF => "proof"
  | CUSTOM => "customtheorem"
  end.

Definition new (type : Type_) (content title : string) : t :=
  mk (getEnvironmentName type) type content title "".

Definition new_custom (customType content title : string) : t :=
  mk customType CUSTOM content title customType.

Definition setContent (content : string) (self : t) : t :=
  mk (m_name self) (m_type self) content (m_title self) (m_customType self).

Definition setTitle (title : string) (self : t) : t :=
  mk (m_name self) (m_type self) (m_content self) title (m_customType self).

Definition begin_ (self : t) : string := Environment_begin (m_name self).
Definition end_ (self : t) : string := Environment_end (m_name self).

Definition generate (self : t) : string :=
  "\begin{" +:+ m_name self +:+ "}"
  +:+ (if String.eqb (m_title self) "" then ""
       else "[" +:+ m_title self +:+ "]")
  +:+ nl
  +:+ m_content self +:+ nl
  +:+ "\end{" +:+ m_name self +:+ "}" +:+ nl.

(** The eight localized names, in the order theorem, lemma, proposition,
    corollary, definition, example, remark, proof. *)
Definition theorem_names (language : Language) : list string :=
  match language with
  | FRENCH =>
      [ "Théorème"; "Lemme"; "Proposition"; "Corollaire"; "Définition";
        "Exemple"; "Remarque"; "Preuve" ]
  | GERMAN =>
      [ "Satz"; "Lemma"; "Behauptung"; "Korollar"; "Definition"; "Beispiel";
        "Bemerkung"; "Beweis" ]
  | SPANISH =>
      [ "Teorema"; "Lema"; "Proposición"; "Corolario"; "Definición";
        "Ejemplo"; "Observación"; "Demostración" ]
  | ITALIAN =>
      [ "Teorema"; "Lemma"; "Proposizione"; "Corollario"; "Definizione";
        "Esempio"; "Osservazione"; "Dimostrazione" ]
  | _ =>
      [ "Theorem"; "Lemma"; "Proposition"; "Corollary"; "Definition";
        "Example"; "Remark"; "Proof" ]
  end.

Definition getTheoremSetup (language : Language) : string :=
  let name (i : nat) := default "" (theorem_names language !! i) in
  "\usepackage{amsthm}" +:+ nl
  +:+ "\theoremstyle{plain}" +:+ nl
  +:+ "\newtheorem{theorem}{" +:+ name 0 +:+ "}" +:+ nl
  +:+ "\newtheorem{lemma}[theorem]{" +:+ name 1 +:+ "}" +:+ nl
  +:+ "\newtheorem{proposition}[theorem]{" +:+ name 2 +:+ "}" +:+ nl
  +:+ "\newtheorem{corollary}[theorem]{" +:+ name 3 +:+ "}" +:+ nl
  +:+ "\theoremstyle{definition}" +:+ nl
  +:+ "\newtheorem{definition}{" +:+ name 4 +:+ "}" +:+ nl
  +:+ "\newtheorem{example}{" +:+ name 5 +:+ "}" +:+ nl
  +:+ "\theoremstyle{remark}" +:+ nl
  +:+ "\newtheorem{remark}{" +:+ name 6 +:+ "}" +:+ nl
  +:+ "\renewcommand{\proofname}{" +:+ name 7 +:+ "}" +:+ nl.

End TheoremEnvironment.

Module Algorithm.

(** A pseudocode line and its indentation level, a C++ [int]. *)
Record t := mk {
  m_caption : string;
  m_label : string;
  m_lines : list (string * Z)
}.

Definition m_name : string := "algorithm".

Definition new (caption : string) : t := mk caption "" [].

Definition setCaption (caption : string) (self : t) : t :=
  mk caption (m_label self) (m_lines self).

Definition setLabel (label : string) (self : t) : t :=
  mk (m_caption self) label (m_lines self).

Definition addLine (line : string) (indent : Z) (self : t) : t :=
  mk (m_caption self) (m_label self) (m_lines self ++ [(line, indent)]).

(** The pseudocode builders: each pushes one line. *)
Definition addComment (comment : string) (indent : Z) : t -> t :=
  addLine ("\" +:+ (if (0 <? indent)%Z then ">\" else "")
           +:+ "Comment{" +:+ comment +:+ "}") indent.

Definition addForLoop (condition : string) (indent : Z) : t -> t :=
  addLine ("\For{" +:+ condition +:+ "}") indent.

Definition addWhileLoop (condition : string) (indent : Z) : t -> t :=
  addLine ("\While{" +:+ condition +:+ "}") indent.

Definition addIf (condition : string) (indent : Z) : t -> t :=
  addLine ("\If{" +:+ condition +:+ "}") indent.

Definition addElse (indent : Z) : t -> t := addLine "\Else" indent.

Definition addElseIf (condition : string) (indent : Z) : t -> t :=
  addLine ("\ElsIf{" +:+ condition +:+ "}") indent.

Definition addEnd (statement : string) (indent : Z) : t -> t :=
  addLine ("\End" +:+ statement) indent.

Definition addReturn (value : string) (indent : Z) : t -> t :=
  addLine (nl +:+ "\Return{" +:+ value +:+ "}") indent.

Definition addBreak (indent : Z) : t -> t := addLine "\Break" indent.

Definition addContinue (indent : Z) : t -> t := addLine "\Continue" indent.

Definition addFunction (name args : string) (indent : Z) : t -> t :=
  addLine ("\Function{" +:+ name +:+ "}(" +:+ args +:+ ")") indent.

Definition addFunctionEnd (indent : Z) : t -> t := addLine "\EndFunction" indent.

Definition begin_ (self : t) : string := Environment_begin m_name.
Definition end_ (self : t) : string := Environment_end m_name.

(** [for (int i = 0; i < line.second; ++i) ss << "    ";] then the line. *)
Definition line_text (line : string * Z) : string :=
  str_concat (replicate (Z.to_nat line.2) "    ") +:+ line.1 +:+ nl.

Definition generate (self : t) : string :=
  "\begin{algorithm}" +:+ nl
  +:+ opt_line "\caption" (m_caption self)
  +:+ opt_line "\label" (m_label self)
  +:+ "\begin{algorithmic}[1]" +:+ nl
  +:+ str_concat (map line_text (m_lines self))
  +:+ "\end{algorithmic}" +:+ nl
  +:+ "\end{algorithm}" +:+ nl.

Definition getAlgorithmPackages : string :=
  "\usepackage{algorithm}" +:+ nl +:+ "\usepackage{algpseudocode}" +:+ nl.

End Algorithm.

(** The objects behind a [std::shared_ptr<Environment>], with the virtual
    calls dispatched on the dynamic class. *)
Inductive Environment :=
| EnvTable (e : Table.t)
| EnvFigure (e : Figure.t)
| EnvEquation (e : Equation.t)
| EnvList (e : List.t)
| EnvAlgorithm (e : Algorithm.t)
| EnvTheorem (e : TheoremEnvironment.t).

Definition Environment_name (env : Environment) : string :=
  match env with
  | EnvTable _ => Table.m_name
  | EnvFigure _ => Figure.m_name
  | EnvEquation e => Equation.m_name e
  | EnvList e => List.m_name e
  | EnvAlgorithm _ => Algorithm.m_name
  | EnvTheorem e => TheoremEnvironment.m_name e
  end.

(** No variant overrides [begin()] or [end()]. *)
Definition begin_ (env : Environment) : string :=
  Environment_begin (Environment_name env).

Definition end_ (env : Environment) : string :=
  Environment_end (Environment_name env).

Definition Environment_generate (env : Environment) : string :=
  match env with
  | EnvTable e => Table.generate e
  | EnvFigure e => Figure.generate e
  | EnvEquation e => Equation.generate e
  | EnvList e => List.generate e
  | EnvAlgorithm e => Algorithm.generate e
  | EnvTheorem e => TheoremEnvironment.generate e
  end.

(** ** class BibEntry, class Bibliography *)

Module BibEntry.

Inductive EntryType :=
  ARTICLE | BOOK | INPROCEEDINGS | TECHREPORT | PHDTHESIS | MASTERSTHESIS | MISC.

Record t := mk {
  m_key : string;
  m_type : EntryType;
  m_fields : gmap string string
}.

Definition addField (field value : string) (self : t) : t :=
  mk (m_key self) (m_type self) (<[field := value]> (m_fields self)).

Definition new (key : string) (type : EntryType) : t := mk key type ∅.

Definition getTypeString (type : EntryType) : string :=
  match type with
  | ARTICLE => "article"
  | BOOK => "book"
  | INPROCEEDINGS => "inproceedings"
  | TECHREPORT => "techreport"
  | PHDTHESIS => "phdthesis"
  | MASTERSTHESIS => "mastersthesis"
  | MISC => "misc"
  end.

(** The loop over [m_fields] from one iterator position on: the field, a
    comma when [std::next(it)] is not the end, a newline. *)
Fixpoint fields_text (fields : list (string * string)) : string :=
  match fields with
  | [] => ""
  | field :: fields' =>
      "  " +:+ field.1 +:+ " = {" +:+ field.2 +:+ "}"
      +:+ (match fields' with [] => "" | _ => "," end)
      +:+ nl +:+ fields_text fields'
  end.

Definition generate (self : t) : string :=
  "@" +:+ getTypeString (m_type self) +:+ "{" +:+ m_key self +:+ "," +:+ nl
  +:+ fields_text (map_items (m_fields self))
  +:+ "}" +:+ nl.

End BibEntry.

Module Bibliography.

Record t := mk {
  m_bibFile : string;
  m_style : BibStyle;
  m_customStyle : string;
  m_useExternalFile : bool;
  m_entries : list BibEntry.t
}.

(** The three constructors. *)
Definition new_file (bibFile : string) (style : BibStyle) : t :=
  mk bibFile style "" true [].
Definition new : t := mk "references" PLAIN "" false [].
Definition new_custom (bibFile customStyle : string) : t :=
  mk bibFile CUSTOM customStyle true [].

Definition addEntry (entry : BibEntry.t) (self : t) : t :=
  mk (m_bibFile self) (m_style self) (m_customStyle self) false
     (m_entries self ++ [entry]).

Definition getStyleName (self : t) : string :=
  match m_style self with
  | PLAIN => "plain"
  | ALPHA => "alpha"
  | ABBRV => "abbrv"
  | ACM => "acm"
  | IEEE => "ieeetr"
  | APA => "apalike"
  | CHICAGO => "chicago"
  | MLA => "mla"
  | HARVARD => "harvard"
  | CUSTOM => m_customStyle self
  end.

Definition getPreambleConfig (self : t) : string := "".

(** [bibTitle] is computed from [title] and not used; callers pass no
    title. *)
Definition getIncludeCommands (self : t) : string :=
  nl +:+ "\bibliographystyle{" +:+ getStyleName self +:+ "}" +:+ nl
  +:+ "\bibliography{" +:+ m_bibFile self +:+ "}" +:+ nl.

Definition getBibFile (self : t) : string := m_bibFile self.

Definition setBibFile (bibFile : string) (useExternalFile : bool) (self : t) : t :=
  mk bibFile (m_style self) (m_customStyle self) useExternalFile (m_entries self).

Definition setStyle (style : BibStyle) (self : t) : t :=
  mk (m_bibFile self) style
     (match style with CUSTOM => m_customStyle self | _ => "" end)
     (m_useExternalFile self) (m_entries self).

Definition setCustomStyle (customStyle : string) (self : t) : t :=
  mk (m_bibFile self) CUSTOM customStyle (m_useExternalFile self) (m_entries self).

End Bibliography.

(** ** class Document *)

(** One [\usepackage] line of the package loop. *)
Definition usepackage_line (package : string * string) : string :=
  "\usepackage"
  +:+ (if String.eqb package.2 "" then "" else "[" +:+ package.2 +:+ "]")
  +:+ "{" +:+ package.1 +:+ "}" +:+ nl.

(** The whole package loop over [m_packages]. *)
Definition package_block (m_packages : gmap string string) : string :=
  str_concat (map usepackage_line (map_items m_packages)).

Module Document.

Record t := mk {
  m_type : DocumentType;
  m_title : string;
  m_author : string;
  m_date : string;
  m_language : Language;
  m_packages : gmap string string;
  m_sections : list Section.t;
  m_environments : list Environment;
  m_rawContent : list string;
  m_customPreamble : list string;
  m_usedCitations : gset string;
  m_bibliography : Bibliography.t;
  m_theoremsEnabled : bool;
  m_algorithmsEnabled : bool
}.

Definition addPackage (package options : string) (self : t) : t :=
  mk (m_type self) (m_title self) (m_author self) (m_date self)
     (m_language self) (<[package := options]> (m_packages self))
     (m_sections self) (m_environments self) (m_rawContent self)
     (m_customPreamble self) (m_usedCitations self) (m_bibliography self)
     (m_theoremsEnabled self) (m_algorithmsEnabled self).

Definition addSection (section : Section.t) (self : t) : t :=
  mk (m_type self) (m_title self) (m_author self) (m_date self)
     (m_language self) (m_packages self)
     (m_sections self ++ [section]) (m_environments self) (m_rawContent self)
     (m_customPreamble self) (m_usedCitations self) (m_bibliography self)
     (m_theoremsEnabled self) (m_algorithmsEnabled self).

Definition addEnvironment (env : Environment) (self : t) : t :=
  mk (m_type self) (m_title self) (m_author self) (m_date self)
     (m_language self) (m_packages self)
     (m_sections self) (m_environments self ++ [env]) (m_rawContent self)
     (m_customPreamble self) (m_usedCitations self) (m_bibliography self)
     (m_theoremsEnabled self) (m_algorithmsEnabled self).


Definition addInPreamble (content : string) (self : t) : t :=
  mk (m_type self) (m_title self) (m_author self) (m_date self)
     (m_language self) (m_packages self)
     (m_sections self) (m_environments self) (m_rawContent self)
     (m_customPreamble self ++ [content]) (m_usedCitations self)
     (m_bibliography self)
     (m_theoremsEnabled self) (m_algorithmsEnabled self).

Definition set_usedCitations (used : gset string) (self : t) : t :=
  mk (m_type self) (m_title self) (m_author self) (m_date self)
     (m_language self) (m_packages self)
     (m_sections self) (m_environments self) (m_rawContent self)
     (m_customPreamble self) used (m_bibliography self)
     (m_theoremsEnabled self) (m_algorithmsEnabled self).

(** [cite] and [citePages]: the new state and the returned command. *)
Definition cite (key : string) (self : t) : t * string :=
  (set_usedCitations ({[ key ]} ∪ m_usedCitations self) self,
   "\cite{" +:+ key +:+ "}").

Definition citePages (key pages : string) (self : t) : t * string :=
  (set_usedCitations ({[ key ]} ∪ m_usedCitations self) self,
   "\cite[" +:+ pages +:+ "]{" +:+ key +:+ "}").

Definition setBibliography (bibliography : Bibliography.t) (self : t) : t :=
  mk (m_type self) (m_title self) (m_author self) (m_date self)
     (m_language self) (m_packages self)
     (m_sections self) (m_environments self) (m_rawContent self)
     (m_customPreamble self) (m_usedCitations self) bibliography
     (m_theoremsEnabled self) (m_algorithmsEnabled self).

Definition enableTheorems (self : t) : t :=
  mk (m_type self) (m_title self) (m_author self) (m_date self)
     (m_language self) (m_packages self)
     (m_sections self) (m_environments self) (m_rawContent self)
     (m_customPreamble self) (m_usedCitations self) (m_bibliography self)
     true (m_algorithmsEnabled self).

Definition enableAlgorithms (self : t) : t :=
  mk (m_type self) (m_title self) (m_author self) (m_date self)
     (m_language self) (m_packages self)
     (m_sections self) (m_environments self) (m_rawContent self)
     (m_customPreamble self) (m_usedCitations self) (m_bibliography self)
     (m_theoremsEnabled self) true.

(** The constructor. *)
Definition new (type : DocumentType) (title author date : string)
    (language : Language) : t :=
  let d0 :=
    mk type title author date language ∅ [] [] [] [] ∅ Bibliography.new
       false false in
  let d1 := addPackage "fontenc" "T1" (addPackage "inputenc" "utf8" d0) in
  let d2 :=
    if decide (language = ENGLISH) then d1
    else addPackage "babel" (getBabelLanguageName language) d1 in
  match language with
  | RUSSIAN => addPackage "cyrillic" "" d2
  | CHINESE | JAPANESE => addPackage "xeCJK" "" d2
  | ARABIC => addPackage "arabxetex" "" d2
  | _ => d2
  end.

Definition getLanguageConfiguration (self : t) : string :=
  match m_language self with
  | FRENCH => "\frenchbsetup{StandardLayout=true}" +:+ nl
  | GERMAN => "\selectlanguage{ngerman}" +:+ nl
  | SPANISH => "\selectlanguage{spanish}" +:+ nl
  | ITALIAN => "\selectlanguage{italian}" +:+ nl
  | PORTUGUESE => "\selectlanguage{portuguese}" +:+ nl
  | DUTCH => "\selectlanguage{dutch}" +:+ nl
  | RUSSIAN => "\selectlanguage{russian}" +:+ nl
  | CHINESE => "\setCJKmainfont{SimSun}" +:+ nl
  | JAPANESE => "\setCJKmainfont{IPAMincho}" +:+ nl
  | ARABIC => "\setmainlanguage{arabic}" +:+ nl
  | ENGLISH => ""
  end.

Definition getDocumentClass (self : t) : string :=
  match m_type self with
  | ARTICLE => "article"
  | REPORT => "report"
  | BOOK => "book"
  | PRESENTATION => "beamer"
  end.

(** [!m_usedCitations.empty()]. *)
Definition citationsUsed (self : t) : bool :=
  negb (bool_decide (m_usedCitations self = ∅)).

(** What follows the package loop and its blank line in the preamble. *)
Definition preamble_rest (self : t) : string :=
  getLanguageConfiguration self
  +:+ opt_line "\title" (m_title self)
  +:+ opt_line "\author" (m_author self)
  +:+ opt_line "\date" (m_date self)
  +:+ (if m_theoremsEnabled self
       then TheoremEnvironment.getTheoremSetup (m_language self) else "")
  +:+ (if m_algorithmsEnabled self
       then Algorithm.getAlgorithmPackages else "")
  +:+ (if citationsUsed self
       then Bibliography.getPreambleConfig (m_bibliography self) else "")
  +:+ str_concat (map (fun content => content +:+ nl) (m_customPreamble self))
  +:+ nl.

Definition generatePreamble (self : t) : string :=
  "\documentclass{" +:+ getDocumentClass self +:+ "}" +:+ nl +:+ nl
  +:+ package_block (m_packages self)
  +:+ nl
  +:+ preamble_rest self.

(** The three loops that every [generateDocument] has. *)
Definition rawContent_block (self : t) : string :=
  str_concat (map (fun content => content +:+ nl +:+ nl) (m_rawContent self)).

Definition sections_block (sections : list Section.t) : string :=
  str_concat (map (fun section => Section.generate section +:+ nl) sections).

Definition environments_block (self : t) : string :=
  str_concat
    (map (fun env => Environment_generate env +:+ nl) (m_environments self)).

(** [if (!m_usedCitations.empty())
    ss << m_bibliography.getIncludeCommands() << "\n";] *)
Definition bibliography_block (self : t) : string :=
  if citationsUsed self
  then Bibliography.getIncludeCommands (m_bibliography self) +:+ nl
  else "".

Definition generateDocument (self : t) : string :=
  "\begin{document}" +:+ nl +:+ nl
  +:+ (if String.eqb (m_title self) "" then ""
       else "\maketitle" +:+ nl +:+ nl)
  +:+ rawContent_block self
  +:+ sections_block (m_sections self)
  +:+ environments_block self
  +:+ bibliography_block self
  +:+ "\end{document}" +:+ nl.

(** The convenience constructors of [Document].  Each returns the document
    with the new environment attached last; the handle it returns in C++ is
    that last element. *)
Definition addFigure (imagePath caption label width position : string)
    (self : t) : t :=
  let figure :=
    Figure.setWidth width (Figure.setCaption caption (Figure.new imagePath position)) in
  let figure :=
    if String.eqb label "" then figure else Figure.setLabel label figure in
  addEnvironment (EnvFigure figure) (addPackage "graphicx" "" self).

Definition addTable (headers : list string) (caption label position : string)
    (self : t) : t :=
  let table := Table.setCaption caption (Table.new headers position) in
  let table :=
    if String.eqb label "" then table else Table.setLabel label table in
  addEnvironment (EnvTable table) self.

Definition addList (type : List.ListType) (self : t) : t :=
  addEnvironment (EnvList (List.new type)) self.


Definition addAlgorithm (caption label : string) (self : t) : t :=
  let algorithm := Algorithm.new caption in
  let algorithm :=
    if String.eqb label "" then algorithm else Algorithm.setLabel label algorithm in
  addEnvironment (EnvAlgorithm algorithm) (enableAlgorithms self).

Definition addTheorem (type : TheoremEnvironment.Type_) (content title : string)
    (self : t) : t :=
  addEnvironment (EnvTheorem (TheoremEnvironment.new type content title))
    (enableTheorems self).

End Document.

(** ** Text shared by the variants *)

(** The six [literate=] lines of the two [\lstset] blocks (the same text in
    [Article::generatePreamble] and [Presentation::generatePreamble]). *)
Definition lstset_literate : string :=
  "  literate={é}{{\'e}}1 {è}{{\`e}}1 {ê}{{\^e}}1 {ë}{{\" +:+ dq +:+ "e}}1" +:+ nl
  +:+ "           {à}{{\`a}}1 {â}{{\^a}}1 {ä}{{\" +:+ dq +:+ "a}}1" +:+ nl
  +:+ "           {î}{{\^i}}1 {ï}{{\" +:+ dq +:+ "i}}1" +:+ nl
  +:+ "           {ô}{{\^o}}1 {ö}{{\" +:+ dq +:+ "o}}1" +:+ nl
  +:+ "           {ù}{{\`u}}1 {û}{{\^u}}1 {ü}{{\" +:+ dq +:+ "u}}1" +:+ nl
  +:+ "           {ç}{{\c c}}1" +:+ nl.

(** The [indexTitle] switch of [Article] and [Book]. *)
Definition indexTitle (language : Language) : string :=
  match language with
  | FRENCH => "Index alphabétique"
  | GERMAN => "Alphabetischer Index"
  | SPANISH => "Índice alfabético"
  | ITALIAN => "Indice alfabetico"
  | PORTUGUESE => "Índice alfabético"
  | DUTCH => "Alfabetische index"
  | RUSSIAN => "Алфавитный указатель"
  | CHINESE => "索引"
  | JAPANESE => "索引"
  | ARABIC => "فهرس"
  | ENGLISH => "Alphabetical Index"
  end.

Definition makeindex_line (language : Language) : string :=
  "\makeindex[columns=2, title=" +:+ indexTitle language +:+ ", intoc]"
  +:+ nl +:+ nl.

Definition abstract_block (m_abstract : string) : string :=
  if String.eqb m_abstract "" then ""
  else "\begin{abstract}" +:+ nl +:+ m_abstract +:+ nl
       +:+ "\end{abstract}" +:+ nl +:+ nl.

(** ** class Article *)

Module Article.

(** [m_customPreamble] shadows the member of the base class.
    [m_includeTableOfContents] is read by [Article::generateDocument]; the
    header under src/ does not declare it in [Article], so it is taken as one
    more boolean member. *)
Record t := mk {
  base : Document.t;
  m_abstract : string;
  m_customPreamble : list string;
  m_keywords : list string;
  m_includeIndex : bool;
  m_includeTableOfContents : bool
}.

Definition set_base (d : Document.t) (self : t) : t :=
  mk d (m_abstract self) (m_customPreamble self) (m_keywords self)
     (m_includeIndex self) (m_includeTableOfContents self).

Definition new (title author date : string) (language : Language) : t :=
  let d := Document.new ARTICLE title author date language in
  let d :=
    Document.addPackage "graphicx" ""
      (Document.addPackage "amsmath" ""
         (Document.addPackage "geometry" "margin=1in" d)) in
  mk d "" [] [] false false.

Definition setAbstract (abstract : string) (self : t) : t :=
  mk (base self) abstract (m_customPreamble self) (m_keywords self)
     (m_includeIndex self) (m_includeTableOfContents self).

Definition addInPreamble (content : string) (self : t) : t :=
  mk (base self) (m_abstract self) (m_customPreamble self ++ [content])
     (m_keywords self) (m_includeIndex self) (m_includeTableOfContents self).

Definition addKeyword (keyword : string) (self : t) : t :=
  mk (base self) (m_abstract self) (m_customPreamble self)
     (m_keywords self ++ [keyword]) (m_includeIndex self)
     (m_includeTableOfContents self).


Definition includeIndex (include : bool) (self : t) : t :=
  mk (if include then Document.addPackage "imakeidx" "" (base self)
      else base self)
     (m_abstract self) (m_customPreamble self) (m_keywords self) include
     (m_includeTableOfContents self).

(** The bibliography is stored; the sample [.bib] file that
    [createBibFile] may write is outside the model. *)
Definition setBibliography (bibliography : Bibliography.t) (self : t) : t :=
  set_base (Document.setBibliography bibliography (base self)) self.

Definition keywordsTitle (language : Language) : string :=
  match language with
  | FRENCH => "Mots-clés:"
  | GERMAN => "Schlüsselwörter:"
  | SPANISH => "Palabras clave:"
  | ITALIAN => "Parole chiave:"
  | PORTUGUESE => "Palavras-chave:"
  | DUTCH => "Trefwoorden:"
  | RUSSIAN => "Ключевые слова:"
  | CHINESE => "关键词:"
  | JAPANESE => "キーワード:"
  | ARABIC => "الكلمات المفتاحية:"
  | ENGLISH => "Keywords:"
  end.

Definition is_empty {A} (l : list A) : bool :=
  match l with [] => true | _ => false end.

Definition generatePreamble (self : t) : string :=
  Document.generatePreamble (base self)
  +:+ "\lstset{" +:+ nl
  +:+ "  basicstyle=\small\ttfamily," +:+ nl
  +:+ "  keywordstyle=\color{blue}\bfseries," +:+ nl
  +:+ "  commentstyle=\color{green!60!black}\itshape," +:+ nl
  +:+ "  stringstyle=\color{purple}," +:+ nl
  +:+ "  frame=single," +:+ nl
  +:+ "  breaklines=true," +:+ nl
  +:+ "  showstringspaces=false," +:+ nl
  +:+ "  inputencoding=utf8," +:+ nl
  +:+ "  extendedchars=true," +:+ nl
  +:+ lstset_literate
  +:+ "}" +:+ nl +:+ nl
  +:+ str_concat (map (fun content => content +:+ nl) (m_customPreamble self))
  +:+ (if is_empty (m_keywords self) then ""
       else "\providecommand{\keywords}[1]{\par\noindent\textbf{"
            +:+ keywordsTitle (Document.m_language (base self))
            +:+ "} #1}" +:+ nl +:+ nl)
  +:+ (if m_includeIndex self
       then makeindex_line (Document.m_language (base self)) else "").

(** The keyword loop: [ss << m_keywords[i]; if (i < size - 1) ss << ", ";]
    from index [i] on, [size - 1] being evaluated for a non-empty vector
    only. *)
Fixpoint keywords_from (size i : nat) (keywords : list string) : string :=
  match keywords with
  | [] => ""
  | keyword :: keywords' =>
      keyword +:+ (if i <? size - 1 then ", " else "")
      +:+ keywords_from size (S i) keywords'
  end.

(** The title block: [\maketitle] and, nested in the same [if], the keyword
    line. *)
Definition title_block (self : t) : string :=
  if String.eqb (Document.m_title (base self)) "" then ""
  else
    "\maketitle" +:+ nl +:+ nl
    +:+ (if is_empty (m_keywords self) then ""
         else "\keywords{"
              +:+ keywords_from (length (m_keywords self)) 0 (m_keywords self)
              +:+ "}" +:+ nl +:+ nl).

(** What is written after the title block. *)
Definition after_title_block (self : t) : string :=
  abstract_block (m_abstract self)
  +:+ (if m_includeTableOfContents self
       then "\tableofcontents" +:+ nl +:+ "\clearpage" +:+ nl +:+ nl else "")
  +:+ Document.rawContent_block (base self)
  +:+ Document.sections_block (Document.m_sections (base self))
  +:+ Document.environments_block (base self)
  +:+ Document.bibliography_block (base self)
  +:+ "\end{document}" +:+ nl.

Definition generateDocument (self : t) : string :=
  "\begin{document}" +:+ nl +:+ nl
  +:+ title_block self
  +:+ after_title_block self.

End Article.

(** ** class Report *)

Module Report.

Record t := mk {
  base : Document.t;
  m_abstract : string;
  m_includeTableOfContents : bool;
  m_includeListOfFigures : bool;
  m_includeListOfTables : bool
}.

Definition set_base (d : Document.t) (self : t) : t :=
  mk d (m_abstract self) (m_includeTableOfContents self)
     (m_includeListOfFigures self) (m_includeListOfTables self).

Definition new (title author date : string) (language : Language) : t :=
  let d := Document.new REPORT title author date language in
  let d :=
    Document.addPackage "tocloft" ""
      (Document.addPackage "hyperref" ""
         (Document.addPackage "graphicx" ""
            (Document.addPackage "amsmath" ""
               (Document.addPackage "geometry" "margin=1in" d)))) in
  mk d "" false false false.

Definition setAbstract (abstract : string) (self : t) : t :=
  mk (base self) abstract (m_includeTableOfContents self)
     (m_includeListOfFigures self) (m_includeListOfTables self).

Definition includeTableOfContents (include : bool) (self : t) : t :=
  mk (base self) (m_abstract self) include
     (m_includeListOfFigures self) (m_includeListOfTables self).

Definition includeListOfFigures (include : bool) (self : t) : t :=
  mk (base self) (m_abstract self) (m_includeTableOfContents self)
     include (m_includeListOfTables self).

Definition includeListOfTables (include : bool) (self : t) : t :=
  mk (base self) (m_abstract self) (m_includeTableOfContents self)
     (m_includeListOfFigures self) include.

Definition generatePreamble (self : t) : string :=
  Document.generatePreamble (base self).

Definition generateDocument (self : t) : string :=
  "\begin{document}" +:+ nl +:+ nl
  +:+ (if String.eqb (Document.m_title (base self)) "" then ""
       else "\maketitle" +:+ nl +:+ nl)
  +:+ abstract_block (m_abstract self)
  +:+ (if m_includeTableOfContents self
       then "\tableofcontents" +:+ nl +:+ "\clearpage" +:+ nl +:+ nl else "")
  +:+ (if m_includeListOfFigures self
       then "\listoffigures" +:+ nl +:+ "\clearpage" +:+ nl +:+ nl else "")
  +:+ (if m_includeListOfTables self
       then "\listoftables" +:+ nl +:+ "\clearpage" +:+ nl +:+ nl else "")
  +:+ Document.rawContent_block (base self)
  +:+ Document.sections_block (Document.m_sections (base self))
  +:+ Document.environments_block (base self)
  +:+ "\end{document}" +:+ nl.

End Report.

(** ** class Book *)

(** Conversion of a [size_t] to [int], as [m_currentPart = m_parts.size() - 1]
    does it: modulo 2^32, in two's complement. *)
Definition to_int (z : Z) : Z :=
  ((z + 2 ^ 31) mod 2 ^ 32 - 2 ^ 31)%Z.

Module Book.

Record t := mk {
  base : Document.t;
  m_abstract : string;
  m_includeTableOfContents : bool;
  m_includeListOfFigures : bool;
  m_includeListOfTables : bool;
  m_includeIndex : bool;
  m_parts : list string;
  m_partChapters : gmap nat (list Section.t);
  m_appendices : list Section.t;
  m_currentPart : Z
}.

Definition set_base (d : Document.t) (self : t) : t :=
  mk d (m_abstract self) (m_includeTableOfContents self)
     (m_includeListOfFigures self) (m_includeListOfTables self)
     (m_includeIndex self) (m_parts self) (m_partChapters self)
     (m_appendices self) (m_currentPart self).

Definition new (title author date : string) (language : Language) : t :=
  let d := Document.new BOOK title author date language in
  let d :=
    Document.addPackage "bookmark" ""
      (Document.addPackage "tocloft" ""
         (Document.addPackage "hyperref" ""
            (Document.addPackage "graphicx" ""
               (Document.addPackage "amsmath" ""
                  (Document.addPackage "geometry" "margin=1in" d))))) in
  mk d "" false false false false [] ∅ [] (-1).

Definition setAbstract (abstract : string) (self : t) : t :=
  mk (base self) abstract (m_includeTableOfContents self)
     (m_includeListOfFigures self) (m_includeListOfTables self)
     (m_includeIndex self) (m_parts self) (m_partChapters self)
     (m_appendices self) (m_currentPart self).

Definition includeTableOfContents (include : bool) (self : t) : t :=
  mk (base self) (m_abstract self) include
     (m_includeListOfFigures self) (m_includeListOfTables self)
     (m_includeIndex self) (m_parts self) (m_partChapters self)
     (m_appendices self) (m_currentPart self).

Definition includeListOfFigures (include : bool) (self : t) : t :=
  mk (base self) (m_abstract self) (m_includeTableOfContents self)
     include (m_includeListOfTables self)
     (m_includeIndex self) (m_parts self) (m_partChapters self)
     (m_appendices self) (m_currentPart self).

Definition includeListOfTables (include : bool) (self : t) : t :=
  mk (base self) (m_abstract self) (m_includeTableOfContents self)
     (m_includeListOfFigures self) include
     (m_includeIndex self) (m_parts self) (m_partChapters self)
     (m_appendices self) (m_currentPart self).

Definition includeIndex (include : bool) (self : t) : t :=
  mk (if include then Document.addPackage "imakeidx" "" (base self)
      else base self)
     (m_abstract self) (m_includeTableOfContents self)
     (m_includeListOfFigures self) (m_includeListOfTables self)
     include (m_parts self) (m_partChapters self)
     (m_appendices self) (m_currentPart self).

Definition addPart (title : string) (self : t) : t :=
  let parts := m_parts self ++ [title] in
  mk (base self) (m_abstract self) (m_includeTableOfContents self)
     (m_includeListOfFigures self) (m_includeListOfTables self)
     (m_includeIndex self) parts (m_partChapters self)
     (m_appendices self) (to_int (Z.of_nat (length parts) - 1)).

(** [if (m_currentPart >= 0 && m_currentPart < m_parts.size())
    m_partChapters[m_currentPart].push_back(chapter);]  The second comparison
    and the subscript convert [m_currentPart] to [size_t]; they are reached
    for a non-negative value only, which the conversion keeps.  The subscript
    creates an empty vector for a key that is not in the map. *)
Definition addChapterToPart (chapter : Section.t) (self : t) : t :=
  if ((0 <=? m_currentPart self)%Z
      && (m_currentPart self <? Z.of_nat (length (m_parts self)))%Z)%bool
  then
    let key := Z.to_nat (m_currentPart self) in
    let chapters := default [] (m_partChapters self !! key) in
    mk (base self) (m_abstract self) (m_includeTableOfContents self)
       (m_includeListOfFigures self) (m_includeListOfTables self)
       (m_includeIndex self) (m_parts self)
       (<[key := chapters ++ [chapter]]> (m_partChapters self))
       (m_appendices self) (m_currentPart self)
  else self.

Definition addAppendix (appendix : Section.t) (self : t) : t :=
  mk (base self) (m_abstract self) (m_includeTableOfContents self)
     (m_includeListOfFigures self) (m_includeListOfTables self)
     (m_includeIndex self) (m_parts self) (m_partChapters self)
     (m_appendices self ++ [appendix]) (m_currentPart self).

Definition generatePreamble (self : t) : string :=
  Document.generatePreamble (base self)
  +:+ (if m_includeIndex self
       then makeindex_line (Document.m_language (base self)) else "")
  +:+ "\providecommand{\abstractname}{Abstract}" +:+ nl
  +:+ "\ifdefined\abstract\else" +:+ nl
  +:+ "  \newenvironment{abstract}{\chapter*{\abstractname}}{}" +:+ nl
  +:+ "\fi" +:+ nl.

(** One round of the loop over the part indices: the [\part] line, then the
    chapters that [m_partChapters.find(i)] gives, if any. *)
Definition part_text (m_partChapters : gmap nat (list Section.t))
    (i : nat) (part : string) : string :=
  "\part{" +:+ part +:+ "}" +:+ nl +:+ nl
  +:+ match m_partChapters !! i with
      | Some chapters => Document.sections_block chapters
      | None => ""
      end.

Definition parts_block (self : t) : string :=
  str_concat (imap (part_text (m_partChapters self)) (m_parts self)).

(** The body before and after the parts. *)
Definition front (self : t) : string :=
  "\begin{document}" +:+ nl +:+ nl
  +:+ "\maketitle" +:+ nl +:+ nl
  +:+ abstract_block (m_abstract self)
  +:+ (if m_includeTableOfContents self
       then "\tableofcontents" +:+ nl +:+ nl else "")
  +:+ (if m_includeListOfFigures self
       then "\listoffigures" +:+ nl +:+ nl else "")
  +:+ (if m_includeListOfTables self
       then "\listoftables" +:+ nl +:+ nl else "").

Definition back (self : t) : string :=
  Document.sections_block (Document.m_sections (base self))
  +:+ Document.environments_block (base self)
  +:+ Document.rawContent_block (base self)
  +:+ (match m_appendices self with
       | [] => ""
       | _ => "\appendix" +:+ nl +:+ nl
              +:+ Document.sections_block (m_appendices self)
       end)
  +:+ (if m_includeIndex self then "\printindex" +:+ nl +:+ nl else "")
  +:+ "\end{document}" +:+ nl.

Definition generateDocument (self : t) : string :=
  front self +:+ parts_block self +:+ back self.

End Book.

(** ** class Presentation *)

Module Presentation.

Inductive Theme :=
  THEME_DEFAULT | BERKELEY | MADRID | ANTIBES | COPENHAGEN | BERLIN
| MANHATTAN | WARSAW | SINGAPORE.

Inductive ColorTheme :=
  COLOR_DEFAULT | BEAVER | CRANE | DOLPHIN | DOVE | FLY | SEAGULL | WOLVERINE.

Inductive Transition :=
  NONE | FADE | PUSH | COVER | UNCOVER | SPLIT | BLINDS | WIPE.

Record t := mk {
  base : Document.t;
  m_institute : string;
  m_subtitle : string;
  m_theme : Theme;
  m_colorTheme : ColorTheme;
  m_transition : Transition;
  m_showNavigation : bool;
  m_slides : list (string * list string);
  m_structure : list (Section.Level * string * bool)
}.

Definition set_base (d : Document.t) (self : t) : t :=
  mk d (m_institute self) (m_subtitle self) (m_theme self)
     (m_colorTheme self) (m_transition self) (m_showNavigation self)
     (m_slides self) (m_structure self).

Definition new (title author date : string) (language : Language)
    (theme : Theme) (colorTheme : ColorTheme) : t :=
  let d := Document.new PRESENTATION title author date language in
  let d :=
    Document.addPackage "xcolor" ""
      (Document.addPackage "listings" ""
         (Document.addPackage "hyperref" ""
            (Document.addPackage "graphicx" "" d))) in
  mk d "" "" theme colorTheme NONE true [] [].

(** [addSlide(title, content)] with a vector of lines; the overload with one
    string passes the one-line vector. *)
Definition addSlide (title : string) (content : list string) (self : t) : t :=
  mk (base self) (m_institute self) (m_subtitle self) (m_theme self)
     (m_colorTheme self) (m_transition self) (m_showNavigation self)
     (m_slides self ++ [(title, content)]) (m_structure self).

Definition add_structure (item : Section.Level * string * bool) (self : t) : t :=
  mk (base self) (m_institute self) (m_subtitle self) (m_theme self)
     (m_colorTheme self) (m_transition self) (m_showNavigation self)
     (m_slides self) (m_structure self ++ [item]).

Definition addSection (title : string) (createFrame : bool) :=
  add_structure (Section.SECTION, title, createFrame).
Definition addSubsection (title : string) (createFrame : bool) :=
  add_structure (Section.SUBSECTION, title, createFrame).
Definition addSubsubsection (title : string) (createFrame : bool) :=
  add_structure (Section.SUBSUBSECTION, title, createFrame).

Definition getThemeName (self : t) : string :=
  match m_theme self with
  | BERKELEY => "Berkeley"
  | MADRID => "Madrid"
  | ANTIBES => "Antibes"
  | COPENHAGEN => "Copenhagen"
  | BERLIN => "Berlin"
  | MANHATTAN => "Manhattan"
  | WARSAW => "Warsaw"
  | SINGAPORE => "Singapore"
  | THEME_DEFAULT => "default"
  end.

Definition getColorThemeName (self : t) : string :=
  match m_colorTheme self with
  | BEAVER => "beaver"
  | CRANE => "crane"
  | DOLPHIN => "dolphin"
  | DOVE => "dove"
  | FLY => "fly"
  | SEAGULL => "seagull"
  | WOLVERINE => "wolverine"
  | COLOR_DEFAULT => "default"
  end.

Definition getTransitionName (self : t) : string :=
  match m_transition self with
  | FADE => "transparent"
  | PUSH => "push"
  | COVER => "dynamic"
  | UNCOVER => "invisible"
  | SPLIT => "split"
  | BLINDS => "dynamic"
  | WIPE => "dynamic"
  | NONE => "invisible"
  end.

Definition getLevelCommand (level : Section.Level) : string :=
  match level with
  | Section.SECTION => "\section"
  | Section.SUBSECTION => "\subsection"
  | Section.SUBSUBSECTION => "\subsubsection"
  | Section.CHAPTER => "\section"
  end.

Definition generatePreamble (self : t) : string :=
  "\documentclass{beamer}" +:+ nl +:+ nl
  +:+ package_block (Document.m_packages (base self))
  +:+ nl
  +:+ "\lstset{" +:+ nl
  +:+ "  basicstyle=\small\ttfamily," +:+ nl
  +:+ "  breaklines=true," +:+ nl
  +:+ "  inputencoding=utf8," +:+ nl
  +:+ "  extendedchars=true," +:+ nl
  +:+ lstset_literate
  +:+ "}" +:+ nl +:+ nl
  +:+ Document.getLanguageConfiguration (base self)
  +:+ (match m_theme self with
       | THEME_DEFAULT => ""
       | _ => "\usetheme{" +:+ getThemeName self +:+ "}" +:+ nl
       end)
  +:+ (match m_colorTheme self with
       | COLOR_DEFAULT => ""
       | _ => "\usecolortheme{" +:+ getColorThemeName self +:+ "}" +:+ nl
       end)
  +:+ (match m_transition self with
       | NONE => ""
       | _ => "\setbeamercovered{" +:+ getTransitionName self +:+ "}" +:+ nl
       end)
  +:+ (if m_showNavigation self then ""
       else "\setbeamertemplate{navigation symbols}{}" +:+ nl)
  +:+ opt_line "\title" (Document.m_title (base self))
  +:+ opt_line "\subtitle" (m_subtitle self)
  +:+ opt_line "\author" (Document.m_author (base self))
  +:+ opt_line "\institute" (m_institute self)
  +:+ opt_line "\date" (Document.m_date (base self))
  +:+ nl.

(** One round of the loop over [m_structure]. *)
Definition structure_text (structureItem : Section.Level * string * bool)
    : string :=
  let '(level, title, createFrame) := structureItem in
  getLevelCommand level +:+ "{" +:+ title +:+ "}" +:+ nl +:+ nl
  +:+ (if createFrame then
         "\begin{frame}" +:+ nl
         +:+ "\"
         +:+ match level with
             | Section.SECTION => "sectionpage"
             | Section.SUBSECTION => "subsectionpage"
             | _ => "begin{center}\Large " +:+ title +:+ "\end{center}"
             end
         +:+ nl +:+ "\end{frame}" +:+ nl +:+ nl
       else "").

(** The inner loop that sets [needsFragile] and breaks at the first line
    with the marker. *)
Fixpoint needsFragile (content : list string) : bool :=
  match content with
  | [] => false
  | line :: content' =>
      if contains "\begin{lstlisting}" line then true
      else needsFragile content'
  end.

(** One round of the loop over [m_slides]. *)
Definition slide_frame (slide : string * list string) : string :=
  (if needsFragile slide.2
   then "\begin{frame}[fragile]{" +:+ slide.1 +:+ "}" +:+ nl
   else "\begin{frame}{" +:+ slide.1 +:+ "}" +:+ nl)
  +:+ str_concat (map (fun content => content +:+ nl) slide.2)
  +:+ "\end{frame}" +:+ nl +:+ nl.

(** One round of the loop over [m_sections].  [endPos + 1] is [0] when
    [endPos] is [npos]; the rendered text of a section always has both
    braces, the opening one first. *)
Definition section_frame (section : Section.t) : string :=
  let sectionContent := Section.generate section in
  let startPos := str_find "{" sectionContent 0 in
  let endPos := str_find "}" sectionContent 0 in
  let title :=
    match startPos, endPos with
    | Some s, Some e => substr sectionContent (s + 1) (e - s - 1)
    | _, _ => "Section"
    end in
  let content :=
    substr_from sectionContent
      (match endPos with Some e => e + 1 | None => 0 end) in
  "\section{" +:+ title +:+ "}" +:+ nl +:+ nl
  +:+ "\begin{frame}{" +:+ title +:+ "}" +:+ nl
  +:+ sanitizeMathContent content
  +:+ "\end{frame}" +:+ nl +:+ nl.

(** One round of the loop over [m_environments]. *)
Definition environment_frame (env : Environment) : string :=
  let envContent := Environment_generate env in
  (if contains "\begin{lstlisting}" envContent
   then "\begin{frame}[fragile]" +:+ nl
   else "\begin{frame}" +:+ nl)
  +:+ envContent +:+ nl
  +:+ "\end{frame}" +:+ nl +:+ nl.

Definition slides_block (self : t) : string :=
  str_concat (map slide_frame (m_slides self)).

Definition generateDocument (self : t) : string :=
  "\begin{document}" +:+ nl +:+ nl
  +:+ (if String.eqb (Document.m_title (base self)) "" then ""
       else "\begin{frame}" +:+ nl +:+ "\titlepage" +:+ nl
            +:+ "\end{frame}" +:+ nl +:+ nl)
  +:+ "\begin{frame}{Plan}" +:+ nl
  +:+ "\tableofcontents" +:+ nl
  +:+ "\end{frame}" +:+ nl +:+ nl
  +:+ Document.rawContent_block (base self)
  +:+ str_concat (map structure_text (m_structure self))
  +:+ slides_block self
  +:+ str_concat (map section_frame (Document.m_sections (base self)))
  +:+ str_concat (map environment_frame (Document.m_environments (base self)))
  +:+ "\end{document}" +:+ nl.

End Presentation.

(** ** Virtual dispatch: a document of any class

    [generate()] is declared virtual in [Document] and overridden nowhere;
    [generatePreamble()] and [generateDocument()] are overridden by the four
    subclasses. *)

Inductive AnyDocument :=
| DocPlain (d : Document.t)
| DocArticle (d : Article.t)
| DocReport (d : Report.t)
| DocBook (d : Book.t)
| DocPresentation (d : Presentation.t).

(** The [Document] subobject. *)
Definition base_of (doc : AnyDocument) : Document.t :=
  match doc with
  | DocPlain d => d
  | DocArticle d => Article.base d
  | DocReport d => Report.base d
  | DocBook d => Book.base d
  | DocPresentation d => Presentation.base d
  end.

Definition with_base (f : Document.t -> Document.t) (doc : AnyDocument)
    : AnyDocument :=
  match doc with
  | DocPlain d => DocPlain (f d)
  | DocArticle d => DocArticle (Article.set_base (f (Article.base d)) d)
  | DocReport d => DocReport (Report.set_base (f (Report.base d)) d)
  | DocBook d => DocBook (Book.set_base (f (Book.base d)) d)
  | DocPresentation d =>
      DocPresentation (Presentation.set_base (f (Presentation.base d)) d)
  end.

Definition generatePreamble (doc : AnyDocument) : string :=
  match doc with
  | DocPlain d => Document.generatePreamble d
  | DocArticle d => Article.generatePreamble d
  | DocReport d => Report.generatePreamble d
  | DocBook d => Book.generatePreamble d
  | DocPresentation d => Presentation.generatePreamble d
  end.

Definition generateDocument (doc : AnyDocument) : string :=
  match doc with
  | DocPlain d => Document.generateDocument d
  | DocArticle d => Article.generateDocument d
  | DocReport d => Report.generateDocument d
  | DocBook d => Book.generateDocument d
  | DocPresentation d => Presentation.generateDocument d
  end.

Definition generate (doc : AnyDocument) : string :=
  generatePreamble doc +:+ generateDocument doc.

(** The methods inherited from [Document], on a document of any class. *)
Definition addPackage (package options : string) : AnyDocument -> AnyDocument :=
  with_base (Document.addPackage package options).

Definition cite (key : string) (doc : AnyDocument) : AnyDocument * string :=
  (with_base (fun d => (Document.cite key d).1) doc,
   (Document.cite key (base_of doc)).2).

Definition citePages (key pages : string) (doc : AnyDocument)
    : AnyDocument * string :=
  (with_base (fun d => (Document.citePages key pages d).1) doc,
   (Document.citePages key pages (base_of doc)).2).

Definition setBibliography (bibliography : Bibliography.t)
    : AnyDocument -> AnyDocument :=
  with_base (Document.setBibliography bibliography).

(** [doc.addInPreamble(content)] on an object of static class [T]: the
    method is not virtual, [Article] declares its own, which fills the
    member of [Article]; the other classes inherit the one of [Document]. *)
Definition addInPreamble (content : string) (doc : AnyDocument) : AnyDocument :=
  match doc with
  | DocArticle d => DocArticle (Article.addInPreamble content d)
  | _ => with_base (Document.addInPreamble content) doc
  end.

(** ** class DocumentTemplate *)

Module DocumentTemplate.

Record t := mk {
  m_name : string;
  m_packages : gmap string string;
  m_preambleContent : list string;
  m_geometry : string;
  m_headerFooterStyle : string;
  m_headerLeft : string;
  m_headerCenter : string;
  m_headerRight : string;
  m_footerLeft : string;
  m_footerCenter : string;
  m_footerRight : string
}.

Definition new (name : string) : t := mk name ∅ [] "" "" "" "" "" "" "" "".

Definition addPackage (package options : string) (self : t) : t :=
  mk (m_name self) (<[package := options]> (m_packages self))
     (m_preambleContent self) (m_geometry self) (m_headerFooterStyle self)
     (m_headerLeft self) (m_headerCenter self) (m_headerRight self)
     (m_footerLeft self) (m_footerCenter self) (m_footerRight self).

Definition addPreambleContent (content : string) (self : t) : t :=
  mk (m_name self) (m_packages self)
     (m_preambleContent self ++ [content]) (m_geometry self)
     (m_headerFooterStyle self)
     (m_headerLeft self) (m_headerCenter self) (m_headerRight self)
     (m_footerLeft self) (m_footerCenter self) (m_footerRight self).

Definition setGeometry (options : string) (self : t) : t :=
  mk (m_name self) (m_packages self)
     (m_preambleContent self) options (m_headerFooterStyle self)
     (m_headerLeft self) (m_headerCenter self) (m_headerRight self)
     (m_footerLeft self) (m_footerCenter self) (m_footerRight self).

Definition setHeaderFooterStyle (style : string) (self : t) : t :=
  mk (m_name self) (m_packages self)
     (m_preambleContent self) (m_geometry self) style
     (m_headerLeft self) (m_headerCenter self) (m_headerRight self)
     (m_footerLeft self) (m_footerCenter self) (m_footerRight self).

Definition setHeader (left center right : string) (self : t) : t :=
  mk (m_name self) (m_packages self)
     (m_preambleContent self) (m_geometry self) (m_headerFooterStyle self)
     left center right
     (m_footerLeft self) (m_footerCenter self) (m_footerRight self).

Definition setFooter (left center right : string) (self : t) : t :=
  mk (m_name self) (m_packages self)
     (m_preambleContent self) (m_geometry self) (m_headerFooterStyle self)
     (m_headerLeft self) (m_headerCenter self) (m_headerRight self)
     left center right.

Definition all_empty (a b c : string) : bool :=
  String.eqb a "" && String.eqb b "" && String.eqb c "".

(** The text of [headerFooterConfig], for a document with the given title
    and author. *)
Definition headerFooterConfig (self : t) (title author : string) : string :=
  "\providecommand{\thetitle}{" +:+ title +:+ "}" +:+ nl
  +:+ "\providecommand{\theauthor}{" +:+ author +:+ "}" +:+ nl
  +:+ "\pagestyle{" +:+ m_headerFooterStyle self +:+ "}" +:+ nl
  +:+ (if all_empty (m_headerLeft self) (m_headerCenter self) (m_headerRight self)
       then ""
       else "\lhead{" +:+ m_headerLeft self +:+ "}" +:+ nl
            +:+ "\chead{" +:+ m_headerCenter self +:+ "}" +:+ nl
            +:+ "\rhead{" +:+ m_headerRight self +:+ "}" +:+ nl)
  +:+ (if all_empty (m_footerLeft self) (m_footerCenter self) (m_footerRight self)
       then ""
       else "\lfoot{" +:+ m_footerLeft self +:+ "}" +:+ nl
            +:+ "\cfoot{" +:+ m_footerCenter self +:+ "}" +:+ nl
            +:+ "\rfoot{" +:+ m_footerRight self +:+ "}" +:+ nl).

(** [doc.addPackage(package, options)], the method of [Document]. *)
Definition doc_addPackage (package options : string)
    : AnyDocument -> AnyDocument :=
  with_base (Document.addPackage package options).

(** [applyTo(doc)], for a document whose static class is its own class. *)
Definition applyTo (self : t) (doc : AnyDocument) : AnyDocument :=
  let doc :=
    foldl (fun d package => doc_addPackage package.1 package.2 d) doc
          (map_items (m_packages self)) in
  let doc :=
    if String.eqb (m_geometry self) "" then doc
    else doc_addPackage "geometry" (m_geometry self) doc in
  let doc :=
    if String.eqb (m_headerFooterStyle self) "" then doc
    else
      let doc := doc_addPackage "fancyhdr" "" doc in
      addInPreamble
        (headerFooterConfig self (Document.m_title (base_of doc))
           (Document.m_author (base_of doc)))
        doc in
  foldl (fun d content => addInPreamble content d) doc (m_preambleContent self).

End DocumentTemplate.

(** ** Member functions as state transformers

    For the question whether a call changes the object it is made on, a
    member function is a function from the object before the call to its
    result and the object after the call, and the statements of its body
    are transformers of the pair of the object and the local stream [ss]
    (or the local string that collects the result).  Every statement
    receives the object that the statement before it left. *)

Module Method.

Definition method (Obj A : Type) : Type := Obj -> A * Obj.
Definition body (Obj : Type) : Type := Obj * string -> Obj * string.

Section statements.
Context {Obj : Type}.

(** Nothing, as in a [case] that only has [break]. *)
Definition skip : body Obj := fun st => st.

(** [first; second] *)
Definition andthen (first second : body Obj) : body Obj :=
  fun st => second (first st).

(** [ss << text], [result += text]: [text] may read members. *)
Definition put (text : Obj -> string) : body Obj :=
  fun st => (st.1, st.2 +:+ text st.1).

(** [result = text] *)
Definition assign (text : Obj -> string) : body Obj :=
  fun st => (st.1, text st.1).

(** [if (cond) { then_ }] and [if (cond) { then_ } else { else_ }] *)
Definition when (cond : Obj -> bool) (then_ : body Obj) : body Obj :=
  fun st => if cond st.1 then then_ st else st.

Definition if_else (cond : Obj -> bool) (then_ else_ : body Obj) : body Obj :=
  fun st => if cond st.1 then then_ st else else_ st.

(** [switch (tag) { case t: cases t; break; ... }] *)
Definition switch {T} (tag : Obj -> T) (cases : T -> body Obj) : body Obj :=
  fun st => cases (tag st.1) st.

(** [T x = value; rest], for a local variable that is not assigned again. *)
Definition local {A} (value : Obj -> A) (rest : A -> body Obj) : body Obj :=
  fun st => rest (value st.1) st.

(** [for (const auto &x : items) { round x }], the container being read
    when the loop starts. *)
Definition for_each {A} (items : Obj -> list A) (round : A -> body Obj)
    : body Obj :=
  fun st => foldl (fun st x => round x st) st (items st.1).

(** [for (size_t i = 0; i < bound; ++i) { round i }] *)
Definition for_index (bound : Obj -> nat) (round : nat -> body Obj) : body Obj :=
  for_each (fun o => seq 0 (bound o)) round.

(** [r = m(); rest r]: a call of a member function on the same object. *)
Definition call {A} (m : method Obj A) (rest : A -> body Obj) : body Obj :=
  fun st => let r := m st.1 in rest r.1 (r.2, st.2).

(** [std::stringstream ss; statements; return ss.str();] *)
Definition returns (statements : body Obj) : method Obj string :=
  fun o => let st := statements (o, "") in (st.2, st.1).

(** [return value;] *)
Definition result_of {A} (value : Obj -> A) : method Obj A :=
  fun o => (value o, o).

End statements.

(** [member.m()]: a call on a member object, or on the base class part. *)
Definition on_member {Obj Sub A} (get : Obj -> Sub) (set : Sub -> Obj -> Obj)
    (m : method Sub A) : method Obj A :=
  fun o => let r := m (get o) in (r.1, set r.2 o).

(** [for (const auto &x : member) { r = x.m(); round r }]: a loop over a
    vector of objects with one call on each.  The elements are collected as
    the calls leave them and are the vector after the loop. *)
Definition for_each_object {Obj Elt A} (get : Obj -> list Elt)
    (set : list Elt -> Obj -> Obj) (m : method Elt A) (round : A -> body Obj)
    : body Obj :=
  fun st =>
    let r :=
      foldl (fun acc x => let c := m x in (acc.1 ++ [c.2], round c.1 acc.2))
            ([], st) (get st.1) in
    (set r.1 r.2.1, r.2.2).

(** What a body does when it only writes: the object is as before and the
    stream has grown by [text]. *)
Definition writes {Obj} (statements : body Obj) (text : Obj -> string) : Prop :=
  forall o ss, statements (o, ss) = (o, ss +:+ text o).

(** The same for a body that starts with an assignment to the result. *)
Definition sets {Obj} (statements : body Obj) (text : Obj -> string) : Prop :=
  forall o ss, statements (o, ss) = (o, text o).

(** A call that returns [result] and leaves the object as it was. *)
Definition const_method {Obj A} (m : method Obj A) (result : Obj -> A) : Prop :=
  forall o, m o = (result o, o).

End Method.

Declare Scope body_scope.
Delimit Scope body_scope with body.
Notation "first ;; second" := (Method.andthen first second)
  (at level 100, second at level 200, right associativity) : body_scope.

Module Call.
Import Method.
Local Open Scope body_scope.

(** *** Section and the environments *)

Definition Section_generate : method Section.t string :=
  returns
    (switch Section.m_level
       (fun level =>
          match level with
          | Section.CHAPTER =>
              assign (fun o => "\chapter{" +:+ Section.m_title o +:+ "}" +:+ nl)
          | Section.SECTION =>
              assign (fun o => "\section{" +:+ Section.m_title o +:+ "}" +:+ nl)
          | Section.SUBSECTION =>
              assign (fun o => "\subsection{" +:+ Section.m_title o +:+ "}" +:+ nl)
          | Section.SUBSUBSECTION =>
              assign (fun o => "\subsubsection{" +:+ Section.m_title o +:+ "}" +:+ nl)
          end) ;;
     for_each Section.m_content (fun content => put (fun _ => content +:+ nl))).

(** [Environment::begin()] and [Environment::end()], on an object whose
    [m_name] is [name o]. *)
Definition Environment_begin {Obj} (name : Obj -> string) : method Obj string :=
  result_of (fun o => "\begin{" +:+ name o +:+ "}" +:+ nl).

Definition Environment_end {Obj} (name : Obj -> string) : method Obj string :=
  result_of (fun o => "\end{" +:+ name o +:+ "}" +:+ nl).

(** [!m_options.empty() && m_options.find("position") != m_options.end()] *)
Definition has_position (m_options : gmap string string) : bool :=
  negb (bool_decide (m_options = ∅))
  && bool_decide (is_Some (m_options !! "position")).

(** [ss << row[i]; if (i < numCols - 1) ss << " & ";] *)
Definition cell_round {Obj} (row : Obj -> list string) (numCols i : nat)
    : body Obj :=
  put (fun o => default "" (row o !! i)) ;;
  when (fun _ => i <? numCols - 1) (put (fun _ => " & ")).

Definition Table_generate : method Table.t string :=
  returns
    (put (fun _ => "\begin{table}") ;;
     when (fun o => has_position (Table.m_options o))
       (put (fun o => "[" +:+ default "" (Table.m_options o !! "position") +:+ "]")) ;;
     put (fun _ => nl +:+ "\centering" +:+ nl) ;;
     local (fun o => length (Table.m_headers o)) (fun numCols =>
       put (fun _ => "\begin{tabular}{") ;;
       for_index (fun _ => numCols) (fun _ => put (fun _ => "|c")) ;;
       put (fun _ => "|}" +:+ nl +:+ "\hline" +:+ nl) ;;
       for_index (fun _ => numCols) (cell_round Table.m_headers numCols) ;;
       put (fun _ => " \\ \hline" +:+ nl) ;;
       for_each Table.m_rows (fun row =>
         (** [i < row.size() && i < numCols] *)
         for_index (fun _ => min (length row) numCols)
                   (cell_round (fun _ => row) numCols) ;;
         put (fun _ => " \\ \hline" +:+ nl)) ;;
       put (fun _ => "\end{tabular}" +:+ nl) ;;
       when (fun o => negb (String.eqb (Table.m_caption o) ""))
         (put (fun o => "\caption{" +:+ Table.m_caption o +:+ "}" +:+ nl)) ;;
       when (fun o => negb (String.eqb (Table.m_label o) ""))
         (put (fun o => "\label{" +:+ Table.m_label o +:+ "}" +:+ nl)) ;;
       put (fun _ => "\end{table}" +:+ nl))).

Definition Figure_generate : method Figure.t string :=
  returns
    (put (fun _ => "\begin{figure}") ;;
     when (fun o => has_position (Figure.m_options o))
       (put (fun o => "[" +:+ default "" (Figure.m_options o !! "position") +:+ "]")) ;;
     put (fun _ => nl +:+ "\centering" +:+ nl) ;;
     put (fun _ => "\includegraphics") ;;
     when (fun o => negb (String.eqb (Figure.m_width o) ""))
       (put (fun o => "[width=" +:+ Figure.m_width o +:+ "]")) ;;
     put (fun o => "{" +:+ Figure.m_imagePath o +:+ "}" +:+ nl) ;;
     when (fun o => negb (String.eqb (Figure.m_caption o) ""))
       (put (fun o => "\caption{" +:+ Figure.m_caption o +:+ "}" +:+ nl)) ;;
     when (fun o => negb (String.eqb (Figure.m_label o) ""))
       (put (fun o => "\label{" +:+ Figure.m_label o +:+ "}" +:+ nl)) ;;
     put (fun _ => "\end{figure}" +:+ nl)).

Definition Equation_generate : method Equation.t string :=
  returns
    (call (Environment_begin Equation.m_name) (fun r => put (fun _ => r)) ;;
     put (fun o => Equation.m_content o +:+ nl) ;;
     when (fun o => negb (String.eqb (Equation.m_label o) ""))
       (put (fun o => "\label{" +:+ Equation.m_label o +:+ "}" +:+ nl)) ;;
     call (Environment_end Equation.m_name) (fun r => put (fun _ => r))).

Definition List_generate : method List.t string :=
  returns
    (call (Environment_begin List.m_name) (fun r => put (fun _ => r)) ;;
     for_index (fun o => length (List.m_items o)) (fun i =>
       put (fun _ => "\item ") ;;
       when (fun o =>
               match List.m_type o with List.DESCRIPTION => true | _ => false end
               && bool_decide (is_Some (List.m_itemLabels o !! i)))
         (put (fun o => "[" +:+ default "" (List.m_itemLabels o !! i) +:+ "] ")) ;;
       put (fun o => default "" (List.m_items o !! i) +:+ nl)) ;;
     call (Environment_end List.m_name) (fun r => put (fun _ => r))).

Definition TheoremEnvironment_generate : method TheoremEnvironment.t string :=
  returns
    (put (fun o => "\begin{" +:+ TheoremEnvironment.m_name o +:+ "}") ;;
     when (fun o => negb (String.eqb (TheoremEnvironment.m_title o) ""))
       (put (fun o => "[" +:+ TheoremEnvironment.m_title o +:+ "]")) ;;
     put (fun _ => nl) ;;
     put (fun o => TheoremEnvironment.m_content o +:+ nl) ;;
     put (fun o => "\end{" +:+ TheoremEnvironment.m_name o +:+ "}" +:+ nl)).

Definition Algorithm_generate : method Algorithm.t string :=
  returns
    (put (fun _ => "\begin{algorithm}" +:+ nl) ;;
     when (fun o => negb (String.eqb (Algorithm.m_caption o) ""))
       (put (fun o => "\caption{" +:+ Algorithm.m_caption o +:+ "}" +:+ nl)) ;;
     when (fun o => negb (String.eqb (Algorithm.m_label o) ""))
       (put (fun o => "\label{" +:+ Algorithm.m_label o +:+ "}" +:+ nl)) ;;
     put (fun _ => "\begin{algorithmic}[1]" +:+ nl) ;;
     for_each Algorithm.m_lines (fun line =>
       (** [for (int i = 0; i < line.second; ++i)] *)
       for_index (fun _ => Z.to_nat line.2) (fun _ => put (fun _ => "    ")) ;;
       put (fun _ => line.1 +:+ nl)) ;;
     put (fun _ => "\end{algorithmic}" +:+ nl) ;;
     put (fun _ => "\end{algorithm}" +:+ nl)).

(** [env->generate()] through the pointer: the call goes to the class of
    the object. *)
Definition Environment_generate : method Environment string :=
  fun env =>
    match env with
    | EnvTable e => let r := Table_generate e in (r.1, EnvTable r.2)
    | EnvFigure e => let r := Figure_generate e in (r.1, EnvFigure r.2)
    | EnvEquation e => let r := Equation_generate e in (r.1, EnvEquation r.2)
    | EnvList e => let r := List_generate e in (r.1, EnvList r.2)
    | EnvAlgorithm e => let r := Algorithm_generate e in (r.1, EnvAlgorithm r.2)
    | EnvTheorem e =>
        let r := TheoremEnvironment_generate e in (r.1, EnvTheorem r.2)
    end.

(** *** Bibliography *)

(** A [switch] of [return] statements. *)
Definition Bibliography_getStyleName : method Bibliography.t string :=
  result_of Bibliography.getStyleName.

Definition Bibliography_getPreambleConfig : method Bibliography.t string :=
  result_of (fun _ => "").

Definition Bibliography_getIncludeCommands : method Bibliography.t string :=
  returns
    (call Bibliography_getStyleName (fun r =>
       put (fun _ => nl +:+ "\bibliographystyle{" +:+ r +:+ "}" +:+ nl)) ;;
     put (fun o => "\bibliography{" +:+ Bibliography.m_bibFile o +:+ "}" +:+ nl)).

(** *** Document *)

(** Writing back the members on which [generateDocument] and
    [generatePreamble] make calls. *)
Definition Document_set_sections (sections : list Section.t)
    (self : Document.t) : Document.t :=
  Document.mk (Document.m_type self) (Document.m_title self)
    (Document.m_author self) (Document.m_date self) (Document.m_language self)
    (Document.m_packages self) sections (Document.m_environments self)
    (Document.m_rawContent self) (Document.m_customPreamble self)
    (Document.m_usedCitations self) (Document.m_bibliography self)
    (Document.m_theoremsEnabled self) (Document.m_algorithmsEnabled self).

Definition Document_set_environments (environments : list Environment)
    (self : Document.t) : Document.t :=
  Document.mk (Document.m_type self) (Document.m_title self)
    (Document.m_author self) (Document.m_date self) (Document.m_language self)
    (Document.m_packages self) (Document.m_sections self) environments
    (Document.m_rawContent self) (Document.m_customPreamble self)
    (Document.m_usedCitations self) (Document.m_bibliography self)
    (Document.m_theoremsEnabled self) (Document.m_algorithmsEnabled self).

Definition Document_set_bibliography (bibliography : Bibliography.t)
    (self : Document.t) : Document.t :=
  Document.mk (Document.m_type self) (Document.m_title self)
    (Document.m_author self) (Document.m_date self) (Document.m_language self)
    (Document.m_packages self) (Document.m_sections self)
    (Document.m_environments self)
    (Document.m_rawContent self) (Document.m_customPreamble self)
    (Document.m_usedCitations self) bibliography
    (Document.m_theoremsEnabled self) (Document.m_algorithmsEnabled self).

Definition Document_getLanguageConfiguration : method Document.t string :=
  returns
    (switch Document.m_language
       (fun language =>
          match language with
          | FRENCH => put (fun _ => "\frenchbsetup{StandardLayout=true}" +:+ nl)
          | GERMAN => put (fun _ => "\selectlanguage{ngerman}" +:+ nl)
          | SPANISH => put (fun _ => "\selectlanguage{spanish}" +:+ nl)
          | ITALIAN => put (fun _ => "\selectlanguage{italian}" +:+ nl)
          | PORTUGUESE => put (fun _ => "\selectlanguage{portuguese}" +:+ nl)
          | DUTCH => put (fun _ => "\selectlanguage{dutch}" +:+ nl)
          | RUSSIAN => put (fun _ => "\selectlanguage{russian}" +:+ nl)
          | CHINESE => put (fun _ => "\setCJKmainfont{SimSun}" +:+ nl)
          | JAPANESE => put (fun _ => "\setCJKmainfont{IPAMincho}" +:+ nl)
          | ARABIC => put (fun _ => "\setmainlanguage{arabic}" +:+ nl)
          | ENGLISH => skip
          end)).

(** A [switch] that assigns the local [documentClass], which is returned. *)
Definition Document_getDocumentClass : method Document.t string :=
  result_of Document.getDocumentClass.

(** The loop over [m_packages], the same statements in
    [Document::generatePreamble] and [Presentation::generatePreamble]. *)
Definition package_loop {Obj} (m_packages : Obj -> gmap string string)
    : body Obj :=
  for_each (fun o => map_items (m_packages o)) (fun package =>
    put (fun _ => "\usepackage") ;;
    when (fun _ => negb (String.eqb package.2 ""))
      (put (fun _ => "[" +:+ package.2 +:+ "]")) ;;
    put (fun _ => "{" +:+ package.1 +:+ "}" +:+ nl)).

Definition Document_generatePreamble : method Document.t string :=
  returns
    (call Document_getDocumentClass (fun r =>
       put (fun _ => "\documentclass{" +:+ r +:+ "}" +:+ nl +:+ nl)) ;;
     package_loop Document.m_packages ;;
     put (fun _ => nl) ;;
     call Document_getLanguageConfiguration (fun r => put (fun _ => r)) ;;
     when (fun o => negb (String.eqb (Document.m_title o) ""))
       (put (fun o => "\title{" +:+ Document.m_title o +:+ "}" +:+ nl)) ;;
     when (fun o => negb (String.eqb (Document.m_author o) ""))
       (put (fun o => "\author{" +:+ Document.m_author o +:+ "}" +:+ nl)) ;;
     when (fun o => negb (String.eqb (Document.m_date o) ""))
       (put (fun o => "\date{" +:+ Document.m_date o +:+ "}" +:+ nl)) ;;
     when Document.m_theoremsEnabled
       (put (fun o => TheoremEnvironment.getTheoremSetup (Document.m_language o))) ;;
     when Document.m_algorithmsEnabled
       (put (fun _ => Algorithm.getAlgorithmPackages)) ;;
     when Document.citationsUsed
       (call (on_member Document.m_bibliography Document_set_bibliography
                Bibliography_getPreambleConfig)
             (fun r => put (fun _ => r))) ;;
     for_each Document.m_customPreamble (fun content =>
       put (fun _ => content +:+ nl)) ;;
     put (fun _ => nl)).

(** The three loops and the bibliography block that the bodies share, on an
    object whose [Document] part is reached by [base] and [set_base]. *)
Section shared_loops.
Context {Obj : Type} (base : Obj -> Document.t)
        (set_base : Document.t -> Obj -> Obj).

Definition rawContent_loop : body Obj :=
  for_each (fun o => Document.m_rawContent (base o)) (fun content =>
    put (fun _ => content +:+ nl +:+ nl)).

Definition sections_loop : body Obj :=
  for_each_object
    (fun o => Document.m_sections (base o))
    (fun sections o => set_base (Document_set_sections sections (base o)) o)
    Section_generate
    (fun r => put (fun _ => r +:+ nl)).

Definition environments_loop : body Obj :=
  for_each_object
    (fun o => Document.m_environments (base o))
    (fun environments o =>
       set_base (Document_set_environments environments (base o)) o)
    Environment_generate
    (fun r => put (fun _ => r +:+ nl)).

Definition bibliography_commands : body Obj :=
  when (fun o => Document.citationsUsed (base o))
    (call (on_member
             (fun o => Document.m_bibliography (base o))
             (fun bibliography o =>
                set_base (Document_set_bibliography bibliography (base o)) o)
             Bibliography_getIncludeCommands)
          (fun r => put (fun _ => r +:+ nl))).

End shared_loops.

Definition Document_generateDocument : method Document.t string :=
  returns
    (put (fun _ => "\begin{document}" +:+ nl +:+ nl) ;;
     when (fun o => negb (String.eqb (Document.m_title o) ""))
       (put (fun _ => "\maketitle" +:+ nl +:+ nl)) ;;
     rawContent_loop id ;;
     sections_loop id (fun d _ => d) ;;
     environments_loop id (fun d _ => d) ;;
     bibliography_commands id (fun d _ => d) ;;
     put (fun _ => "\end{document}" +:+ nl)).

(** *** Article *)

Definition Article_generatePreamble : method Article.t string :=
  returns
    (call (on_member Article.base Article.set_base Document_generatePreamble)
          (fun r => put (fun _ => r)) ;;
     put (fun _ => "\lstset{" +:+ nl) ;;
     put (fun _ => "  basicstyle=\small\ttfamily," +:+ nl) ;;
     put (fun _ => "  keywordstyle=\color{blue}\bfseries," +:+ nl) ;;
     put (fun _ => "  commentstyle=\color{green!60!black}\itshape," +:+ nl) ;;
     put (fun _ => "  stringstyle=\color{purple}," +:+ nl) ;;
     put (fun _ => "  frame=single," +:+ nl) ;;
     put (fun _ => "  breaklines=true," +:+ nl) ;;
     put (fun _ => "  showstringspaces=false," +:+ nl) ;;
     put (fun _ => "  inputencoding=utf8," +:+ nl) ;;
     put (fun _ => "  extendedchars=true," +:+ nl) ;;
     (** the six [literate] lines *)
     put (fun _ => lstset_literate) ;;
     put (fun _ => "}" +:+ nl +:+ nl) ;;
     for_each Article.m_customPreamble (fun content =>
       put (fun _ => content +:+ nl)) ;;
     when (fun o => negb (Article.is_empty (Article.m_keywords o)))
       (local (fun o => Article.keywordsTitle (Document.m_language (Article.base o)))
          (fun keywordsTitle =>
             put (fun _ => "\providecommand{\keywords}[1]{\par\noindent\textbf{"
                           +:+ keywordsTitle +:+ "} #1}" +:+ nl +:+ nl))) ;;
     when Article.m_includeIndex
       (local (fun o => indexTitle (Document.m_language (Article.base o)))
          (fun indexTitle =>
             put (fun _ => "\makeindex[columns=2, title=" +:+ indexTitle
                           +:+ ", intoc]" +:+ nl +:+ nl)))).

(** [if (!m_abstract.empty()) ss << "\\begin{abstract}\n" << m_abstract
    << "\n\\end{abstract}\n\n";] *)
Definition abstract_statement {Obj} (m_abstract : Obj -> string) : body Obj :=
  when (fun o => negb (String.eqb (m_abstract o) ""))
    (put (fun o => "\begin{abstract}" +:+ nl +:+ m_abstract o +:+ nl
                   +:+ "\end{abstract}" +:+ nl +:+ nl)).

Definition Article_generateDocument : method Article.t string :=
  returns
    (put (fun _ => "\begin{document}" +:+ nl +:+ nl) ;;
     when (fun o => negb (String.eqb (Document.m_title (Article.base o)) ""))
       (put (fun _ => "\maketitle" +:+ nl +:+ nl) ;;
        when (fun o => negb (Article.is_empty (Article.m_keywords o)))
          (put (fun _ => "\keywords{") ;;
           for_index (fun o => length (Article.m_keywords o)) (fun i =>
             put (fun o => default "" (Article.m_keywords o !! i)) ;;
             when (fun o => i <? length (Article.m_keywords o) - 1)
               (put (fun _ => ", "))) ;;
           put (fun _ => "}" +:+ nl +:+ nl))) ;;
     abstract_statement Article.m_abstract ;;
     when Article.m_includeTableOfContents
       (put (fun _ => "\tableofcontents" +:+ nl +:+ "\clearpage" +:+ nl +:+ nl)) ;;
     rawContent_loop Article.base ;;
     sections_loop Article.base Article.set_base ;;
     environments_loop Article.base Article.set_base ;;
     bibliography_commands Article.base Article.set_base ;;
     put (fun _ => "\end{document}" +:+ nl)).

(** *** Report *)

Definition Report_generatePreamble : method Report.t string :=
  returns
    (call (on_member Report.base Report.set_base Document_generatePreamble)
          (fun r => put (fun _ => r))).

Definition Report_generateDocument : method Report.t string :=
  returns
    (put (fun _ => "\begin{document}" +:+ nl +:+ nl) ;;
     when (fun o => negb (String.eqb (Document.m_title (Report.base o)) ""))
       (put (fun _ => "\maketitle" +:+ nl +:+ nl)) ;;
     abstract_statement Report.m_abstract ;;
     when Report.m_includeTableOfContents
       (put (fun _ => "\tableofcontents" +:+ nl +:+ "\clearpage" +:+ nl +:+ nl)) ;;
     when Report.m_includeListOfFigures
       (put (fun _ => "\listoffigures" +:+ nl +:+ "\clearpage" +:+ nl +:+ nl)) ;;
     when Report.m_includeListOfTables
       (put (fun _ => "\listoftables" +:+ nl +:+ "\clearpage" +:+ nl +:+ nl)) ;;
     rawContent_loop Report.base ;;
     sections_loop Report.base Report.set_base ;;
     environments_loop Report.base Report.set_base ;;
     put (fun _ => "\end{document}" +:+ nl)).

(** *** Book *)

Definition Book_set_appendices (appendices : list Section.t)
    (self : Book.t) : Book.t :=
  Book.mk (Book.base self) (Book.m_abstract self)
    (Book.m_includeTableOfContents self) (Book.m_includeListOfFigures self)
    (Book.m_includeListOfTables self) (Book.m_includeIndex self)
    (Book.m_parts self) (Book.m_partChapters self) appendices
    (Book.m_currentPart self).

(** Writing back [it->second] for the iterator that [find(i)] gave, if it
    gave one. *)
Definition Book_set_chapters (i : nat) (chapters : list Section.t)
    (self : Book.t) : Book.t :=
  match Book.m_partChapters self !! i with
  | Some _ =>
      Book.mk (Book.base self) (Book.m_abstract self)
        (Book.m_includeTableOfContents self) (Book.m_includeListOfFigures self)
        (Book.m_includeListOfTables self) (Book.m_includeIndex self)
        (Book.m_parts self) (<[i := chapters]> (Book.m_partChapters self))
        (Book.m_appendices self) (Book.m_currentPart self)
  | None => self
  end.

Definition Book_generatePreamble : method Book.t string :=
  returns
    (call (on_member Book.base Book.set_base Document_generatePreamble)
          (fun r => put (fun _ => r)) ;;
     when Book.m_includeIndex
       (local (fun o => indexTitle (Document.m_language (Book.base o)))
          (fun indexTitle =>
             put (fun _ => "\makeindex[columns=2, title=" +:+ indexTitle
                           +:+ ", intoc]" +:+ nl +:+ nl))) ;;
     put (fun _ => "\providecommand{\abstractname}{Abstract}" +:+ nl) ;;
     put (fun _ => "\ifdefined\abstract\else" +:+ nl) ;;
     put (fun _ => "  \newenvironment{abstract}{\chapter*{\abstractname}}{}" +:+ nl) ;;
     put (fun _ => "\fi" +:+ nl)).

Definition Book_generateDocument : method Book.t string :=
  returns
    (put (fun _ => "\begin{document}" +:+ nl +:+ nl) ;;
     put (fun _ => "\maketitle" +:+ nl +:+ nl) ;;
     abstract_statement Book.m_abstract ;;
     when Book.m_includeTableOfContents
       (put (fun _ => "\tableofcontents" +:+ nl +:+ nl)) ;;
     when Book.m_includeListOfFigures
       (put (fun _ => "\listoffigures" +:+ nl +:+ nl)) ;;
     when Book.m_includeListOfTables
       (put (fun _ => "\listoftables" +:+ nl +:+ nl)) ;;
     for_index (fun o => length (Book.m_parts o)) (fun i =>
       put (fun o => "\part{" +:+ default "" (Book.m_parts o !! i) +:+ "}"
                     +:+ nl +:+ nl) ;;
       when (fun o => bool_decide (is_Some (Book.m_partChapters o !! i)))
         (for_each_object
            (fun o => default [] (Book.m_partChapters o !! i))
            (Book_set_chapters i)
            Section_generate
            (fun r => put (fun _ => r +:+ nl)))) ;;
     sections_loop Book.base Book.set_base ;;
     environments_loop Book.base Book.set_base ;;
     rawContent_loop Book.base ;;
     when (fun o => negb (Article.is_empty (Book.m_appendices o)))
       (put (fun _ => "\appendix" +:+ nl +:+ nl) ;;
        for_each_object Book.m_appendices Book_set_appendices Section_generate
          (fun r => put (fun _ => r +:+ nl))) ;;
     when Book.m_includeIndex (put (fun _ => "\printindex" +:+ nl +:+ nl)) ;;
     put (fun _ => "\end{document}" +:+ nl)).

(** *** Presentation *)

(** [switch]es of [return] statements. *)
Definition Presentation_getThemeName : method Presentation.t string :=
  result_of Presentation.getThemeName.
Definition Presentation_getColorThemeName : method Presentation.t string :=
  result_of Presentation.getColorThemeName.
Definition Presentation_getTransitionName : method Presentation.t string :=
  result_of Presentation.getTransitionName.
Definition Presentation_getLevelCommand (level : Section.Level)
    : method Presentation.t string :=
  result_of (fun _ => Presentation.getLevelCommand level).

Definition Presentation_generatePreamble : method Presentation.t string :=
  returns
    (put (fun _ => "\documentclass{beamer}" +:+ nl +:+ nl) ;;
     package_loop (fun o => Document.m_packages (Presentation.base o)) ;;
     put (fun _ => nl) ;;
     put (fun _ => "\lstset{" +:+ nl) ;;
     put (fun _ => "  basicstyle=\small\ttfamily," +:+ nl) ;;
     put (fun _ => "  breaklines=true," +:+ nl) ;;
     put (fun _ => "  inputencoding=utf8," +:+ nl) ;;
     put (fun _ => "  extendedchars=true," +:+ nl) ;;
     (** the six [literate] lines *)
     put (fun _ => lstset_literate) ;;
     put (fun _ => "}" +:+ nl +:+ nl) ;;
     call (on_member Presentation.base Presentation.set_base
             Document_getLanguageConfiguration)
          (fun r => put (fun _ => r)) ;;
     when (fun o => match Presentation.m_theme o with
                    | Presentation.THEME_DEFAULT => false
                    | _ => true
                    end)
       (call Presentation_getThemeName (fun r =>
          put (fun _ => "\usetheme{" +:+ r +:+ "}" +:+ nl))) ;;
     when (fun o => match Presentation.m_colorTheme o with
                    | Presentation.COLOR_DEFAULT => false
                    | _ => true
                    end)
       (call Presentation_getColorThemeName (fun r =>
          put (fun _ => "\usecolortheme{" +:+ r +:+ "}" +:+ nl))) ;;
     when (fun o => match Presentation.m_transition o with
                    | Presentation.NONE => false
                    | _ => true
                    end)
       (call Presentation_getTransitionName (fun r =>
          put (fun _ => "\setbeamercovered{" +:+ r +:+ "}" +:+ nl))) ;;
     when (fun o => negb (Presentation.m_showNavigation o))
       (put (fun _ => "\setbeamertemplate{navigation symbols}{}" +:+ nl)) ;;
     when (fun o => negb (String.eqb (Document.m_title (Presentation.base o)) ""))
       (put (fun o => "\title{" +:+ Document.m_title (Presentation.base o)
                      +:+ "}" +:+ nl)) ;;
     when (fun o => negb (String.eqb (Presentation.m_subtitle o) ""))
       (put (fun o => "\subtitle{" +:+ Presentation.m_subtitle o +:+ "}" +:+ nl)) ;;
     when (fun o => negb (String.eqb (Document.m_author (Presentation.base o)) ""))
       (put (fun o => "\author{" +:+ Document.m_author (Presentation.base o)
                      +:+ "}" +:+ nl)) ;;
     when (fun o => negb (String.eqb (Presentation.m_institute o) ""))
       (put (fun o => "\institute{" +:+ Presentation.m_institute o +:+ "}" +:+ nl)) ;;
     when (fun o => negb (String.eqb (Document.m_date (Presentation.base o)) ""))
       (put (fun o => "\date{" +:+ Document.m_date (Presentation.base o)
                      +:+ "}" +:+ nl)) ;;
     put (fun _ => nl)).

Definition Presentation_generateDocument : method Presentation.t string :=
  returns
    (put (fun _ => "\begin{document}" +:+ nl +:+ nl) ;;
     when (fun o => negb (String.eqb (Document.m_title (Presentation.base o)) ""))
       (put (fun _ => "\begin{frame}" +:+ nl) ;;
        put (fun _ => "\titlepage" +:+ nl) ;;
        put (fun _ => "\end{frame}" +:+ nl +:+ nl)) ;;
     put (fun _ => "\begin{frame}{Plan}" +:+ nl) ;;
     put (fun _ => "\tableofcontents" +:+ nl) ;;
     put (fun _ => "\end{frame}" +:+ nl +:+ nl) ;;
     rawContent_loop Presentation.base ;;
     for_each Presentation.m_structure (fun structureItem =>
       let '(level, title, createFrame) := structureItem in
       call (Presentation_getLevelCommand level) (fun r =>
         put (fun _ => r +:+ "{" +:+ title +:+ "}" +:+ nl +:+ nl)) ;;
       when (fun _ => createFrame)
         (put (fun _ => "\begin{frame}" +:+ nl) ;;
          put (fun _ => "\") ;;
          switch (fun _ => level) (fun level =>
            match level with
            | Section.SECTION => put (fun _ => "sectionpage")
            | Section.SUBSECTION => put (fun _ => "subsectionpage")
            | _ => put (fun _ => "begin{center}\Large " +:+ title
                                 +:+ "\end{center}")
            end) ;;
          put (fun _ => nl +:+ "\end{frame}" +:+ nl +:+ nl))) ;;
     for_each Presentation.m_slides (fun slide =>
       (** the loop that sets [needsFragile] *)
       local (fun _ => Presentation.needsFragile slide.2) (fun needsFragile =>
         if_else (fun _ => needsFragile)
           (put (fun _ => "\begin{frame}[fragile]{" +:+ slide.1 +:+ "}" +:+ nl))
           (put (fun _ => "\begin{frame}{" +:+ slide.1 +:+ "}" +:+ nl)) ;;
         for_each (fun _ => slide.2) (fun content =>
           put (fun _ => content +:+ nl)) ;;
         put (fun _ => "\end{frame}" +:+ nl +:+ nl))) ;;
     for_each_object
       (fun o => Document.m_sections (Presentation.base o))
       (fun sections o =>
          Presentation.set_base
            (Document_set_sections sections (Presentation.base o)) o)
       Section_generate
       (fun sectionContent =>
          let startPos := str_find "{" sectionContent 0 in
          let endPos := str_find "}" sectionContent 0 in
          let title :=
            match startPos, endPos with
            | Some s, Some e => substr sectionContent (s + 1) (e - s - 1)
            | _, _ => "Section"
            end in
          put (fun _ => "\section{" +:+ title +:+ "}" +:+ nl +:+ nl) ;;
          put (fun _ => "\begin{frame}{" +:+ title +:+ "}" +:+ nl) ;;
          local (fun _ =>
                   sanitizeMathContent
                     (substr_from sectionContent
                        (match endPos with Some e => e + 1 | None => 0 end)))
            (fun content => put (fun _ => content)) ;;
          put (fun _ => "\end{frame}" +:+ nl +:+ nl)) ;;
     for_each_object
       (fun o => Document.m_environments (Presentation.base o))
       (fun environments o =>
          Presentation.set_base
            (Document_set_environments environments (Presentation.base o)) o)
       Environment_generate
       (fun envContent =>
          if_else (fun _ => contains "\begin{lstlisting}" envContent)
            (put (fun _ => "\begin{frame}[fragile]" +:+ nl))
            (put (fun _ => "\begin{frame}" +:+ nl)) ;;
          put (fun _ => envContent +:+ nl) ;;
          put (fun _ => "\end{frame}" +:+ nl +:+ nl)) ;;
     put (fun _ => "\end{document}" +:+ nl)).

(** *** The virtual calls on a document *)

Definition generatePreamble : method AnyDocument string :=
  fun doc =>
    match doc with
    | DocPlain d => let r := Document_generatePreamble d in (r.1, DocPlain r.2)
    | DocArticle d => let r := Article_generatePreamble d in (r.1, DocArticle r.2)
    | DocReport d => let r := Report_generatePreamble d in (r.1, DocReport r.2)
    | DocBook d => let r := Book_generatePreamble d in (r.1, DocBook r.2)
    | DocPresentation d =>
        let r := Presentation_generatePreamble d in (r.1, DocPresentation r.2)
    end.

Definition generateDocument : method AnyDocument string :=
  fun doc =>
    match doc with
    | DocPlain d => let r := Document_generateDocument d in (r.1, DocPlain r.2)
    | DocArticle d => let r := Article_generateDocument d in (r.1, DocArticle r.2)
    | DocReport d => let r := Report_generateDocument d in (r.1, DocReport r.2)
    | DocBook d => let r := Book_generateDocument d in (r.1, DocBook r.2)
    | DocPresentation d =>
        let r := Presentation_generateDocument d in (r.1, DocPresentation r.2)
    end.

(** [Document::generate]: [return generatePreamble() + generateDocument();]
    no class overrides it.  The two operands of [+] are evaluated in an
    order that the language leaves open: [generate] has the preamble call
    first, [generate_body_first] the other order. *)
Definition generate : method AnyDocument string :=
  fun doc =>
    let preamble := generatePreamble doc in
    let body := generateDocument preamble.2 in
    (preamble.1 +:+ body.1, body.2).

Definition generate_body_first : method AnyDocument string :=
  fun doc =>
    let body := generateDocument doc in
    let preamble := generatePreamble body.2 in
    (preamble.1 +:+ body.1, preamble.2).

End Call.

(** A sequence of [addPackage(name, options)] calls, first call first. *)
Definition addPackages (calls : list (string * string)) (doc : AnyDocument)
    : AnyDocument :=
  foldl (fun d call => addPackage call.1 call.2 d) doc calls.

(** The options of the last call of [calls] for [package], if there is one. *)
Definition last_options (package : string) (calls : list (string * string))
    : option string :=
  foldl (fun acc call => if decide (call.1 = package) then Some call.2 else acc)
        None calls.

(** ** Vocabulary of the statements *)

Definition starts_with (p s : string) : Prop := exists r, s = p +:+ r.
Definition ends_with (q s : string) : Prop := exists r, s = r +:+ q.
Definition occurs_in (needle s : string) : Prop :=
  exists pre post, s = pre +:+ needle +:+ post.

(** The lines of a text, split at the newline character. *)
Fixpoint split_lines (s : string) : list string :=
  match s with
  | EmptyString => [""]
  | String c s' =>
      if Ascii.eqb c (ascii_of_nat 10) then "" :: split_lines s'
      else
        match split_lines s' with
        | [] => [String c ""]
        | l :: ls => String c l :: ls
        end
  end.

(** A line [\usepackage{package}] or [\usepackage[...]{package}]. *)
Definition is_usepackage_line (package line : string) : bool :=
  String.prefix "\usepackage" line
  && String.prefix (String.rev ("{" +:+ package +:+ "}")) (String.rev line).

Definition usepackage_line_count (package text : string) : nat :=
  length (filter (fun line => is_usepackage_line package line = true)
                 (split_lines text)).

(** The entries of the package map for one package name, in the order of the
    package loop. *)
Definition package_entries (package : string) (doc : AnyDocument)
    : list (string * string) :=
  filter (fun entry => entry.1 = package)
         (map_items (Document.m_packages (base_of doc))).

(** *** Vocabulary for [sanitizeMathContent] *)

(** A character other than the dollar sign and the backslash; every marker
    of [mathEnvs] starts with one of these two. *)
Definition plain_char (c : ascii) : bool :=
  negb (Ascii.eqb c "$"%char) && negb (Ascii.eqb c "\"%char).

(** A text without dollar sign and backslash. *)
Fixpoint plain (s : string) : bool :=
  match s with
  | EmptyString => true
  | String c s' => plain_char c && plain s'
  end.

(** The loop, started in the given state, ends with [out]. *)
Definition sanitize_reaches (result : string) (pos : nat) (inMathMode : bool)
    (startMathPos : nat) (out : string) : Prop :=
  exists fuel, sanitize_loop fuel result pos inMathMode startMathPos = Some out.

(** What the replacement loops make of the content of a span. *)
Definition replaced (mathContent : string) : string :=
  default mathContent (replace_each (map_items replacements) mathContent).

(** A marker that the scan can find: every marker but [$$], which is listed
    after its prefix [$]. *)
Definition found_marker (env : string) : Prop := In env mathEnvs /\ env <> "$$".

(** A stretch of text followed by a math span. *)
Record span := mk_span {
  span_before : string;
  span_open : string;
  span_content : string;
  span_close : string
}.

Definition span_plain (sp : span) : Prop :=
  plain (span_before sp) = true /\ found_marker (span_open sp)
  /\ plain (span_content sp) = true /\ found_marker (span_close sp).

(** The text of a sequence of spans and a last stretch, as it is and with
    the content of every span replaced. *)
Definition spans_text (spans : list span) (last : string) : string :=
  foldr (fun sp rest =>
           span_before sp +:+ span_open sp +:+ span_content sp
           +:+ span_close sp +:+ rest) last spans.

Definition spans_replaced (spans : list span) (last : string) : string :=
  foldr (fun sp rest =>
           span_before sp +:+ span_open sp +:+ replaced (span_content sp)
           +:+ span_close sp +:+ rest) last spans.

(** *** Vocabulary for documents, books, entries and templates *)

(** The classes whose [generateDocument] has the bibliography block. *)
Definition emits_bibliography (doc : AnyDocument) : bool :=
  match doc with
  | DocPlain _ | DocArticle _ => true
  | _ => false
  end.

(** [m_currentPart] is the index of the last part ([-1] without parts). *)
Definition Book_current_is_last (b : Book.t) : Prop :=
  Book.m_currentPart b = (Z.of_nat (length (Book.m_parts b)) - 1)%Z.

(** Chapters are stored under indices of existing parts only. *)
Definition Book_chapters_in_range (b : Book.t) : Prop :=
  forall k, is_Some (Book.m_partChapters b !! k) -> k < length (Book.m_parts b).

(** One field of a bibliography entry, without comma and newline. *)
Definition bib_field_line (field : string * string) : string :=
  "  " +:+ field.1 +:+ " = {" +:+ field.2 +:+ "}".

(** The [addPackage] calls that [applyTo] makes, in order. *)
Definition template_package_calls (tpl : DocumentTemplate.t)
    : list (string * string) :=
  map_items (DocumentTemplate.m_packages tpl)
  ++ (if String.eqb (DocumentTemplate.m_geometry tpl) "" then []
      else [("geometry", DocumentTemplate.m_geometry tpl)])
  ++ (if String.eqb (DocumentTemplate.m_headerFooterStyle tpl) "" then []
      else [("fancyhdr", "")]).

(** The fragments that [applyTo] passes to [addInPreamble], in order, for a
    document with the given title and author. *)
Definition template_fragments (tpl : DocumentTemplate.t) (title author : string)
    : list string :=
  (if String.eqb (DocumentTemplate.m_headerFooterStyle tpl) "" then []
   else [DocumentTemplate.headerFooterConfig tpl title author])
  ++ DocumentTemplate.m_preambleContent tpl.

(** * Properties *)

(** ** Facts about strings *)

Section string_facts.
Implicit Types s t u needle : string.

Lemma sapp_cons c s t : String c s +:+ t = String c (s +:+ t).
Proof. reflexivity. Qed.

Lemma sapp_nil_r s : s +:+ "" = s.
Proof. induction s as [|c s IH]; [done|]. by rewrite sapp_cons, IH. Qed.

Lemma sapp_assoc s t u : (s +:+ t) +:+ u = s +:+ t +:+ u.
Proof. induction s as [|c s IH]; [done|]. by rewrite !sapp_cons, IH. Qed.

Lemma slength_app s t :
  String.length (s +:+ t) = String.length s + String.length t.
Proof. induction s as [|c s IH]; [done|]. rewrite sapp_cons. simpl. by rewrite IH. Qed.

Lemma slength_substring s n m :
  String.length (String.substring n m s) = min m (String.length s - n).
Proof.
  revert n m. induction s as [|c s IH]; intros [|n] [|m]; simpl; try done.
  all: by rewrite IH, ?Nat.sub_0_r.
Qed.

Lemma substring_app_l s t :
  String.substring 0 (String.length s) (s +:+ t) = s.
Proof.
  induction s as [|c s IH]; [by destruct t|].
  rewrite sapp_cons. simpl. by rewrite IH.
Qed.

Lemma substring_app_r s t n m :
  String.substring (String.length s + n) m (s +:+ t) = String.substring n m t.
Proof. induction s as [|c s IH]; [done|]. rewrite sapp_cons. simpl. apply IH. Qed.

Lemma substring_full s : String.substring 0 (String.length s) s = s.
Proof. induction s as [|c s IH]; [done|]. simpl. by rewrite IH. Qed.

Lemma substring_split s m :
  s = String.substring 0 m s +:+ String.substring m (String.length s - m) s.
Proof.
  revert m. induction s as [|c s IH]; intros [|m]; try done.
  - simpl. by rewrite substring_full.
  - simpl. rewrite sapp_cons. f_equal. apply IH.
Qed.

Lemma substring_decompose s m k :
  m + k ≤ String.length s →
  s = String.substring 0 m s +:+ String.substring m k s
      +:+ String.substring (m + k) (String.length s - (m + k)) s.
Proof.
  intros Hle. rewrite (substring_split s m) at 1. f_equal.
  clear -Hle. revert m Hle. induction s as [|c s IH]; intros m Hle; simpl in Hle.
  - assert (m = 0) as -> by lia. assert (k = 0) as -> by lia. done.
  - destruct m as [|m].
    + rewrite Nat.sub_0_r, substring_full. apply substring_split.
    + simpl. apply IH. lia.
Qed.

(** [starts_with] is what [String.prefix] decides. *)
Lemma starts_with_prefix p s : starts_with p s ↔ String.prefix p s = true.
Proof.
  split.
  - intros [r ->]. apply String.prefix_correct, substring_app_l.
  - intros H%String.prefix_correct.
    exists (String.substring (String.length p) (String.length s - String.length p) s).
    rewrite (substring_split s (String.length p)) at 1. by rewrite H.
Qed.

Lemma index_ge needle s n m : String.index n needle s = Some m → n ≤ m.
Proof.
  revert n m. induction s as [|c s IH]; intros [|n] m; simpl; try done.
  all: try lia.
  destruct (String.index n needle s) as [m'|] eqn:E; [|done].
  intros [= <-]. apply IH in E. lia.
Qed.

(** An occurrence found by [find] lies inside the string. *)
Lemma str_find_bound needle s n m :
  needle ≠ "" → str_find needle s n = Some m →
  n ≤ m ∧ m + String.length needle ≤ String.length s.
Proof.
  intros Hne H. split; [by eapply index_ge|].
  apply String.index_correct1 in H.
  assert (String.length (String.substring m (String.length needle) s)
          = String.length needle) as Hlen by (by rewrite H).
  rewrite slength_substring in Hlen.
  assert (String.length needle ≠ 0) by (by destruct needle). lia.
Qed.

(** [contains] decides [occurs_in] for a non-empty needle. *)
Lemma contains_occurs_in needle s :
  needle ≠ "" → contains needle s = true ↔ occurs_in needle s.
Proof.
  intros Hne. unfold contains, str_find. split.
  - destruct (String.index 0 needle s) as [m|] eqn:E; [intros _|done].
    destruct (str_find_bound needle s 0 m Hne E) as [_ Hle].
    apply String.index_correct1 in E.
    pose proof (substring_decompose s m (String.length needle) Hle) as D.
    rewrite E in D. by eexists _, _.
  - intros (pre & post & ->).
    destruct (String.index 0 needle (pre +:+ needle +:+ post)) eqn:E; [done|].
    exfalso.
    apply (String.index_correct3 0 (String.length pre)) in E; [|done|lia].
    apply E. rewrite <- (Nat.add_0_r (String.length pre)), substring_app_r.
    apply substring_app_l.
Qed.

Lemma str_concat_app (l k : list string) :
  str_concat (l ++ k) = str_concat l +:+ str_concat k.
Proof.
  induction l as [|x l IH]; [done|].
  simpl. unfold str_concat in *. simpl. by rewrite IH, sapp_assoc.
Qed.

End string_facts.

(** ** sanitizeMathContent ends within its fuel *)

Lemma replace_loop_total fuel key value s repPos :
  key ≠ "" → String.length s - repPos < fuel →
  is_Some (replace_loop fuel key value s repPos).
Proof.
  intros Hkey. revert s repPos.
  induction fuel as [|fuel IH]; intros s repPos Hfuel; [lia|].
  simpl. destruct (str_find key s repPos) as [p|] eqn:E; [|by eexists].
  apply IH. destruct (str_find_bound _ _ _ _ Hkey E) as [Hge Hle].
  assert (String.length key ≠ 0) by (by destruct key).
  unfold str_replace, substr, substr_from.
  rewrite !slength_app, !slength_substring. lia.
Qed.

Lemma replacements_keys :
  Forall (fun rep : string * string => rep.1 ≠ "") (map_items replacements).
Proof.
  apply Forall_forall. intros rep Hin.
  assert (forallb (fun rep : string * string => negb (String.eqb rep.1 ""))
            (map_items replacements) = true) as Hall by (vm_compute; reflexivity).
  rewrite forallb_forall in Hall. apply list_elem_of_In, Hall in Hin.
  intros Heq. rewrite Heq in Hin. done.
Qed.

Lemma replace_each_total reps s :
  Forall (fun rep : string * string => rep.1 ≠ "") reps →
  is_Some (replace_each reps s).
Proof.
  intros Hall. revert s. induction Hall as [|[key value] reps Hkey _ IH]; intros s.
  - by eexists.
  - cbn [replace_each].
    destruct (replace_loop_total (S (String.length s)) key value s 0 Hkey)
      as [s' ->]; [lia|].
    apply IH.
Qed.

Lemma find_marker_bound result pos env :
  find_marker result pos = Some env →
  String.length env ≠ 0 ∧ pos + String.length env ≤ String.length result.
Proof.
  intros H. apply find_some in H as [Hin Hcmp].
  assert (String.length env ≠ 0) as Hne.
  { unfold mathEnvs in Hin. simpl in Hin.
    repeat (destruct Hin as [<-|Hin]; [done|]). done. }
  split; [done|].
  apply String.eqb_eq in Hcmp.
  assert (String.length (substr result pos (String.length env))
          = String.length env) as Hlen by (by rewrite Hcmp).
  unfold substr in Hlen. rewrite slength_substring in Hlen. lia.
Qed.

Lemma sanitize_loop_total fuel result pos inMathMode startMathPos :
  (inMathMode = true → startMathPos ≤ pos) →
  String.length result - pos < fuel →
  is_Some (sanitize_loop fuel result pos inMathMode startMathPos).
Proof.
  revert result pos inMathMode startMathPos.
  induction fuel as [|fuel IH]; intros result pos inMathMode startMathPos Hinv Hfuel;
    [lia|].
  cbn [sanitize_loop]. destruct (pos <? String.length result) eqn:Hpos; [|by eexists].
  apply Nat.ltb_lt in Hpos.
  destruct (find_marker result pos) as [env|] eqn:Hm.
  - destruct (find_marker_bound _ _ _ Hm) as [Hne Hle].
    destruct inMathMode; cbn [negb].
    + destruct (replace_each_total (map_items replacements)
                  (substr result startMathPos (pos - startMathPos))
                  replacements_keys) as [mathContent' ->].
      apply IH; [done|].
      specialize (Hinv eq_refl).
      unfold str_replace, substr, substr_from.
      rewrite !slength_app, !slength_substring. lia.
    + apply IH; [done|lia].
  - apply IH; [intros H; specialize (Hinv H)|]; lia.
Qed.

(** The run of [sanitizeMathContent] always returns a string. *)
Lemma sanitize_run_total content : is_Some (sanitize_run content).
Proof. apply sanitize_loop_total; [done|lia]. Qed.

Lemma sanitizeMathContent_run content :
  sanitize_run content = Some (sanitizeMathContent content).
Proof.
  unfold sanitizeMathContent.
  by destruct (sanitize_run_total content) as [result ->].
Qed.

(** A text in which no marker is found at any position is returned as it
    is. *)
Lemma sanitize_loop_no_marker fuel content pos inMathMode startMathPos :
  (∀ p, find_marker content p = None) →
  String.length content - pos < fuel →
  sanitize_loop fuel content pos inMathMode startMathPos = Some content.
Proof.
  intros Hnone. revert pos.
  induction fuel as [|fuel IH]; intros pos Hfuel; [lia|].
  cbn [sanitize_loop]. destruct (pos <? String.length content) eqn:Hpos; [|done].
  apply Nat.ltb_lt in Hpos. rewrite Hnone. apply IH. lia.
Qed.

Lemma sanitizeMathContent_no_marker content :
  (∀ p, find_marker content p = None) → sanitizeMathContent content = content.
Proof.
  intros H. unfold sanitizeMathContent, sanitize_run.
  rewrite sanitize_loop_no_marker; [done..|lia].
Qed.

(** ** C4: the accented word inside an equation block *)

(** C4 (evaluation of the code): in the block
    [\begin{equation}Productivité\end{equation}] the word is first replaced by
    [\text{Productivité}], the text of the replacement table; the pairs are
    visited in key order, so the pair for [é] comes later and rewrites the
    letter inside that text.  The result has [\text{Productivit\text{é}}]
    and no occurrence of [\text{Productivité}].  The same word outside the
    block is returned unchanged. *)
Theorem C4_sanitize_rewraps_accent :
  sanitize_run "\begin{equation}Productivité\end{equation}"
  = Some "\begin{equation}\text{Productivit\text{é}}\end{equation}"
  ∧ contains "\text{Productivité}"
      (sanitizeMathContent "\begin{equation}Productivité\end{equation}") = false
  ∧ replace_each (map_items replacements) "Productivité"
    = Some "\text{Productivit\text{é}}"
  ∧ sanitizeMathContent
      "Productivité \begin{equation}Productivité\end{equation} Productivité"
    = "Productivité \begin{equation}\text{Productivit\text{é}}\end{equation} Productivité".
Proof. by vm_compute. Qed.

Lemma ends_with_refl q : ends_with q q.
Proof. by exists "". Qed.

Lemma ends_with_app x q s : ends_with q s → ends_with q (x +:+ s).
Proof. intros [r ->]. exists (x +:+ r). by rewrite sapp_assoc. Qed.

(** The last piece written to a stream is the end of its text. *)
Ltac peel_end := repeat first [ apply ends_with_refl | apply ends_with_app ].

(** ** Environments: what a block starts and ends with *)

(** C3 as stated fails: the text of a table does not start with what
    [begin()] returns, since [\begin{table}] is followed by the position
    option and not by the newline. *)
Lemma C3_table_begins_with_option :
  ¬ (∃ body, Environment_generate (EnvTable (Table.new ["a"; "b"] "h"))
             = begin_ (EnvTable (Table.new ["a"; "b"] "h")) +:+ body
               +:+ end_ (EnvTable (Table.new ["a"; "b"] "h"))).
Proof.
  intros [body H].
  assert (String.prefix (begin_ (EnvTable (Table.new ["a"; "b"] "h")))
            (Environment_generate (EnvTable (Table.new ["a"; "b"] "h"))) = true)
    as Hp by (apply starts_with_prefix; eexists; exact H).
  vm_compute in Hp. discriminate.
Qed.

(** C3 (amended): the text of every environment is [\begin{name}], an
    option, a newline, a body and what [end()] returns.  The option is empty
    for [Equation], [List] and [Algorithm], whose text so starts with what
    [begin()] returns; it is the position option for [Table] and [Figure] and
    the bracketed title, if there is one, for [TheoremEnvironment]. *)
Theorem C3_environment_block (env : Environment) :
  ∃ option body,
    Environment_generate env
    = "\begin{" +:+ Environment_name env +:+ "}" +:+ option +:+ nl
      +:+ body +:+ end_ env
    ∧ option =
      match env with
      | EnvTable e => position_option (Table.m_options e)
      | EnvFigure e => position_option (Figure.m_options e)
      | EnvTheorem e =>
          if String.eqb (TheoremEnvironment.m_title e) "" then ""
          else "[" +:+ TheoremEnvironment.m_title e +:+ "]"
      | EnvEquation _ | EnvList _ | EnvAlgorithm _ => ""
      end.
Proof.
  destruct env as [e|e|e|e|e|e]; unfold end_, Environment_name;
    cbn [Environment_generate].
  - unfold Table.generate.
    match goal with
    | |- ∃ _ _, _ +:+ _ +:+ _ +:+ ?rest = _ ∧ _ =>
        assert (ends_with (Environment_end Table.m_name) rest) as [body Hb]
          by peel_end;
        eexists _, body; rewrite Hb
    end.
    split; reflexivity.
  - unfold Figure.generate.
    match goal with
    | |- ∃ _ _, _ +:+ _ +:+ _ +:+ ?rest = _ ∧ _ =>
        assert (ends_with (Environment_end Figure.m_name) rest) as [body Hb]
          by peel_end;
        eexists _, body; rewrite Hb
    end.
    split; reflexivity.
  - unfold Equation.generate, Equation.begin_, Equation.end_, Environment_begin.
    rewrite !sapp_assoc.
    match goal with
    | |- ∃ _ _, _ +:+ _ +:+ _ +:+ _ +:+ ?rest = _ ∧ _ =>
        assert (ends_with (Environment_end (Equation.m_name e)) rest) as [body Hb]
          by peel_end;
        exists "", body; rewrite Hb
    end.
    split; reflexivity.
  - unfold List.generate, List.begin_, List.end_, Environment_begin.
    rewrite !sapp_assoc.
    match goal with
    | |- ∃ _ _, _ +:+ _ +:+ _ +:+ _ +:+ ?rest = _ ∧ _ =>
        assert (ends_with (Environment_end (List.m_name e)) rest) as [body Hb]
          by peel_end;
        exists "", body; rewrite Hb
    end.
    split; reflexivity.
  - unfold Algorithm.generate.
    match goal with
    | |- ∃ _ _, _ +:+ _ +:+ ?rest = _ ∧ _ =>
        assert (ends_with (Environment_end Algorithm.m_name) rest) as [body Hb]
          by peel_end;
        exists "", body; rewrite Hb
    end.
    split; reflexivity.
  - unfold TheoremEnvironment.generate.
    match goal with
    | |- ∃ _ _, _ +:+ _ +:+ _ +:+ _ +:+ _ +:+ ?rest = _ ∧ _ =>
        assert (ends_with (Environment_end (TheoremEnvironment.m_name e)) rest)
          as [body Hb] by peel_end;
        eexists _, body; rewrite Hb
    end.
    split; reflexivity.
Qed.

(** ** Table rows *)

(** The cell loop writes the first [numCols - i] values of what is left of
    the row, each followed by the separator its index asks for. *)
Lemma cells_imap numCols i row :
  Table.cells numCols i row
  = str_concat
      (imap (fun j cell => cell +:+ (if i + j <? numCols - 1 then " & " else ""))
            (take (numCols - i) row)).
Proof.
  revert i. induction row as [|cell row IH]; intros i.
  - by rewrite take_nil.
  - cbn [Table.cells]. destruct (i <? numCols) eqn:Hi.
    + apply Nat.ltb_lt in Hi.
      replace (numCols - i) with (S (numCols - S i)) by lia.
      cbn [take imap]. unfold str_concat at 1. cbn [foldr].
      rewrite Nat.add_0_r, sapp_assoc. do 2 f_equal.
      rewrite IH. unfold str_concat. f_equal.
      apply imap_ext. intros j x _. cbn. by rewrite Nat.add_succ_r.
    + apply Nat.ltb_ge in Hi.
      by replace (numCols - i) with 0 by lia.
Qed.

(** A row that fills the columns: the values are joined by the separator,
    and what comes after the last column is dropped. *)
Lemma cells_full numCols i cells extra :
  i + length cells = numCols →
  Table.cells numCols i (cells ++ extra) = String.concat " & " cells.
Proof.
  revert i. induction cells as [|cell cells IH]; intros i Hlen; simpl in Hlen.
  - destruct extra as [|x extra]; [done|]. cbn [app Table.cells].
    by replace (i <? numCols) with false by (symmetry; apply Nat.ltb_ge; lia).
  - cbn [app Table.cells].
    replace (i <? numCols) with true by (symmetry; apply Nat.ltb_lt; lia).
    rewrite (IH (S i)) by lia.
    destruct cells as [|cell' cells].
    + replace (i <? numCols - 1) with false
        by (symmetry; apply Nat.ltb_ge; simpl in Hlen; lia).
      cbn. by rewrite sapp_nil_r.
    + replace (i <? numCols - 1) with true
        by (symmetry; apply Nat.ltb_lt; simpl in Hlen; lia).
      done.
Qed.

(** A row that is shorter than the header: every value, the last one too,
    is followed by the separator. *)
Lemma cells_short numCols i row :
  i + length row < numCols →
  Table.cells numCols i row = str_concat (map (fun cell => cell +:+ " & ") row).
Proof.
  revert i. induction row as [|cell row IH]; intros i Hlen; simpl in Hlen; [done|].
  cbn [Table.cells map].
  replace (i <? numCols) with true by (symmetry; apply Nat.ltb_lt; lia).
  replace (i <? numCols - 1) with true by (symmetry; apply Nat.ltb_lt; lia).
  rewrite (IH (S i)) by lia. unfold str_concat. cbn [foldr].
  by rewrite sapp_assoc.
Qed.

Lemma cells_header headers :
  Table.cells (length headers) 0 headers = String.concat " & " headers.
Proof.
  pose proof (cells_full (length headers) 0 headers [] eq_refl) as H.
  by rewrite app_nil_r in H.
Qed.

(** C5: the column specification has one [|c] per header and a closing [|];
    the header line and every row line end with [ \\ \hline]; a row writes
    its first [min M N] values and no other; a row of at least [N] values
    is its first [N] values joined by [ & ]. *)
Theorem C5_table_layout (t : Table.t) (row : list string) :
  let N := length (Table.m_headers t) in
  (∃ pre post,
      Table.generate t
      = pre +:+ "\begin{tabular}{" +:+ str_concat (replicate N "|c") +:+ "|}"
        +:+ nl +:+ "\hline" +:+ nl
        +:+ String.concat " & " (Table.m_headers t) +:+ " \\ \hline" +:+ nl
        +:+ str_concat (map (Table.row_line N) (Table.m_rows t))
        +:+ "\end{tabular}" +:+ nl +:+ post)
  ∧ Table.row_line N row
    = str_concat
        (imap (fun i cell => cell +:+ (if i <? N - 1 then " & " else ""))
              (take (min (length row) N) row))
      +:+ " \\ \hline" +:+ nl
  ∧ (N ≤ length row →
     Table.row_line N row
     = String.concat " & " (take N row) +:+ " \\ \hline" +:+ nl).
Proof.
  intros N. split; [|split].
  - exists ("\begin{table}" +:+ position_option (Table.m_options t)
            +:+ nl +:+ "\centering" +:+ nl),
           (opt_line "\caption" (Table.m_caption t)
            +:+ opt_line "\label" (Table.m_label t)
            +:+ "\end{table}" +:+ nl).
    unfold Table.generate, Table.row_line at 1, Table.column_spec. fold N.
    unfold N. rewrite cells_header.
    rewrite !sapp_assoc. reflexivity.
  - unfold Table.row_line. f_equal.
    rewrite cells_imap, Nat.sub_0_r.
    assert (take (length row `min` N) row = take N row) as ->; [|done].
    destruct (decide (N ≤ length row)) as [H|H].
    + by rewrite Nat.min_r.
    + rewrite Nat.min_l by lia. by rewrite !take_ge by lia.
  - intros Hle. unfold Table.row_line. f_equal.
    rewrite <- (take_drop N row) at 1.
    apply cells_full. rewrite length_take. lia.
Qed.

Lemma C5_table_layout_witness :
  2 ≤ length ["1"; "2"; "3"; "4"]
  ∧ Table.row_line 2 ["1"; "2"; "3"; "4"] = "1 & 2 \\ \hline" +:+ nl.
Proof.
  split; [simpl; lia|].
  apply (proj2 (proj2 (C5_table_layout (Table.new ["a"; "b"] "h")
                         ["1"; "2"; "3"; "4"]))).
  simpl; lia.
Defined.

Lemma occurs_in_refl needle : occurs_in needle needle.
Proof. exists "", "". by rewrite sapp_nil_r. Qed.

Lemma occurs_in_app_l x needle s : occurs_in needle s → occurs_in needle (x +:+ s).
Proof.
  intros (pre & post & ->). exists (x +:+ pre), post. by rewrite sapp_assoc.
Qed.

Lemma occurs_in_app_r y needle s : occurs_in needle s → occurs_in needle (s +:+ y).
Proof.
  intros (pre & post & ->). exists pre, (post +:+ y). by rewrite !sapp_assoc.
Qed.

(** What a loop writes for one element is part of what it writes in all. *)
Lemma occurs_in_str_concat {A} (f : A → string) (x : A) (l : list A) needle :
  x ∈ l → occurs_in needle (f x) → occurs_in needle (str_concat (map f l)).
Proof.
  intros (l1 & l2 & ->)%list_elem_of_split Hocc.
  rewrite map_app, str_concat_app. apply occurs_in_app_l.
  cbn [map]. unfold str_concat at 1. cbn [foldr]. by apply occurs_in_app_r.
Qed.

(** C9: the line of a non-empty row with fewer values than headers: after
    its last value comes the separator, then the terminator; such a line is
    part of the text of the table. *)
Theorem C9_short_row_trailing_separator (t : Table.t) (row : list string) :
  2 ≤ length (Table.m_headers t) →
  row ≠ [] →
  length row < length (Table.m_headers t) →
  ∃ init last,
    row = init ++ [last]
    ∧ Table.row_line (length (Table.m_headers t)) row
      = str_concat (map (fun cell => cell +:+ " & ") init)
        +:+ last +:+ " & " +:+ " \\ \hline" +:+ nl
    ∧ (row ∈ Table.m_rows t →
       occurs_in (last +:+ " & " +:+ " \\ \hline" +:+ nl) (Table.generate t)).
Proof.
  intros _ Hne Hlen.
  destruct (exists_last Hne) as (init & last & ->).
  exists init, last.
  assert (Table.row_line (length (Table.m_headers t)) (init ++ [last])
          = str_concat (map (fun cell => cell +:+ " & ") init)
            +:+ last +:+ " & " +:+ " \\ \hline" +:+ nl) as Hline.
  { unfold Table.row_line. rewrite cells_short by lia.
    rewrite map_app, str_concat_app. cbn [map]. unfold str_concat at 2.
    cbn [foldr]. by rewrite sapp_nil_r, !sapp_assoc. }
  split; [done|]. split; [done|].
  intros Hin. unfold Table.generate.
  do 12 apply occurs_in_app_l. apply occurs_in_app_r.
  apply (occurs_in_str_concat _ _ _ _ Hin).
  rewrite Hline. apply occurs_in_app_l, occurs_in_refl.
Qed.

Lemma C9_short_row_trailing_separator_witness :
  let t := Table.addRow ["x"; "y"] (Table.new ["a"; "b"; "c"] "h") in
  let row := ["x"; "y"] in
  2 ≤ length (Table.m_headers t) ∧ row ≠ [] ∧
  length row < length (Table.m_headers t) ∧
  ∃ init last,
    row = init ++ [last]
    ∧ Table.row_line (length (Table.m_headers t)) row
      = str_concat (map (fun cell => cell +:+ " & ") init)
        +:+ last +:+ " & " +:+ " \\ \hline" +:+ nl
    ∧ (row ∈ Table.m_rows t →
       occurs_in (last +:+ " & " +:+ " \\ \hline" +:+ nl) (Table.generate t)).
Proof.
  intros t row.
  assert (2 ≤ length (Table.m_headers t)) as H1 by (simpl; lia).
  assert (row ≠ []) as H2 by discriminate.
  assert (length row < length (Table.m_headers t)) as H3 by (simpl; lia).
  repeat (split; [assumption|]).
  exact (C9_short_row_trailing_separator t row H1 H2 H3).
Defined.

(** ** Bibliography inclusion *)

Lemma cite_citationsUsed key (d : Document.t) :
  Document.citationsUsed (Document.cite key d).1 = true.
Proof.
  unfold Document.citationsUsed. cbn.
  rewrite bool_decide_eq_false_2; [done|]. set_solver.
Qed.

(** [Document] and [Article]: with a citation the body ends with the
    inclusion commands, a newline and [\end{document}]. *)
Lemma Document_body_with_citations (d : Document.t) :
  Document.citationsUsed d = true →
  ends_with (Bibliography.getIncludeCommands (Document.m_bibliography d)
             +:+ nl +:+ "\end{document}" +:+ nl)
            (Document.generateDocument d).
Proof.
  intros H. unfold Document.generateDocument, Document.bibliography_block.
  rewrite H, sapp_assoc. peel_end.
Qed.

Lemma Article_body_with_citations (a : Article.t) :
  Document.citationsUsed (Article.base a) = true →
  ends_with (Bibliography.getIncludeCommands
               (Document.m_bibliography (Article.base a))
             +:+ nl +:+ "\end{document}" +:+ nl)
            (Article.generateDocument a).
Proof.
  intros H. unfold Article.generateDocument, Article.after_title_block,
    Document.bibliography_block.
  rewrite H, sapp_assoc. peel_end.
Qed.

(** Without a citation the bibliography that is attached makes no
    difference. *)
Lemma Document_body_without_citations (d : Document.t) bibliography :
  Document.citationsUsed d = false →
  Document.generateDocument (Document.setBibliography bibliography d)
  = Document.generateDocument d.
Proof.
  intros H. unfold Document.generateDocument, Document.bibliography_block.
  change (Document.citationsUsed (Document.setBibliography bibliography d))
    with (Document.citationsUsed d).
  by rewrite H.
Qed.

(** [Report], [Book] and [Presentation]: neither the citations nor the
    bibliography are read by [generateDocument]. *)
Lemma Report_body_ignores_citations (r : Report.t) used bibliography :
  Report.generateDocument
    (Report.set_base
       (Document.setBibliography bibliography
          (Document.set_usedCitations used (Report.base r))) r)
  = Report.generateDocument r.
Proof. reflexivity. Qed.

Lemma Book_body_ignores_citations (b : Book.t) used bibliography :
  Book.generateDocument
    (Book.set_base
       (Document.setBibliography bibliography
          (Document.set_usedCitations used (Book.base b))) b)
  = Book.generateDocument b.
Proof. reflexivity. Qed.

Lemma Presentation_body_ignores_citations (p : Presentation.t) used bibliography :
  Presentation.generateDocument
    (Presentation.set_base
       (Document.setBibliography bibliography
          (Document.set_usedCitations used (Presentation.base p))) p)
  = Presentation.generateDocument p.
Proof. reflexivity. Qed.

(** C1 (evaluation of the code): a [Report], a [Book] and a [Presentation]
    with a bibliography attached and one citation registered have no
    inclusion command in their body; a plain [Document] and an [Article] in
    the same state have them. *)
Theorem C1_report_body_has_no_bibliography :
  let bib := Bibliography.new_file "references" IEEE in
  let cited doc := (cite "smith2023" (setBibliography bib doc)).1 in
  let report := cited (DocReport (Report.new "T" "A" "D" ENGLISH)) in
  let book := cited (DocBook (Book.new "T" "A" "D" ENGLISH)) in
  let presentation :=
    cited (DocPresentation
             (Presentation.new "T" "A" "D" ENGLISH Presentation.THEME_DEFAULT
                Presentation.COLOR_DEFAULT)) in
  let plain := cited (DocPlain (Document.new ARTICLE "T" "A" "D" ENGLISH)) in
  let article := cited (DocArticle (Article.new "T" "A" "D" ENGLISH)) in
  Document.citationsUsed (base_of report) = true
  ∧ generateDocument report
    = "\begin{document}" +:+ nl +:+ nl +:+ "\maketitle" +:+ nl +:+ nl
      +:+ "\end{document}" +:+ nl
  ∧ contains (Bibliography.getIncludeCommands bib) (generateDocument report) = false
  ∧ contains (Bibliography.getIncludeCommands bib) (generateDocument book) = false
  ∧ contains (Bibliography.getIncludeCommands bib) (generateDocument presentation)
    = false
  ∧ contains (Bibliography.getIncludeCommands bib) (generateDocument plain) = true
  ∧ contains (Bibliography.getIncludeCommands bib) (generateDocument article) = true.
Proof. by vm_compute. Qed.

(** ** Calls leave the object as it was *)

Section method_facts.
Import Method.
Context {Obj : Type}.
Implicit Types (b : body Obj) (f g : Obj → string).

Lemma writes_ext b f g : writes b f → (∀ o, f o = g o) → writes b g.
Proof. intros H Hfg o ss. by rewrite H, Hfg. Qed.

Lemma writes_put f : writes (put f) f.
Proof. done. Qed.

Lemma writes_skip : writes (Obj:=Obj) skip (fun _ => "").
Proof. intros o ss. unfold skip. by rewrite sapp_nil_r. Qed.

Lemma writes_andthen b1 b2 f1 f2 :
  writes b1 f1 → writes b2 f2 → writes (andthen b1 b2) (fun o => f1 o +:+ f2 o).
Proof.
  intros H1 H2 o ss. unfold andthen. by rewrite H1, H2, sapp_assoc.
Qed.

Lemma sets_assign f : sets (assign f) f.
Proof. done. Qed.

Lemma sets_andthen b1 b2 f1 f2 :
  sets b1 f1 → writes b2 f2 → sets (andthen b1 b2) (fun o => f1 o +:+ f2 o).
Proof. intros H1 H2 o ss. unfold andthen. by rewrite H1, H2. Qed.

Lemma sets_switch {T} (tag : Obj → T) (cases : T → body Obj) (f : T → Obj → string) :
  (∀ t, sets (cases t) (f t)) → sets (switch tag cases) (fun o => f (tag o) o).
Proof. intros H o ss. unfold switch. cbn. by rewrite H. Qed.

Lemma writes_switch {T} (tag : Obj → T) (cases : T → body Obj)
    (f : T → Obj → string) :
  (∀ t, writes (cases t) (f t)) → writes (switch tag cases) (fun o => f (tag o) o).
Proof. intros H o ss. unfold switch. cbn. by rewrite H. Qed.

Lemma writes_when (cond : Obj → bool) b f :
  writes b f → writes (when cond b) (fun o => if cond o then f o else "").
Proof.
  intros H o ss. unfold when. cbn. destruct (cond o); [apply H|].
  by rewrite sapp_nil_r.
Qed.

Lemma writes_if_else (cond : Obj → bool) b1 b2 f1 f2 :
  writes b1 f1 → writes b2 f2 →
  writes (if_else cond b1 b2) (fun o => if cond o then f1 o else f2 o).
Proof. intros H1 H2 o ss. unfold if_else. cbn. by destruct (cond o). Qed.

Lemma writes_local {A} (value : Obj → A) (rest : A → body Obj)
    (f : A → Obj → string) :
  (∀ x, writes (rest x) (f x)) →
  writes (local value rest) (fun o => f (value o) o).
Proof. intros H o ss. unfold local. cbn. by rewrite H. Qed.

Lemma writes_for_each {A} (items : Obj → list A) (round : A → body Obj)
    (f : A → Obj → string) :
  (∀ x, writes (round x) (f x)) →
  writes (for_each items round)
         (fun o => str_concat (map (fun x => f x o) (items o))).
Proof.
  intros H o ss. unfold for_each. cbn [fst]. generalize (items o). intros l.
  revert ss. induction l as [|x l IH]; intros ss.
  - cbn. by rewrite sapp_nil_r.
  - cbn [foldl map]. rewrite H, IH. unfold str_concat. cbn [foldr].
    by rewrite sapp_assoc.
Qed.

Lemma writes_for_index (bound : Obj → nat) (round : nat → body Obj)
    (f : nat → Obj → string) :
  (∀ i, writes (round i) (f i)) →
  writes (for_index bound round)
         (fun o => str_concat (map (fun i => f i o) (seq 0 (bound o)))).
Proof. intros H. by apply (writes_for_each (fun o => seq 0 (bound o))). Qed.

Lemma writes_call {A} (m : method Obj A) (rest : A → body Obj)
    (result : Obj → A) (f : A → Obj → string) :
  const_method m result → (∀ r, writes (rest r) (f r)) →
  writes (call m rest) (fun o => f (result o) o).
Proof. intros Hm H o ss. unfold call. cbn. by rewrite Hm, H. Qed.

Lemma const_returns b f : writes b f → const_method (returns b) f.
Proof. intros H o. unfold returns. by rewrite H. Qed.

Lemma const_returns_sets b f : sets b f → const_method (returns b) f.
Proof. intros H o. unfold returns. by rewrite H. Qed.

Lemma const_result_of {A} (value : Obj → A) : const_method (result_of value) value.
Proof. done. Qed.

Lemma const_on_member {Sub A} (get : Obj → Sub) (set : Sub → Obj → Obj)
    (m : method Sub A) (result : Sub → A) :
  const_method m result → (∀ o, set (get o) o = o) →
  const_method (on_member get set m) (fun o => result (get o)).
Proof. intros Hm Hset o. unfold on_member. rewrite Hm. cbn. by rewrite Hset. Qed.

Lemma writes_for_each_object {Elt A} (get : Obj → list Elt)
    (set : list Elt → Obj → Obj) (m : method Elt A) (round : A → body Obj)
    (result : Elt → A) (f : A → Obj → string) :
  const_method m result → (∀ o, set (get o) o = o) →
  (∀ r, writes (round r) (f r)) →
  writes (for_each_object get set m round)
         (fun o => str_concat (map (fun x => f (result x) o) (get o))).
Proof.
  intros Hm Hset H o ss. unfold for_each_object. cbn [fst snd].
  assert (∀ l done ss,
    foldl (fun acc x => let c := m x in (acc.1 ++ [c.2], round c.1 acc.2))
          (done, (o, ss)) l
    = (done ++ l, (o, ss +:+ str_concat (map (fun x => f (result x) o) l))))
    as Hloop.
  { intros l. induction l as [|x l IH]; intros done ss'.
    - cbn. by rewrite app_nil_r, sapp_nil_r.
    - cbn [foldl map]. cbn zeta. rewrite Hm. cbn [fst snd]. rewrite H, IH.
      unfold str_concat. cbn [foldr]. by rewrite <- app_assoc, sapp_assoc. }
  rewrite Hloop. cbn. by rewrite Hset.
Qed.

End method_facts.

(** The text of a body, read off its statements. *)
Ltac read_body :=
  repeat first
    [ apply writes_put
    | eapply writes_andthen
    | eapply writes_when
    | eapply writes_if_else
    | eapply writes_local; intro
    | eapply writes_switch; intro
    | eapply writes_for_index; intro
    | eapply writes_for_each; intro ].

Lemma if_negb {A} (b : bool) (x y : A) :
  (if negb b then x else y) = (if b then y else x).
Proof. by destruct b. Qed.

Lemma map_const_seq {A} (x : A) i n : map (fun _ => x) (seq i n) = replicate n x.
Proof. revert i. induction n as [|n IH]; intros i; cbn; [done|]. by rewrite IH. Qed.

Lemma position_option_has (m_options : gmap string string) :
  (if Call.has_position m_options
   then "[" +:+ default "" (m_options !! "position") +:+ "]" else "")
  = position_option m_options.
Proof.
  unfold Call.has_position, position_option.
  destruct (m_options !! "position") as [position|] eqn:E; cbn [default].
  - rewrite bool_decide_eq_false_2; [by rewrite bool_decide_eq_true_2|].
    intros ->. by rewrite lookup_empty in E.
  - rewrite (bool_decide_eq_false_2 (is_Some None)); [|by intros [? ?]].
    by rewrite andb_false_r.
Qed.

(** The cells loop from index [i] on. *)
Lemma cell_rounds {Obj} (row : Obj → list string) numCols o i k :
  i + k = min (length (row o)) numCols →
  str_concat
    (map (fun j => default "" (row o !! j)
                   +:+ (if j <? numCols - 1 then " & " else ""))
         (seq i k))
  = Table.cells numCols i (drop i (row o)).
Proof.
  revert i. induction k as [|k IH]; intros i Hk.
  - cbn. destruct (drop i (row o)) as [|cell rest] eqn:E; [done|].
    cbn [Table.cells].
    assert (i < length (row o)).
    { destruct (decide (i < length (row o))); [done|].
      rewrite drop_ge in E by lia. done. }
    replace (i <? numCols) with false by (symmetry; apply Nat.ltb_ge; lia).
    done.
  - cbn [seq map]. unfold str_concat. cbn [foldr].
    fold (str_concat (map (fun j => default "" (row o !! j)
                   +:+ (if j <? numCols - 1 then " & " else "")) (seq (S i) k))).
    rewrite IH by lia.
    assert (i < length (row o)) as Hi by lia.
    destruct (lookup_lt_is_Some_2 (row o) i Hi) as [cell Hcell].
    rewrite (drop_S _ cell i) by done. cbn [Table.cells].
    replace (i <? numCols) with true by (symmetry; apply Nat.ltb_lt; lia).
    rewrite Hcell. cbn [default]. by rewrite sapp_assoc.
Qed.

Lemma writes_cell_round {Obj} (row : Obj → list string) numCols i :
  Method.writes (Call.cell_round row numCols i)
    (fun o => default "" (row o !! i)
              +:+ (if i <? numCols - 1 then " & " else "")).
Proof. unfold Call.cell_round. read_body. Qed.

Lemma Section_generate_const :
  Method.const_method Call.Section_generate Section.generate.
Proof.
  apply const_returns_sets. unfold Section.generate.
  eapply (sets_andthen _ _
            (fun o => match Section.m_level o with
                      | Section.CHAPTER => "\chapter{" +:+ Section.m_title o +:+ "}" +:+ nl
                      | Section.SECTION => "\section{" +:+ Section.m_title o +:+ "}" +:+ nl
                      | Section.SUBSECTION => "\subsection{" +:+ Section.m_title o +:+ "}" +:+ nl
                      | Section.SUBSUBSECTION => "\subsubsection{" +:+ Section.m_title o +:+ "}" +:+ nl
                      end)
            (fun o => str_concat (map (fun content => content +:+ nl)
                                      (Section.m_content o)))).
  - intros o ss. unfold Method.switch. cbn. by destruct (Section.m_level o).
  - apply (writes_for_each Section.m_content _ (fun content _ => content +:+ nl)).
    intros content. apply writes_put.
Qed.

Lemma Table_generate_const :
  Method.const_method Call.Table_generate Table.generate.
Proof.
  apply const_returns. unfold Call.Table_generate.
  eapply writes_ext.
  { eapply writes_andthen; [apply writes_put|].
    eapply writes_andthen; [eapply writes_when; apply writes_put|].
    eapply writes_andthen; [apply writes_put|].
    eapply writes_local. intros numCols.
    eapply writes_andthen; [apply writes_put|].
    eapply writes_andthen;
      [eapply writes_for_index; intros i; apply writes_put|].
    eapply writes_andthen; [apply writes_put|].
    eapply writes_andthen;
      [eapply writes_for_index; intros i; apply writes_cell_round|].
    eapply writes_andthen; [apply writes_put|].
    eapply writes_andthen.
    { eapply (writes_for_each _ _ (fun row _ => Table.row_line numCols row)).
      intros row. eapply writes_ext.
      { eapply writes_andthen;
          [eapply writes_for_index; intros i; apply writes_cell_round|].
        apply writes_put. }
      intros o. cbn beta.
      rewrite (cell_rounds (fun _ => row) numCols o 0) by done.
      by rewrite drop_0. }
    read_body. }
  intros o. cbn beta. unfold Table.generate, Table.row_line, Table.column_spec, opt_line.
  rewrite position_option_has, map_const_seq.
  rewrite (cell_rounds Table.m_headers (length (Table.m_headers o)) o 0) by lia.
  rewrite drop_0, !if_negb, !sapp_assoc. reflexivity.
Qed.

Lemma Figure_generate_const :
  Method.const_method Call.Figure_generate Figure.generate.
Proof.
  apply const_returns. eapply writes_ext; [unfold Call.Figure_generate; read_body|].
  intros o. cbn beta. unfold Figure.generate, opt_line.
  by rewrite position_option_has, !if_negb, !sapp_assoc.
Qed.

Lemma Equation_generate_const :
  Method.const_method Call.Equation_generate Equation.generate.
Proof.
  apply const_returns. eapply writes_ext.
  { unfold Call.Equation_generate.
    eapply writes_andthen;
      [eapply writes_call; [apply const_result_of|intros r; apply writes_put]|].
    eapply writes_andthen; [apply writes_put|].
    eapply writes_andthen; [eapply writes_when; apply writes_put|].
    eapply writes_call; [apply const_result_of|intros r; apply writes_put]. }
  intros o. cbn beta.
  unfold Equation.generate, Equation.begin_, Equation.end_, Environment_begin,
    Environment_end, opt_line.
  by rewrite !if_negb, !sapp_assoc.
Qed.

Lemma map_seq_imap {A B} (g : nat → A → B) (d : A) (l : list A) :
  map (fun i => g i (default d (l !! i))) (seq 0 (length l)) = imap g l.
Proof.
  revert g. induction l as [|x l IH]; intros g; [done|].
  cbn [length seq map imap]. f_equal.
  rewrite <- seq_shift, map_map. apply (IH (fun i => g (S i))).
Qed.

Lemma List_generate_const :
  Method.const_method Call.List_generate List.generate.
Proof.
  apply const_returns. eapply writes_ext.
  { unfold Call.List_generate.
    eapply writes_andthen;
      [eapply writes_call; [apply const_result_of|intros r; apply writes_put]|].
    eapply writes_andthen; [eapply writes_for_index; intros i; read_body|].
    eapply writes_call; [apply const_result_of|intros r; apply writes_put]. }
  intros o. cbn beta.
  unfold List.generate, List.begin_, List.end_, Environment_begin,
    Environment_end.
  rewrite <- (map_seq_imap (List.item_line o) "").
  erewrite (map_ext _ (fun i => List.item_line o i (default "" (List.m_items o !! i)))).
  { by rewrite !sapp_assoc. }
  intros i. unfold List.item_line.
  destruct (List.m_type o), (List.m_itemLabels o !! i); cbn [andb default];
    rewrite ?bool_decide_eq_true_2 by (by eexists);
    rewrite ?bool_decide_eq_false_2 by (by intros [? ?]); done.
Qed.

Lemma TheoremEnvironment_generate_const :
  Method.const_method Call.TheoremEnvironment_generate TheoremEnvironment.generate.
Proof.
  apply const_returns.
  eapply writes_ext; [unfold Call.TheoremEnvironment_generate; read_body|].
  intros o. cbn beta. unfold TheoremEnvironment.generate.
  by rewrite !if_negb, !sapp_assoc.
Qed.

Lemma Algorithm_generate_const :
  Method.const_method Call.Algorithm_generate Algorithm.generate.
Proof.
  apply const_returns. eapply writes_ext.
  { unfold Call.Algorithm_generate.
    do 4 (eapply writes_andthen; [read_body|]).
    eapply writes_andthen.
    { eapply (writes_for_each _ _ (fun line _ => Algorithm.line_text line)).
      intros line. eapply writes_ext; [read_body|].
      intros o. cbn beta. unfold Algorithm.line_text. by rewrite map_const_seq. }
    read_body. }
  intros o. cbn beta. unfold Algorithm.generate, opt_line.
  by rewrite !if_negb, !sapp_assoc.
Qed.

Lemma Environment_generate_const :
  Method.const_method Call.Environment_generate Environment_generate.
Proof.
  intros [e|e|e|e|e|e]; unfold Call.Environment_generate.
  - by rewrite Table_generate_const.
  - by rewrite Figure_generate_const.
  - by rewrite Equation_generate_const.
  - by rewrite List_generate_const.
  - by rewrite Algorithm_generate_const.
  - by rewrite TheoremEnvironment_generate_const.
Qed.

Lemma Bibliography_getIncludeCommands_const :
  Method.const_method Call.Bibliography_getIncludeCommands
    Bibliography.getIncludeCommands.
Proof.
  apply const_returns. eapply writes_ext.
  { unfold Call.Bibliography_getIncludeCommands.
    eapply writes_andthen;
      [eapply writes_call; [apply const_result_of|intros r; apply writes_put]|].
    apply writes_put. }
  intros o. cbn beta. unfold Bibliography.getIncludeCommands.
  by rewrite !sapp_assoc.
Qed.

Lemma Document_getLanguageConfiguration_const :
  Method.const_method Call.Document_getLanguageConfiguration
    Document.getLanguageConfiguration.
Proof.
  apply const_returns. intros o ss.
  unfold Call.Document_getLanguageConfiguration, Method.switch,
    Document.getLanguageConfiguration.
  cbn [fst]. destruct (Document.m_language o); try done.
  unfold Method.skip. by rewrite sapp_nil_r.
Qed.

Lemma writes_package_loop {Obj} (m_packages : Obj → gmap string string) :
  Method.writes (Call.package_loop m_packages)
    (fun o => package_block (m_packages o)).
Proof.
  unfold Call.package_loop, package_block.
  eapply (writes_for_each _ _ (fun package _ => usepackage_line package)).
  intros package. eapply writes_ext; [read_body|].
  intros o. cbn beta. unfold usepackage_line. by rewrite if_negb.
Qed.

(** Writing back what was read gives the object. *)
Lemma Document_set_sections_same d :
  Call.Document_set_sections (Document.m_sections d) d = d.
Proof. by destruct d. Qed.

Lemma Document_set_environments_same d :
  Call.Document_set_environments (Document.m_environments d) d = d.
Proof. by destruct d. Qed.

Lemma Document_set_bibliography_same d :
  Call.Document_set_bibliography (Document.m_bibliography d) d = d.
Proof. by destruct d. Qed.

Lemma Document_generatePreamble_const :
  Method.const_method Call.Document_generatePreamble Document.generatePreamble.
Proof.
  apply const_returns. eapply writes_ext.
  { unfold Call.Document_generatePreamble.
    eapply writes_andthen;
      [eapply writes_call; [apply const_result_of|intros r; apply writes_put]|].
    eapply writes_andthen; [apply writes_package_loop|].
    eapply writes_andthen; [apply writes_put|].
    eapply writes_andthen;
      [eapply writes_call;
         [apply Document_getLanguageConfiguration_const
         |intros r; apply writes_put]|].
    do 5 (eapply writes_andthen; [eapply writes_when; apply writes_put|]).
    eapply writes_andthen.
    { eapply writes_when. eapply writes_call.
      - apply (const_on_member Document.m_bibliography
                 Call.Document_set_bibliography _ (fun _ => "")).
        + apply const_result_of.
        + apply Document_set_bibliography_same.
      - intros r. apply writes_put. }
    read_body. }
  intros o. cbn beta.
  unfold Document.generatePreamble, Document.preamble_rest, opt_line,
    Bibliography.getPreambleConfig.
  by rewrite !if_negb, !sapp_assoc.
Qed.

Section shared_loops.
Context {Obj : Type} (base : Obj → Document.t)
        (set_base : Document.t → Obj → Obj).
Hypothesis set_base_same : ∀ o, set_base (base o) o = o.

Lemma writes_rawContent_loop :
  Method.writes (Call.rawContent_loop base)
    (fun o => Document.rawContent_block (base o)).
Proof.
  unfold Call.rawContent_loop, Document.rawContent_block.
  apply (writes_for_each (fun o => Document.m_rawContent (base o)) _
           (fun content _ => content +:+ nl +:+ nl)).
  intros content. apply writes_put.
Qed.

Lemma writes_sections_loop :
  Method.writes (Call.sections_loop base set_base)
    (fun o => Document.sections_block (Document.m_sections (base o))).
Proof.
  unfold Call.sections_loop, Document.sections_block.
  apply (writes_for_each_object _ _ _ _ Section.generate (fun r _ => r +:+ nl)).
  - apply Section_generate_const.
  - intros o. by rewrite Document_set_sections_same.
  - intros r. apply writes_put.
Qed.

Lemma writes_environments_loop :
  Method.writes (Call.environments_loop base set_base)
    (fun o => Document.environments_block (base o)).
Proof.
  unfold Call.environments_loop, Document.environments_block.
  apply (writes_for_each_object _ _ _ _ Environment_generate
           (fun r _ => r +:+ nl)).
  - apply Environment_generate_const.
  - intros o. by rewrite Document_set_environments_same.
  - intros r. apply writes_put.
Qed.

Lemma writes_bibliography_commands :
  Method.writes (Call.bibliography_commands base set_base)
    (fun o => Document.bibliography_block (base o)).
Proof.
  unfold Call.bibliography_commands, Document.bibliography_block.
  apply (writes_when (fun o => Document.citationsUsed (base o)) _
           (fun o => Bibliography.getIncludeCommands
                       (Document.m_bibliography (base o)) +:+ nl)).
  eapply (writes_call _ _
            (fun o => Bibliography.getIncludeCommands
                        (Document.m_bibliography (base o)))
            (fun r _ => r +:+ nl)).
  - apply (const_on_member (fun o => Document.m_bibliography (base o)) _ _
             Bibliography.getIncludeCommands).
    + apply Bibliography_getIncludeCommands_const.
    + intros o. by rewrite Document_set_bibliography_same.
  - intros r. apply writes_put.
Qed.

End shared_loops.

Lemma Document_generateDocument_const :
  Method.const_method Call.Document_generateDocument Document.generateDocument.
Proof.
  apply const_returns. eapply writes_ext.
  { unfold Call.Document_generateDocument.
    eapply writes_andthen; [apply writes_put|].
    eapply writes_andthen; [eapply writes_when; apply writes_put|].
    eapply writes_andthen; [apply (writes_rawContent_loop id)|].
    eapply writes_andthen; [by apply (writes_sections_loop id)|].
    eapply writes_andthen; [by apply (writes_environments_loop id)|].
    eapply writes_andthen; [by apply (writes_bibliography_commands id)|].
    apply writes_put. }
  intros o. cbn beta. unfold Document.generateDocument, id.
  by rewrite !if_negb, !sapp_assoc.
Qed.

Lemma Article_set_base_same a : Article.set_base (Article.base a) a = a.
Proof. by destruct a. Qed.
Lemma Report_set_base_same r : Report.set_base (Report.base r) r = r.
Proof. by destruct r. Qed.
Lemma Book_set_base_same b : Book.set_base (Book.base b) b = b.
Proof. by destruct b. Qed.
Lemma Presentation_set_base_same p :
  Presentation.set_base (Presentation.base p) p = p.
Proof. by destruct p. Qed.

Lemma writes_base_preamble {Obj} (base : Obj → Document.t)
    (set_base : Document.t → Obj → Obj) :
  (∀ o, set_base (base o) o = o) →
  Method.writes
    (Method.call (Method.on_member base set_base Call.Document_generatePreamble)
       (fun r => Method.put (fun _ => r)))
    (fun o => Document.generatePreamble (base o)).
Proof.
  intros Hbase.
  apply (writes_call _ _ (fun o => Document.generatePreamble (base o))
           (fun r _ => r)).
  - apply (const_on_member base set_base _ Document.generatePreamble);
      [apply Document_generatePreamble_const|done].
  - intros r. apply writes_put.
Qed.

Lemma writes_abstract_statement {Obj} (m_abstract : Obj → string) :
  Method.writes (Call.abstract_statement m_abstract)
    (fun o => abstract_block (m_abstract o)).
Proof.
  unfold Call.abstract_statement. eapply writes_ext; [read_body|].
  intros o. cbn beta. unfold abstract_block. by rewrite if_negb.
Qed.

Lemma writes_makeindex {Obj} (language : Obj → Language) :
  Method.writes
    (Method.local (fun o => indexTitle (language o))
       (fun indexTitle =>
          Method.put (fun _ => "\makeindex[columns=2, title=" +:+ indexTitle
                               +:+ ", intoc]" +:+ nl +:+ nl)))
    (fun o => makeindex_line (language o)).
Proof. eapply writes_ext; [read_body|]. done. Qed.

Lemma Article_generatePreamble_const :
  Method.const_method Call.Article_generatePreamble Article.generatePreamble.
Proof.
  apply const_returns. eapply writes_ext.
  { unfold Call.Article_generatePreamble.
    eapply writes_andthen;
      [apply writes_base_preamble, Article_set_base_same|].
    do 12 (eapply writes_andthen; [apply writes_put|]).
    eapply writes_andthen; [eapply writes_for_each; intro; apply writes_put|].
    eapply writes_andthen; [read_body|].
    eapply writes_when. apply writes_makeindex. }
  intros o. cbn beta. unfold Article.generatePreamble.
  by rewrite !if_negb, !sapp_assoc.
Qed.

(** The keyword loop from index [i] on. *)
Lemma keyword_rounds (keywords : list string) i k :
  i + k = length keywords →
  str_concat
    (map (fun j => default "" (keywords !! j)
                   +:+ (if j <? length keywords - 1 then ", " else ""))
         (seq i k))
  = Article.keywords_from (length keywords) i (drop i keywords).
Proof.
  revert i. induction k as [|k IH]; intros i Hk.
  - rewrite drop_ge by lia. done.
  - cbn [seq map]. unfold str_concat. cbn [foldr].
    fold (str_concat (map (fun j => default "" (keywords !! j)
            +:+ (if j <? length keywords - 1 then ", " else "")) (seq (S i) k))).
    rewrite IH by lia.
    assert (i < length keywords) as Hi by lia.
    destruct (lookup_lt_is_Some_2 keywords i Hi) as [keyword Hkeyword].
    rewrite (drop_S _ keyword i) by done. cbn [Article.keywords_from].
    rewrite Hkeyword. cbn [default]. by rewrite sapp_assoc.
Qed.

Lemma Article_generateDocument_const :
  Method.const_method Call.Article_generateDocument Article.generateDocument.
Proof.
  apply const_returns. eapply writes_ext.
  { unfold Call.Article_generateDocument.
    eapply writes_andthen; [apply writes_put|].
    eapply writes_andthen; [read_body|].
    eapply writes_andthen; [apply writes_abstract_statement|].
    eapply writes_andthen; [eapply writes_when; apply writes_put|].
    eapply writes_andthen; [apply writes_rawContent_loop|].
    eapply writes_andthen;
      [apply writes_sections_loop, Article_set_base_same|].
    eapply writes_andthen;
      [apply writes_environments_loop, Article_set_base_same|].
    eapply writes_andthen;
      [apply writes_bibliography_commands, Article_set_base_same|].
    apply writes_put. }
  intros o. cbn beta.
  unfold Article.generateDocument, Article.title_block, Article.after_title_block.
  rewrite (keyword_rounds (Article.m_keywords o) 0) by done.
  rewrite drop_0, !if_negb.
  destruct (String.eqb (Document.m_title (Article.base o)) "");
    [|destruct (Article.is_empty (Article.m_keywords o))];
    by rewrite ?sapp_assoc.
Qed.

Lemma Report_generatePreamble_const :
  Method.const_method Call.Report_generatePreamble Report.generatePreamble.
Proof.
  apply const_returns. unfold Call.Report_generatePreamble.
  apply writes_base_preamble, Report_set_base_same.
Qed.

Lemma Report_generateDocument_const :
  Method.const_method Call.Report_generateDocument Report.generateDocument.
Proof.
  apply const_returns. eapply writes_ext.
  { unfold Call.Report_generateDocument.
    eapply writes_andthen; [apply writes_put|].
    eapply writes_andthen; [eapply writes_when; apply writes_put|].
    eapply writes_andthen; [apply writes_abstract_statement|].
    do 3 (eapply writes_andthen; [eapply writes_when; apply writes_put|]).
    eapply writes_andthen; [apply writes_rawContent_loop|].
    eapply writes_andthen;
      [apply writes_sections_loop, Report_set_base_same|].
    eapply writes_andthen;
      [apply writes_environments_loop, Report_set_base_same|].
    apply writes_put. }
  intros o. cbn beta. unfold Report.generateDocument.
  by rewrite !if_negb, !sapp_assoc.
Qed.

Lemma Book_generatePreamble_const :
  Method.const_method Call.Book_generatePreamble Book.generatePreamble.
Proof.
  apply const_returns. eapply writes_ext.
  { unfold Call.Book_generatePreamble.
    eapply writes_andthen; [apply writes_base_preamble, Book_set_base_same|].
    eapply writes_andthen; [eapply writes_when; apply writes_makeindex|].
    read_body. }
  intros o. cbn beta. unfold Book.generatePreamble. by rewrite !sapp_assoc.
Qed.

Lemma Book_set_chapters_same i b :
  Call.Book_set_chapters i (default [] (Book.m_partChapters b !! i)) b = b.
Proof.
  unfold Call.Book_set_chapters.
  destruct (Book.m_partChapters b !! i) as [chapters|] eqn:E; [|done].
  cbn [default]. rewrite insert_id by done. by destruct b.
Qed.

Lemma Book_set_appendices_same b :
  Call.Book_set_appendices (Book.m_appendices b) b = b.
Proof. by destruct b. Qed.

Lemma writes_chapters i :
  Method.writes
    (Method.for_each_object
       (fun o => default [] (Book.m_partChapters o !! i))
       (Call.Book_set_chapters i) Call.Section_generate
       (fun r => Method.put (fun _ => r +:+ nl)))
    (fun o => Document.sections_block (default [] (Book.m_partChapters o !! i))).
Proof.
  unfold Document.sections_block.
  apply (writes_for_each_object _ _ _ _ Section.generate (fun r _ => r +:+ nl)).
  - apply Section_generate_const.
  - apply Book_set_chapters_same.
  - intros r. apply writes_put.
Qed.

Lemma writes_appendices :
  Method.writes
    (Method.for_each_object Book.m_appendices Call.Book_set_appendices
       Call.Section_generate (fun r => Method.put (fun _ => r +:+ nl)))
    (fun o => Document.sections_block (Book.m_appendices o)).
Proof.
  unfold Document.sections_block.
  apply (writes_for_each_object _ _ _ _ Section.generate (fun r _ => r +:+ nl)).
  - apply Section_generate_const.
  - apply Book_set_appendices_same.
  - intros r. apply writes_put.
Qed.

Lemma Book_generateDocument_const :
  Method.const_method Call.Book_generateDocument Book.generateDocument.
Proof.
  apply const_returns. eapply writes_ext.
  { unfold Call.Book_generateDocument.
    do 2 (eapply writes_andthen; [apply writes_put|]).
    eapply writes_andthen; [apply writes_abstract_statement|].
    do 3 (eapply writes_andthen; [eapply writes_when; apply writes_put|]).
    eapply writes_andthen.
    { eapply writes_for_index. intros i.
      eapply writes_andthen; [apply writes_put|].
      eapply writes_when. apply writes_chapters. }
    eapply writes_andthen; [apply writes_sections_loop, Book_set_base_same|].
    eapply writes_andthen; [apply writes_environments_loop, Book_set_base_same|].
    eapply writes_andthen; [apply writes_rawContent_loop|].
    eapply writes_andthen.
    { eapply writes_when. eapply writes_andthen; [apply writes_put|].
      apply writes_appendices. }
    read_body. }
  intros o. cbn beta.
  unfold Book.generateDocument, Book.front, Book.parts_block, Book.back.
  rewrite <- (map_seq_imap (Book.part_text (Book.m_partChapters o)) "").
  erewrite (map_ext _ (fun i => Book.part_text (Book.m_partChapters o) i
                                  (default "" (Book.m_parts o !! i)))).
  { rewrite !if_negb.
    destruct (Book.m_appendices o); cbn [Article.is_empty];
      by rewrite ?sapp_assoc. }
  intros i. unfold Book.part_text.
  destruct (Book.m_partChapters o !! i) as [chapters|]; cbn [default].
  - rewrite bool_decide_eq_true_2 by (by eexists). by rewrite !sapp_assoc.
  - rewrite bool_decide_eq_false_2 by (by intros [? ?]). by rewrite !sapp_assoc.
Qed.

Lemma Presentation_generatePreamble_const :
  Method.const_method Call.Presentation_generatePreamble
    Presentation.generatePreamble.
Proof.
  apply const_returns. eapply writes_ext.
  { unfold Call.Presentation_generatePreamble.
    eapply writes_andthen; [apply writes_put|].
    eapply writes_andthen; [apply writes_package_loop|].
    do 8 (eapply writes_andthen; [apply writes_put|]).
    eapply writes_andthen.
    { eapply writes_call; [|intros r; apply writes_put].
      apply (const_on_member Presentation.base Presentation.set_base _
               Document.getLanguageConfiguration).
      - apply Document_getLanguageConfiguration_const.
      - apply Presentation_set_base_same. }
    do 3 (eapply writes_andthen;
            [eapply writes_when; eapply writes_call;
               [apply const_result_of|intros r; apply writes_put]|]).
    read_body. }
  intros o. cbn beta. unfold Presentation.generatePreamble, opt_line.
  rewrite !if_negb, !sapp_assoc.
  unfold Presentation.getThemeName, Presentation.getColorThemeName,
    Presentation.getTransitionName.
  repeat (f_equal; []).
  f_equal; [by destruct (Presentation.m_theme o)|].
  f_equal; [by destruct (Presentation.m_colorTheme o)|].
  f_equal; by destruct (Presentation.m_transition o).
Qed.

Lemma writes_structure_round (structureItem : Section.Level * string * bool) :
  Method.writes
    (let '(level, title, createFrame) := structureItem in
     Method.andthen
       (Method.call (Call.Presentation_getLevelCommand level) (fun r =>
          Method.put (fun _ => r +:+ "{" +:+ title +:+ "}" +:+ nl +:+ nl)))
       (Method.when (fun _ : Presentation.t => createFrame)
          (Method.andthen (Method.put (fun _ => "\begin{frame}" +:+ nl))
             (Method.andthen (Method.put (fun _ => "\"))
                (Method.andthen
                   (Method.switch (fun _ => level) (fun level =>
                      match level with
                      | Section.SECTION => Method.put (fun _ => "sectionpage")
                      | Section.SUBSECTION =>
                          Method.put (fun _ => "subsectionpage")
                      | _ => Method.put (fun _ => "begin{center}\Large " +:+ title
                                                  +:+ "\end{center}")
                      end))
                   (Method.put (fun _ => nl +:+ "\end{frame}" +:+ nl +:+ nl)))))))
    (fun _ => Presentation.structure_text structureItem).
Proof.
  destruct structureItem as [[level title] createFrame].
  eapply writes_ext.
  { eapply writes_andthen;
      [eapply writes_call; [apply const_result_of|intros r; apply writes_put]|].
    eapply writes_when.
    do 2 (eapply writes_andthen; [apply writes_put|]).
    eapply writes_andthen; [|apply writes_put].
    eapply (writes_switch _ _
              (fun level _ =>
                 match level with
                 | Section.SECTION => "sectionpage"
                 | Section.SUBSECTION => "subsectionpage"
                 | _ => "begin{center}\Large " +:+ title +:+ "\end{center}"
                 end)).
    intros []; apply writes_put. }
  intros o. cbn beta. unfold Presentation.structure_text.
  destruct createFrame; by rewrite ?sapp_assoc.
Qed.

Lemma writes_slide_round (slide : string * list string) :
  Method.writes
    (Method.local (fun _ : Presentation.t => Presentation.needsFragile slide.2)
       (fun needsFragile =>
          Method.andthen
            (Method.if_else (fun _ => needsFragile)
               (Method.put (fun _ => "\begin{frame}[fragile]{" +:+ slide.1
                                     +:+ "}" +:+ nl))
               (Method.put (fun _ => "\begin{frame}{" +:+ slide.1 +:+ "}" +:+ nl)))
            (Method.andthen
               (Method.for_each (fun _ => slide.2) (fun content =>
                  Method.put (fun _ => content +:+ nl)))
               (Method.put (fun _ => "\end{frame}" +:+ nl +:+ nl)))))
    (fun _ => Presentation.slide_frame slide).
Proof. eapply writes_ext; [read_body|]. done. Qed.

Lemma Presentation_generateDocument_const :
  Method.const_method Call.Presentation_generateDocument
    Presentation.generateDocument.
Proof.
  apply const_returns. eapply writes_ext.
  { unfold Call.Presentation_generateDocument.
    eapply writes_andthen; [apply writes_put|].
    eapply writes_andthen; [read_body|].
    do 3 (eapply writes_andthen; [apply writes_put|]).
    eapply writes_andthen; [apply writes_rawContent_loop|].
    eapply writes_andthen;
      [eapply writes_for_each; intros item; apply writes_structure_round|].
    eapply writes_andthen;
      [eapply writes_for_each; intros slide; apply writes_slide_round|].
    eapply writes_andthen.
    { eapply (writes_for_each_object _ _ _ _ Section.generate).
      - apply Section_generate_const.
      - intros o. by rewrite Document_set_sections_same,
                     Presentation_set_base_same.
      - intros sectionContent. cbn zeta. read_body. }
    eapply writes_andthen.
    { eapply (writes_for_each_object _ _ _ _ Environment_generate).
      - apply Environment_generate_const.
      - intros o. by rewrite Document_set_environments_same,
                     Presentation_set_base_same.
      - intros envContent. read_body. }
    apply writes_put. }
  intros o. cbn beta. unfold Presentation.generateDocument, Presentation.slides_block.
  rewrite !if_negb, !sapp_assoc. repeat (f_equal; []).
  f_equal; [|f_equal].
  - f_equal. apply map_ext. intros section. unfold Presentation.section_frame.
    cbn zeta. by rewrite !sapp_assoc.
  - f_equal. apply map_ext. intros env. unfold Presentation.environment_frame.
    cbn zeta. by destruct (contains _ _); rewrite ?sapp_assoc.
Qed.

(** ** Generation is a function of the state *)

Lemma generatePreamble_const :
  Method.const_method Call.generatePreamble generatePreamble.
Proof.
  intros [d|d|d|d|d]; unfold Call.generatePreamble, generatePreamble.
  - by rewrite Document_generatePreamble_const.
  - by rewrite Article_generatePreamble_const.
  - by rewrite Report_generatePreamble_const.
  - by rewrite Book_generatePreamble_const.
  - by rewrite Presentation_generatePreamble_const.
Qed.

Lemma generateDocument_const :
  Method.const_method Call.generateDocument generateDocument.
Proof.
  intros [d|d|d|d|d]; unfold Call.generateDocument, generateDocument.
  - by rewrite Document_generateDocument_const.
  - by rewrite Article_generateDocument_const.
  - by rewrite Report_generateDocument_const.
  - by rewrite Book_generateDocument_const.
  - by rewrite Presentation_generateDocument_const.
Qed.

(** C2: a call of [generate()] on a document of any class, in any state,
    leaves the document as it was and returns the text of the preamble
    followed by the text of the body, whichever of the two is generated
    first; so a second call returns the same text and again leaves the
    document as it was.  The calls are the member functions with the object
    threaded through every statement, the calls on sections, environments
    and the bibliography included. *)
Theorem C2_generate_idempotent (doc : AnyDocument) :
  let first := Call.generate doc in
  let second := Call.generate first.2 in
  first.2 = doc
  ∧ second.2 = doc
  ∧ second.1 = first.1
  ∧ first.1 = (Call.generatePreamble doc).1 +:+ (Call.generateDocument doc).1
  ∧ first.1 = generatePreamble doc +:+ generateDocument doc
  ∧ Call.generate_body_first doc = first.
Proof.
  assert (∀ d, Call.generate d = (generatePreamble d +:+ generateDocument d, d))
    as Hgenerate.
  { intros d. unfold Call.generate.
    rewrite generatePreamble_const. cbn [fst snd].
    by rewrite generateDocument_const. }
  cbn zeta. rewrite !Hgenerate. cbn [fst snd]. rewrite ?Hgenerate. cbn [fst snd].
  repeat split.
  - by rewrite generatePreamble_const, generateDocument_const.
  - unfold Call.generate_body_first.
    rewrite generateDocument_const. cbn [fst snd].
    by rewrite generatePreamble_const.
Qed.

(** ** Article without a title *)





(** ** Book: parts and their chapters *)

Lemma to_int_small z : (- 2 ^ 31 ≤ z < 2 ^ 31)%Z → to_int z = z.
Proof. intros H. unfold to_int. rewrite Z.mod_small; lia. Qed.

Lemma addChapterToPart_no_part (b : Book.t) chapter :
  Book.m_parts b = [] → Book.addChapterToPart chapter b = b.
Proof.
  intros H. unfold Book.addChapterToPart. rewrite H. cbn [length].
  destruct (0 <=? Book.m_currentPart b)%Z eqn:H0; [|done].
  destruct (Book.m_currentPart b <? Z.of_nat 0)%Z eqn:H1; [|done].
  apply Z.leb_le in H0. apply Z.ltb_lt in H1. lia.
Qed.

Lemma addPart_addChapterToPart (b : Book.t) title chapter :
  (Z.of_nat (length (Book.m_parts b)) < 2 ^ 31)%Z →
  let key := length (Book.m_parts b) in
  Book.addChapterToPart chapter (Book.addPart title b)
  = Book.mk (Book.base b) (Book.m_abstract b) (Book.m_includeTableOfContents b)
      (Book.m_includeListOfFigures b) (Book.m_includeListOfTables b)
      (Book.m_includeIndex b) (Book.m_parts b ++ [title])
      (<[key := default [] (Book.m_partChapters b !! key) ++ [chapter]]>
         (Book.m_partChapters b))
      (Book.m_appendices b) (Z.of_nat key).
Proof.
  intros Hlen key. unfold Book.addChapterToPart, Book.addPart.
  cbn [Book.m_currentPart Book.m_parts Book.m_partChapters Book.base
       Book.m_abstract Book.m_includeTableOfContents Book.m_includeListOfFigures
       Book.m_includeListOfTables Book.m_includeIndex Book.m_appendices].
  rewrite length_app. cbn [length].
  replace (Z.of_nat (length (Book.m_parts b) + 1) - 1)%Z
    with (Z.of_nat (length (Book.m_parts b))) by lia.
  rewrite to_int_small by lia.
  replace (0 <=? Z.of_nat (length (Book.m_parts b)))%Z with true
    by (symmetry; apply Z.leb_le; lia).
  replace (Z.of_nat (length (Book.m_parts b))
           <? Z.of_nat (length (Book.m_parts b) + 1))%Z with true
    by (symmetry; apply Z.ltb_lt; lia).
  cbn [andb]. by rewrite Nat2Z.id.
Qed.

Lemma parts_block_two parts p1 p2 :
  str_concat (imap (Book.part_text parts) [p1; p2])
  = Book.part_text parts 0 p1 +:+ Book.part_text parts 1 p2.
Proof. unfold str_concat. cbn. by rewrite sapp_nil_r. Qed.

(** C7: without a part [addChapterToPart] changes nothing; after [addPart]
    it appends the chapter to the chapters of the part just added; a book
    that gets a part, a chapter and a second part writes both [\part] lines
    in order, the chapter after the first one and nothing after the second;
    a chapter attached before the first part is written nowhere. *)
Theorem C7_book_chapters (b : Book.t) (p1 p2 : string) (chapter : Section.t) :
  (Book.m_parts b = [] → Book.addChapterToPart chapter b = b)
  ∧ ((Z.of_nat (length (Book.m_parts b)) < 2 ^ 31)%Z →
     let b' := Book.addChapterToPart chapter (Book.addPart p1 b) in
     let key := length (Book.m_parts b) in
     Book.m_parts b' = Book.m_parts b ++ [p1]
     ∧ Book.m_parts b' !! key = Some p1
     ∧ Book.m_partChapters b'
       = <[key := default [] (Book.m_partChapters b !! key) ++ [chapter]]>
           (Book.m_partChapters b))
  ∧ (Book.m_parts b = [] → Book.m_partChapters b = ∅ →
     Book.generateDocument
       (Book.addPart p2 (Book.addChapterToPart chapter (Book.addPart p1 b)))
     = Book.front b
       +:+ ("\part{" +:+ p1 +:+ "}" +:+ nl +:+ nl
            +:+ Section.generate chapter +:+ nl
            +:+ "\part{" +:+ p2 +:+ "}" +:+ nl +:+ nl)
       +:+ Book.back b
     ∧ Book.generateDocument
         (Book.addPart p2 (Book.addPart p1 (Book.addChapterToPart chapter b)))
       = Book.front b
         +:+ ("\part{" +:+ p1 +:+ "}" +:+ nl +:+ nl
              +:+ "\part{" +:+ p2 +:+ "}" +:+ nl +:+ nl)
         +:+ Book.back b).
Proof.
  split; [apply addChapterToPart_no_part|]. split.
  - intros Hlen b' key. unfold b'. rewrite addPart_addChapterToPart by done.
    cbn [Book.m_parts Book.m_partChapters]. split; [done|]. split; [|done].
    rewrite lookup_app_r by done. by rewrite Nat.sub_diag.
  - intros Hparts Hchapters. split.
    + rewrite addPart_addChapterToPart by (rewrite Hparts; done).
      rewrite Hparts, Hchapters. cbn [length app].
      rewrite lookup_empty. cbn [default app].
      unfold Book.generateDocument. f_equal.
      match goal with |- ?parts +:+ ?back = _ =>
        change back with (Book.back b);
        change parts with
          (str_concat (imap (Book.part_text (<[0 := [chapter]]> ∅)) [p1; p2]))
      end.
      f_equal. rewrite parts_block_two. unfold Book.part_text.
      rewrite lookup_insert_eq, lookup_insert_ne, lookup_empty by done.
      unfold Document.sections_block, str_concat. cbn [map foldr].
      by rewrite !sapp_assoc, !sapp_nil_r.
    + rewrite addChapterToPart_no_part by done.
      unfold Book.generateDocument. f_equal.
      match goal with |- ?parts +:+ ?back = _ =>
        change back with (Book.back b);
        change parts with
          (str_concat
             (imap (Book.part_text (Book.m_partChapters b))
                ((Book.m_parts b ++ [p1]) ++ [p2])))
      end.
      f_equal. rewrite Hparts, Hchapters. cbn [app].
      rewrite parts_block_two. unfold Book.part_text.
      rewrite !lookup_empty.
      by rewrite !sapp_assoc, !sapp_nil_r.
Qed.

Lemma C7_book_chapters_witness :
  let b := Book.new "T" "A" "D" ENGLISH in
  let chapter := Section.new "C" Section.CHAPTER in
  Book.m_parts b = [] ∧ Book.m_partChapters b = ∅
  ∧ (Z.of_nat (length (Book.m_parts b)) < 2 ^ 31)%Z
  ∧ Book.addChapterToPart chapter b = b
  ∧ Book.m_partChapters (Book.addChapterToPart chapter (Book.addPart "P1" b))
    = <[0 := [chapter]]> ∅
  ∧ Book.generateDocument
      (Book.addPart "P2" (Book.addChapterToPart chapter (Book.addPart "P1" b)))
    = Book.front b
      +:+ ("\part{P1}" +:+ nl +:+ nl +:+ "\chapter{C}" +:+ nl +:+ nl
           +:+ "\part{P2}" +:+ nl +:+ nl)
      +:+ Book.back b.
Proof.
  intros b chapter.
  destruct (C7_book_chapters b "P1" "P2" chapter) as (Hnone & Hlast & Htwo).
  assert (Book.m_parts b = []) as Hparts by reflexivity.
  assert (Book.m_partChapters b = ∅) as Hchapters by reflexivity.
  assert (Z.of_nat (length (Book.m_parts b)) < 2 ^ 31)%Z as Hlen by (simpl; lia).
  repeat (split; [assumption|]).
  split; [exact (Hnone Hparts)|].
  split; [exact (proj2 (proj2 (Hlast Hlen)))|].
  exact (proj1 (Htwo Hparts Hchapters)).
Defined.

(** ** Presentation: fragile frames *)

Lemma needsFragile_occurs content :
  Presentation.needsFragile content = true
  ↔ ∃ line, line ∈ content ∧ occurs_in "\begin{lstlisting}" line.
Proof.
  induction content as [|line content IH]; cbn [Presentation.needsFragile].
  - split; [done|]. intros (line & Hin & _). by apply elem_of_nil in Hin.
  - destruct (contains "\begin{lstlisting}" line) eqn:Hc.
    + split; [intros _|done]. exists line. split; [left|].
      by apply contains_occurs_in.
    + rewrite IH. split.
      * intros (l & Hin & Hocc). exists l. split; [by right|done].
      * intros (l & Hin & Hocc). apply elem_of_cons in Hin as [->|Hin].
        -- apply contains_occurs_in in Hocc; [congruence|done].
        -- by exists l.
Qed.

(** C8: the frame of a slide is opened with the fragile option when one of
    its content lines has [\begin{lstlisting}] in it, and without any option
    otherwise; the frame is part of the body of the presentation the slide
    was added to. *)
Theorem C8_slide_fragile (p : Presentation.t) (title : string)
    (content : list string) :
  ((∃ line, line ∈ content ∧ occurs_in "\begin{lstlisting}" line) →
   Presentation.slide_frame (title, content)
   = "\begin{frame}[fragile]{" +:+ title +:+ "}" +:+ nl
     +:+ str_concat (map (fun line => line +:+ nl) content)
     +:+ "\end{frame}" +:+ nl +:+ nl)
  ∧ ((∀ line, line ∈ content → ¬ occurs_in "\begin{lstlisting}" line) →
     Presentation.slide_frame (title, content)
     = "\begin{frame}{" +:+ title +:+ "}" +:+ nl
       +:+ str_concat (map (fun line => line +:+ nl) content)
       +:+ "\end{frame}" +:+ nl +:+ nl)
  ∧ occurs_in (Presentation.slide_frame (title, content))
      (Presentation.generateDocument (Presentation.addSlide title content p)).
Proof.
  split; [|split].
  - intros H%needsFragile_occurs. unfold Presentation.slide_frame. cbn [fst snd].
    by rewrite H, !sapp_assoc.
  - intros H. unfold Presentation.slide_frame. cbn [fst snd].
    destruct (Presentation.needsFragile content) eqn:Hf.
    + apply needsFragile_occurs in Hf as (line & Hin & Hocc).
      by destruct (H line Hin).
    + by rewrite !sapp_assoc.
  - unfold Presentation.generateDocument.
    do 13 apply occurs_in_app_l. apply occurs_in_app_r.
    unfold Presentation.slides_block, Presentation.addSlide.
    cbn [Presentation.m_slides]. rewrite map_app, str_concat_app.
    apply occurs_in_app_l. unfold str_concat. cbn [map foldr].
    apply occurs_in_app_r, occurs_in_refl.
Qed.

Lemma C8_slide_fragile_witness :
  let p :=
    Presentation.new "T" "A" "D" ENGLISH Presentation.THEME_DEFAULT
      Presentation.COLOR_DEFAULT in
  (∃ line, line ∈ ["a"; "x \begin{lstlisting}[language=C]"]
           ∧ occurs_in "\begin{lstlisting}" line)
  ∧ (∀ line, line ∈ ["plain text"] → ¬ occurs_in "\begin{lstlisting}" line)
  ∧ Presentation.slide_frame ("S1", ["a"; "x \begin{lstlisting}[language=C]"])
    = "\begin{frame}[fragile]{S1}" +:+ nl +:+ "a" +:+ nl
      +:+ "x \begin{lstlisting}[language=C]" +:+ nl +:+ "\end{frame}" +:+ nl +:+ nl
  ∧ Presentation.slide_frame ("S2", ["plain text"])
    = "\begin{frame}{S2}" +:+ nl +:+ "plain text" +:+ nl
      +:+ "\end{frame}" +:+ nl +:+ nl.
Proof.
  intros p.
  assert (∃ line, line ∈ ["a"; "x \begin{lstlisting}[language=C]"]
                  ∧ occurs_in "\begin{lstlisting}" line) as H1.
  { exists "x \begin{lstlisting}[language=C]". split.
    - right. left.
    - by exists "x ", "[language=C]". }
  assert (∀ line, line ∈ ["plain text"] → ¬ occurs_in "\begin{lstlisting}" line)
    as H2.
  { intros line Hin Hocc. apply list_elem_of_singleton in Hin as ->.
    apply contains_occurs_in in Hocc; [|done]. vm_compute in Hocc. discriminate. }
  split; [exact H1|]. split; [exact H2|]. split.
  - exact (proj1 (C8_slide_fragile p "S1" _) H1).
  - exact (proj1 (proj2 (C8_slide_fragile p "S2" _)) H2).
Defined.

(** ** Packages *)

(** The package loop visits every entry of the map once. *)
Lemma map_items_Permutation (m : gmap string string) :
  map_items m ≡ₚ map_to_list m.
Proof. apply merge_sort_Permutation. Qed.

#[local] Instance key_le_trans : Transitive key_le.
Proof. intros p q r. unfold key_le. apply transitivity. Qed.

#[local] Instance key_le_total : Total key_le.
Proof. intros p q. unfold key_le. apply total, _. Qed.

(** It visits them in increasing key order. *)
Lemma map_items_sorted (m : gmap string string) :
  StronglySorted key_le (map_items m).
Proof. apply StronglySorted_merge_sort; apply _. Qed.

Lemma filter_none {A} (P : A → Prop) `{!∀ x, Decision (P x)} (l : list A) :
  Forall (fun x => ¬ P x) l → filter P l = [].
Proof.
  induction 1 as [|x l Hx _ IH]; [done|]. by rewrite filter_cons_False.
Qed.

(** A package that is in the map has exactly one entry in the loop. *)
Lemma map_items_filter_key (m : gmap string string) package options :
  m !! package = Some options →
  filter (fun entry : string * string => entry.1 = package) (map_items m)
  = [(package, options)].
Proof.
  intros Hlook. apply Permutation_singleton_r.
  rewrite map_items_Permutation.
  rewrite <- (insert_delete_id m package options Hlook) at 1.
  rewrite map_to_list_insert by apply lookup_delete_eq.
  rewrite filter_cons_True by done.
  apply Permutation_skip.
  assert (filter (fun entry : string * string => entry.1 = package)
            (map_to_list (delete package m)) = []) as ->; [|done].
  apply filter_none, Forall_forall.
  intros [k v] Hin Hk. simpl in Hk. subst k.
  apply elem_of_map_to_list in Hin. by rewrite lookup_delete_eq in Hin.
Qed.

Lemma base_of_addPackage package options doc :
  Document.m_packages (base_of (addPackage package options doc))
  = <[package := options]> (Document.m_packages (base_of doc)).
Proof. by destruct doc. Qed.

(** After a sequence of calls the map holds, for each package, the options
    of the last call for it, or what it held before. *)
Lemma addPackages_lookup calls doc package :
  Document.m_packages (base_of (addPackages calls doc)) !! package
  = match last_options package calls with
    | Some options => Some options
    | None => Document.m_packages (base_of doc) !! package
    end.
Proof.
  induction calls as [|[name options] calls IH] using rev_ind; [done|].
  unfold addPackages, last_options in *. rewrite !foldl_snoc. cbn [fst snd].
  rewrite base_of_addPackage. destruct (decide (name = package)) as [->|Hne].
  - by rewrite lookup_insert_eq.
  - by rewrite lookup_insert_ne.
Qed.

(** Every preamble starts with the class line, a blank line, the package
    loop and a blank line. *)
Lemma generatePreamble_packages doc :
  ∃ class rest,
    generatePreamble doc
    = "\documentclass{" +:+ class +:+ "}" +:+ nl +:+ nl
      +:+ str_concat (map usepackage_line
                        (map_items (Document.m_packages (base_of doc))))
      +:+ nl +:+ rest.
Proof.
  destruct doc as [d|d|d|d|d]; cbn [generatePreamble base_of].
  - by eexists _, _.
  - unfold Article.generatePreamble, Document.generatePreamble.
    rewrite !sapp_assoc. by eexists _, _.
  - by eexists _, _.
  - unfold Book.generatePreamble, Document.generatePreamble.
    rewrite !sapp_assoc. by eexists _, _.
  - unfold Presentation.generatePreamble. exists "beamer". eexists. reflexivity.
Qed.

(** C6 as stated fails: an article with a theorem environment to which the
    package [amsthm] is added has two [\usepackage{amsthm}] lines in its
    preamble, one from the package loop and one from the theorem setup. *)
Lemma C6_amsthm_line_twice :
  let article :=
    with_base (Document.addTheorem TheoremEnvironment.THEOREM "x" "")
      (DocArticle (Article.new "T" "A" "D" ENGLISH)) in
  usepackage_line_count "amsthm"
    (generatePreamble (addPackages [("amsthm", "")] article)) = 2
  ∧ usepackage_line_count "amsthm"
      (generatePreamble (addPackages [("amsthm", "")] article)) ≠ 1.
Proof. by vm_compute. Qed.

(** C6 (amended): after any sequence of [addPackage] calls with a call for
    [package] among them, the package loop of the preamble, which comes
    right after the class line, has exactly one entry for [package]; it
    carries the options of the last call for it, and its line is written. *)
Theorem C6_package_loop_one_entry (doc : AnyDocument)
    (calls : list (string * string)) (package options : string) :
  last_options package calls = Some options →
  let doc' := addPackages calls doc in
  package_entries package doc' = [(package, options)]
  ∧ usepackage_line (package, options)
    ∈ map usepackage_line (map_items (Document.m_packages (base_of doc')))
  ∧ ∃ class rest,
      generatePreamble doc'
      = "\documentclass{" +:+ class +:+ "}" +:+ nl +:+ nl
        +:+ str_concat (map usepackage_line
                          (map_items (Document.m_packages (base_of doc'))))
        +:+ nl +:+ rest.
Proof.
  intros Hlast doc'.
  assert (Document.m_packages (base_of doc') !! package = Some options) as Hlook.
  { unfold doc'. by rewrite addPackages_lookup, Hlast. }
  split; [by apply map_items_filter_key|].
  split; [|apply generatePreamble_packages].
  apply list_elem_of_In, in_map, list_elem_of_In.
  rewrite map_items_Permutation. by apply elem_of_map_to_list.
Qed.

Lemma C6_package_loop_one_entry_witness :
  let doc := DocReport (Report.new "T" "A" "D" ENGLISH) in
  let calls := [("geometry", "a4paper"); ("xcolor", ""); ("geometry", "margin=2cm")] in
  last_options "geometry" calls = Some "margin=2cm"
  ∧ package_entries "geometry" (addPackages calls doc) = [("geometry", "margin=2cm")].
Proof.
  intros doc calls.
  assert (last_options "geometry" calls = Some "margin=2cm") as H by reflexivity.
  split; [exact H|].
  exact (proj1 (C6_package_loop_one_entry doc calls "geometry" "margin=2cm" H)).
Defined.

(** * Further properties of the code *)

(** ** sanitizeMathContent: what the scan does *)

Lemma sanitize_loop_more_fuel fuel result pos inMathMode startMathPos out :
  sanitize_loop fuel result pos inMathMode startMathPos = Some out →
  sanitize_loop (S fuel) result pos inMathMode startMathPos = Some out.
Proof.
  revert result pos inMathMode startMathPos.
  induction fuel as [|fuel IH]; intros result pos inMathMode startMathPos; [done|].
  remember (S fuel) as fuel' eqn:Hf. cbn [sanitize_loop]. subst fuel'.
  cbn [sanitize_loop].
  destruct (pos <? String.length result); [|done].
  destruct (find_marker result pos) as [env|]; [|apply IH].
  destruct (negb inMathMode); [apply IH|].
  destruct (replace_each _ _); [apply IH|done].
Qed.

Lemma sanitize_loop_fuel_le fuel fuel' result pos inMathMode startMathPos out :
  fuel ≤ fuel' →
  sanitize_loop fuel result pos inMathMode startMathPos = Some out →
  sanitize_loop fuel' result pos inMathMode startMathPos = Some out.
Proof.
  induction 1 as [|fuel' _ IH]; [done|].
  intros H. by apply sanitize_loop_more_fuel, IH.
Qed.

(** What the loop reaches from the initial state is what the function
    returns. *)
Lemma sanitize_reaches_result content out :
  sanitize_reaches content 0 false 0 out → sanitizeMathContent content = out.
Proof.
  intros [fuel H]. pose proof (sanitizeMathContent_run content) as Hrun.
  unfold sanitize_run in Hrun.
  apply (sanitize_loop_fuel_le _ (fuel `max` S (String.length content))) in H;
    [|lia].
  apply (sanitize_loop_fuel_le _ (fuel `max` S (String.length content))) in Hrun;
    [|lia].
  congruence.
Qed.

Lemma reaches_end result pos inMathMode startMathPos :
  String.length result ≤ pos →
  sanitize_reaches result pos inMathMode startMathPos result.
Proof.
  intros H. exists 1. cbn [sanitize_loop].
  by replace (pos <? String.length result) with false
    by (symmetry; apply Nat.ltb_ge; lia).
Qed.

Lemma reaches_skip result pos inMathMode startMathPos out :
  pos < String.length result →
  find_marker result pos = None →
  sanitize_reaches result (S pos) inMathMode startMathPos out →
  sanitize_reaches result pos inMathMode startMathPos out.
Proof.
  intros Hpos Hnone [fuel H]. exists (S fuel). cbn [sanitize_loop].
  apply Nat.ltb_lt in Hpos. by rewrite Hpos, Hnone.
Qed.

Lemma reaches_skip_many k result pos inMathMode startMathPos out :
  pos + k ≤ String.length result →
  (∀ q, q < k → find_marker result (pos + q) = None) →
  sanitize_reaches result (pos + k) inMathMode startMathPos out →
  sanitize_reaches result pos inMathMode startMathPos out.
Proof.
  revert pos. induction k as [|k IH]; intros pos Hle Hnone H.
  - by rewrite Nat.add_0_r in H.
  - apply reaches_skip; [lia| |].
    + rewrite <- (Nat.add_0_r pos). apply Hnone. lia.
    + apply IH; [lia| |].
      * intros q Hq. replace (S pos + q) with (pos + S q) by lia.
        apply Hnone. lia.
      * by replace (S pos + k) with (pos + S k) by lia.
Qed.

Lemma reaches_open result pos startMathPos env out :
  pos < String.length result →
  find_marker result pos = Some env →
  sanitize_reaches result (pos + String.length env) true
    (pos + String.length env) out →
  sanitize_reaches result pos false startMathPos out.
Proof.
  intros Hpos Hm [fuel H]. exists (S fuel). cbn [sanitize_loop].
  apply Nat.ltb_lt in Hpos. by rewrite Hpos, Hm.
Qed.

Lemma reaches_close result pos startMathPos env mathContent' out :
  pos < String.length result →
  find_marker result pos = Some env →
  replace_each (map_items replacements)
    (substr result startMathPos (pos - startMathPos)) = Some mathContent' →
  sanitize_reaches
    (str_replace result startMathPos (pos - startMathPos) mathContent')
    (startMathPos + String.length mathContent' + String.length env)
    false startMathPos out →
  sanitize_reaches result pos true startMathPos out.
Proof.
  intros Hpos Hm Hrep [fuel H]. exists (S fuel). cbn [sanitize_loop].
  apply Nat.ltb_lt in Hpos. rewrite Hpos, Hm. cbn [negb]. by rewrite Hrep.
Qed.

(** *** Markers and plain text *)

Lemma compare_at_shift a s p env :
  compare_at (a +:+ s) (String.length a + p) env = compare_at s p env.
Proof. unfold compare_at, substr. by rewrite substring_app_r. Qed.

Lemma find_marker_shift a s p :
  find_marker (a +:+ s) (String.length a + p) = find_marker s p.
Proof.
  unfold find_marker. induction mathEnvs as [|env envs IH]; [done|].
  cbn [find]. by rewrite compare_at_shift, IH.
Qed.

Lemma get_plain s q c : plain s = true → String.get q s = Some c → plain_char c = true.
Proof.
  revert q. induction s as [|c' s IH]; intros q Hp Hg; [by destruct q|].
  cbn [plain] in Hp. apply andb_prop in Hp as [Hc Hs].
  destruct q as [|q]; simpl in Hg.
  - by simplify_eq.
  - by eapply IH.
Qed.

(** No marker is found where a plain character stands. *)
Lemma find_marker_plain s q c :
  String.get q s = Some c → plain_char c = true → find_marker s q = None.
Proof.
  intros Hg Hc. unfold find_marker.
  destruct (find (compare_at s q) mathEnvs) as [env|] eqn:Hf; [|done].
  exfalso. apply find_some in Hf as [Hin Hcmp].
  apply String.eqb_eq in Hcmp. unfold substr in Hcmp.
  assert (String.get 0 env = Some c) as H0.
  { rewrite <- Hcmp at 1. rewrite String.substring_correct1; [done|].
    unfold mathEnvs in Hin. simpl in Hin.
    repeat (destruct Hin as [<-|Hin]; [simpl; lia|]). done. }
  unfold mathEnvs in Hin. simpl in Hin.
  repeat (destruct Hin as [<-|Hin];
          [simpl in H0; simplify_eq; by vm_compute in Hc|]).
  done.
Qed.

Lemma find_marker_in_plain a t b q :
  plain t = true → q < String.length t →
  find_marker (a +:+ t +:+ b) (String.length a + q) = None.
Proof.
  intros Hp Hq. rewrite find_marker_shift.
  destruct (String.get q t) as [c|] eqn:Hg.
  - apply (find_marker_plain _ _ c); [|by eapply get_plain].
    by rewrite <- String.append_correct1.
  - exfalso. revert q Hq Hg. clear. induction t as [|c t IH]; intros [|q] Hq Hg;
      simpl in *; try done; try lia. eapply IH; [|done]. lia.
Qed.

Lemma compare_at_same env b : compare_at (env +:+ b) 0 env = true.
Proof. unfold compare_at, substr. rewrite substring_app_l. apply String.eqb_refl. Qed.

Lemma found_marker_length env : found_marker env → String.length env ≠ 0.
Proof.
  intros [Hin _]. unfold mathEnvs in Hin. simpl in Hin.
  repeat (destruct Hin as [<-|Hin]; [done|]). done.
Qed.

(** A marker other than [$$] is found where it stands. *)
Lemma find_marker_found env b :
  found_marker env → find_marker (env +:+ b) 0 = Some env.
Proof.
  intros [Hin Hne]. unfold mathEnvs in Hin. simpl in Hin.
  unfold find_marker, mathEnvs.
  repeat (destruct Hin as [<-|Hin];
          [try done;
           repeat (cbn [find];
                   first [ rewrite compare_at_same; reflexivity
                         | match goal with
                           | |- context [compare_at ?s 0 ?e] =>
                               replace (compare_at s 0 e) with false
                                 by (vm_compute; reflexivity)
                           end ])|]).
  done.
Qed.

Lemma find_marker_at a env b :
  found_marker env → find_marker (a +:+ env +:+ b) (String.length a) = Some env.
Proof.
  intros H. rewrite <- (Nat.add_0_r (String.length a)), find_marker_shift.
  by apply find_marker_found.
Qed.

Lemma substr_middle a body b :
  substr (a +:+ body +:+ b) (String.length a) (String.length body) = body.
Proof.
  unfold substr. rewrite <- (Nat.add_0_r (String.length a)), substring_app_r.
  apply substring_app_l.
Qed.

Lemma substr_from_app a b : substr_from (a +:+ b) (String.length a) = b.
Proof.
  unfold substr_from. rewrite slength_app.
  rewrite <- (Nat.add_0_r (String.length a)) at 1. rewrite substring_app_r.
  replace (String.length a + String.length b - String.length a)
    with (String.length b) by lia.
  apply substring_full.
Qed.

Lemma str_replace_middle a body b by_ :
  str_replace (a +:+ body +:+ b) (String.length a) (String.length body) by_
  = a +:+ by_ +:+ b.
Proof.
  unfold str_replace, substr. rewrite substring_app_l. do 2 f_equal.
  rewrite <- slength_app, <- sapp_assoc. apply substr_from_app.
Qed.

Lemma replaced_run mathContent :
  replace_each (map_items replacements) mathContent = Some (replaced mathContent).
Proof.
  unfold replaced.
  by destruct (replace_each_total (map_items replacements) mathContent
                 replacements_keys) as [x ->].
Qed.

(** One span: the scan passes the stretch before it, opens at the first
    marker, passes the content, closes at the second marker, replaces the
    content and goes on behind the closing marker. *)
Lemma reaches_span a sp rest startMathPos out :
  span_plain sp →
  sanitize_reaches
    (a +:+ span_before sp +:+ span_open sp +:+ replaced (span_content sp)
       +:+ span_close sp +:+ rest)
    (String.length
       (a +:+ span_before sp +:+ span_open sp +:+ replaced (span_content sp)
          +:+ span_close sp))
    false (String.length (a +:+ span_before sp +:+ span_open sp)) out →
  sanitize_reaches
    (a +:+ span_before sp +:+ span_open sp +:+ span_content sp
       +:+ span_close sp +:+ rest)
    (String.length a) false startMathPos out.
Proof.
  destruct sp as [before open content close].
  intros (Hbefore & Hopen & Hcontent & Hclose). cbn in *. intros H.
  pose proof (found_marker_length _ Hopen) as Hopen0.
  pose proof (found_marker_length _ Hclose) as Hclose0.
  set (result := a +:+ before +:+ open +:+ content +:+ close +:+ rest).
  assert (String.length result
          = String.length a + String.length before + String.length open
            + String.length content + String.length close + String.length rest)
    as Hlen by (unfold result; rewrite !slength_app; lia).
  apply (reaches_skip_many (String.length before)); [lia| |].
  { intros q Hq. by apply find_marker_in_plain. }
  apply (reaches_open _ _ _ open); [lia| |].
  { unfold result. rewrite <- slength_app, <- sapp_assoc.
    by apply find_marker_at. }
  assert (result
          = (a +:+ before +:+ open) +:+ content +:+ close +:+ rest) as Hres
    by (unfold result; by rewrite !sapp_assoc).
  assert (String.length a + String.length before + String.length open
          = String.length (a +:+ before +:+ open)) as Hstart
    by (rewrite !slength_app; lia).
  apply (reaches_skip_many (String.length content)); [lia| |].
  { intros q Hq. rewrite Hres, Hstart. by apply find_marker_in_plain. }
  apply (reaches_close _ _ _ close (replaced content)); [lia| | |].
  - rewrite Hres, Hstart, <- slength_app, <- (sapp_assoc _ content).
    by apply find_marker_at.
  - rewrite Hstart, Nat.add_comm, Nat.add_sub, Hres, substr_middle.
    apply replaced_run.
  - rewrite Hstart, Nat.add_comm, Nat.add_sub, Hres, str_replace_middle.
    rewrite !sapp_assoc. rewrite !slength_app in *.
    by rewrite !Nat.add_assoc in *.
Qed.

(** A plain stretch at the end of the text is passed without change. *)
Lemma reaches_plain_end a last inMathMode startMathPos :
  plain last = true →
  sanitize_reaches (a +:+ last) (String.length a) inMathMode startMathPos
    (a +:+ last).
Proof.
  intros Hp. apply (reaches_skip_many (String.length last)).
  - by rewrite slength_app.
  - intros q Hq. rewrite <- (sapp_nil_r last). by apply find_marker_in_plain.
  - apply reaches_end. by rewrite slength_app.
Qed.

(** A sequence of spans before a text that the scan leaves as it is. *)
Lemma reaches_spans spans last :
  Forall span_plain spans →
  (∀ a startMathPos,
     sanitize_reaches (a +:+ last) (String.length a) false startMathPos
       (a +:+ last)) →
  ∀ a startMathPos,
    sanitize_reaches (a +:+ spans_text spans last) (String.length a) false
      startMathPos (a +:+ spans_replaced spans last).
Proof.
  intros Hspans Hlast. induction Hspans as [|sp spans Hsp _ IH];
    intros a startMathPos; [apply Hlast|].
  cbn [spans_text spans_replaced foldr].
  fold (spans_text spans last). fold (spans_replaced spans last).
  apply reaches_span; [done|].
  specialize (IH (a +:+ span_before sp +:+ span_open sp
                  +:+ replaced (span_content sp) +:+ span_close sp)
                 (String.length (a +:+ span_before sp +:+ span_open sp))).
  by rewrite !sapp_assoc in IH.
Qed.

(** X1.  What [sanitizeMathContent] does to a text made of math spans: when
    the text is a sequence of spans (plain text, an opening marker other
    than the double dollar, plain content, a closing marker) followed by
    plain text, the function returns, and the result is the same text with
    the content of every span passed through the replacement table; the
    text outside the spans and the markers are kept.  Plain means without
    dollar sign and backslash. *)
Theorem sanitize_spans (spans : list span) (last : string) :
  Forall span_plain spans → plain last = true →
  sanitizeMathContent (spans_text spans last) = spans_replaced spans last.
Proof.
  intros Hspans Hlast. apply sanitize_reaches_result.
  apply (reaches_spans spans last Hspans
           (fun a s => reaches_plain_end a last false s Hlast) "" 0).
Qed.

Lemma sanitize_spans_witness :
  let spans :=
    [ mk_span "Soit " "$" "é = x" "$";
      mk_span " et " "\begin{equation}" "Qualité + Temps" "\end{equation}" ] in
  Forall span_plain spans ∧ plain " fin é" = true
  ∧ sanitizeMathContent
      "Soit $é = x$ et \begin{equation}Qualité + Temps\end{equation} fin é"
    = "Soit $\text{é} = x$ et \begin{equation}\text{Qualit\text{é}} + \text{Temps}\end{equation} fin é".
Proof.
  intros spans.
  assert (Forall span_plain spans) as H1.
  { repeat constructor; try (vm_compute; tauto); vm_compute; intros [=]. }
  assert (plain " fin é" = true) as H2 by reflexivity.
  split; [exact H1|]. split; [exact H2|].
  exact (sanitize_spans spans " fin é" H1 H2).
Defined.



(** X3.  Display math between double dollar signs is not processed: the
    single dollar is tried first, so each [$$] opens and closes an empty
    span, and the text between the two pairs is outside math mode.  The
    text is returned unchanged, also when its content holds a letter of the
    replacement table. *)
Theorem sanitize_double_dollar (before content rest : string) :
  plain before = true → plain content = true → plain rest = true →
  sanitizeMathContent (before +:+ "$$" +:+ content +:+ "$$" +:+ rest)
  = before +:+ "$$" +:+ content +:+ "$$" +:+ rest.
Proof.
  intros Hbefore Hcontent Hrest.
  assert (found_marker "$") as Hd by (split; [vm_compute; tauto|intros [=]]).
  set (spans := [mk_span before "$" "" "$"; mk_span content "$" "" "$"]).
  assert (Forall span_plain spans) as Hspans by (by repeat constructor).
  change (before +:+ "$$" +:+ content +:+ "$$" +:+ rest)
    with (spans_text spans rest) at 1.
  transitivity (spans_replaced spans rest); [|reflexivity].
  apply sanitize_reaches_result.
  apply (reaches_spans spans rest Hspans
           (fun a s => reaches_plain_end a rest false s Hrest) "" 0).
Qed.

Lemma sanitize_double_dollar_witness :
  plain "Donc " = true ∧ plain "é + Temps" = true ∧ plain "." = true
  ∧ sanitizeMathContent "Donc $$é + Temps$$." = "Donc $$é + Temps$$.".
Proof.
  assert (plain "Donc " = true) as H1 by reflexivity.
  assert (plain "é + Temps" = true) as H2 by reflexivity.
  assert (plain "." = true) as H3 by reflexivity.
  repeat (split; [assumption|]).
  exact (sanitize_double_dollar "Donc " "é + Temps" "." H1 H2 H3).
Defined.

(** *** The replacement loops *)

Lemma replace_loop_absent fuel key value mathContent :
  contains key mathContent = false →
  replace_loop (S fuel) key value mathContent 0 = Some mathContent.
Proof.
  unfold contains. cbn [replace_loop].
  by destruct (str_find key mathContent 0).
Qed.

(** X4.  The replacement loops leave math content unchanged when none of the
    keys of the table occurs in it. *)
Theorem replaced_without_keys (mathContent : string) :
  (∀ key, is_Some (replacements !! key) → ¬ occurs_in key mathContent) →
  replaced mathContent = mathContent.
Proof.
  intros Hkeys. unfold replaced.
  assert (Forall (fun rep : string * string => contains rep.1 mathContent = false)
            (map_items replacements)) as Hall.
  { pose proof replacements_keys as Hne. rewrite Forall_forall in Hne |- *.
    intros [key value] Hin. cbn [fst].
    destruct (contains key mathContent) eqn:Hc; [|done].
    exfalso. apply contains_occurs_in in Hc; [|by apply (Hne _ Hin)].
    apply (Hkeys key); [|done]. exists value.
    apply elem_of_map_to_list. unfold map_items in Hin.
    by rewrite merge_sort_Permutation in Hin. }
  induction Hall as [|[key value] reps Hrep _ IH]; [done|].
  cbn [replace_each fst] in *. by rewrite replace_loop_absent.
Qed.

Lemma replaced_without_keys_witness :
  (∀ key, is_Some (replacements !! key) → ¬ occurs_in key "E = mc^2")
  ∧ replaced "E = mc^2" = "E = mc^2".
Proof.
  assert (∀ key, is_Some (replacements !! key) → ¬ occurs_in key "E = mc^2")
    as H.
  { intros key [value Hv] Hocc.
    assert (key ≠ "") as Hne by (intros ->; vm_compute in Hv; discriminate).
    apply contains_occurs_in in Hocc; [|done].
    apply elem_of_map_to_list, list_elem_of_In in Hv.
    vm_compute in Hv.
    repeat (destruct Hv as [[= <- <-]|Hv]; [vm_compute in Hocc; discriminate|]).
    done. }
  split; [exact H|]. exact (replaced_without_keys "E = mc^2" H).
Defined.

(** ** Containers: what adding an element does to the text *)

Lemma str_concat_snoc (l : list string) x : str_concat (l ++ [x]) = str_concat l +:+ x.
Proof. rewrite str_concat_app. unfold str_concat at 2. cbn. by rewrite sapp_nil_r. Qed.

(** X5.  [Section::addContent] followed by [Section::generate]: the text of
    the section grows at its end by the new content and a newline. *)
Theorem Section_addContent_generate (section : Section.t) (content : string) :
  Section.generate (Section.addContent content section)
  = Section.generate section +:+ content +:+ nl.
Proof.
  unfold Section.generate, Section.addContent.
  cbn [Section.m_level Section.m_title Section.m_content].
  rewrite map_app. cbn [map]. rewrite str_concat_snoc.
  by rewrite !sapp_assoc.
Qed.

(** X6.  [Table::addRow] followed by [Table::generate]: the line of the new
    row is inserted just before [\end{tabular}], and the rest of the text is
    the same. *)
Theorem Table_addRow_generate (t : Table.t) (row : list string) :
  ∃ pre,
    let post :=
      "\end{tabular}" +:+ nl +:+ opt_line "\caption" (Table.m_caption t)
      +:+ opt_line "\label" (Table.m_label t) +:+ "\end{table}" +:+ nl in
    Table.generate t = pre +:+ post
    ∧ Table.generate (Table.addRow row t)
      = pre +:+ Table.row_line (length (Table.m_headers t)) row +:+ post.
Proof.
  exists ("\begin{table}" +:+ position_option (Table.m_options t)
          +:+ nl +:+ "\centering" +:+ nl
          +:+ "\begin{tabular}{"
          +:+ Table.column_spec (length (Table.m_headers t)) +:+ "}" +:+ nl
          +:+ "\hline" +:+ nl
          +:+ Table.row_line (length (Table.m_headers t)) (Table.m_headers t)
          +:+ str_concat (map (Table.row_line (length (Table.m_headers t)))
                            (Table.m_rows t))).
  cbn zeta. unfold Table.generate, Table.addRow.
  cbn [Table.m_headers Table.m_rows Table.m_caption Table.m_label Table.m_options].
  rewrite map_app. cbn [map]. rewrite str_concat_snoc.
  by rewrite !sapp_assoc.
Qed.

(** X7.  [List::addItem] followed by [List::generate], for a list that has
    no label stored under the index of the new item: the [\item] line of the
    new item is inserted just before the end of the environment; the label
    is written in brackets by a description list only, and only if it is
    not empty. *)
Theorem List_addItem_generate (l : List.t) (item label : string) :
  List.m_itemLabels l !! length (List.m_items l) = None →
  ∃ pre,
    List.generate l = pre +:+ List.end_ l
    ∧ List.generate (List.addItem item label l)
      = pre +:+ "\item "
        +:+ match List.m_type l with
            | List.DESCRIPTION =>
                if String.eqb label "" then "" else "[" +:+ label +:+ "] "
            | _ => ""
            end
        +:+ item +:+ nl +:+ List.end_ l.
Proof.
  intros Hfresh.
  exists (List.begin_ l +:+ str_concat (imap (List.item_line l) (List.m_items l))).
  split; [unfold List.generate; by rewrite !sapp_assoc|].
  unfold List.generate, List.begin_, List.end_.
  set (l' := List.addItem item label l).
  assert (List.m_name l' = List.m_name l) as -> by reflexivity.
  assert (List.m_items l' = List.m_items l ++ [item]) as -> by reflexivity.
  rewrite imap_app. cbn [imap]. rewrite str_concat_snoc.
  assert (imap (List.item_line l') (List.m_items l)
          = imap (List.item_line l) (List.m_items l)) as ->.
  { apply imap_ext. intros i x Hi. apply lookup_lt_Some in Hi.
    unfold List.item_line, l', List.addItem.
    cbn [List.m_type List.m_itemLabels].
    destruct (String.eqb label ""); [done|].
    by rewrite lookup_insert_ne by lia. }
  rewrite !sapp_assoc. do 2 f_equal.
  unfold List.item_line, l', List.addItem. cbn [List.m_type List.m_itemLabels].
  rewrite Nat.add_0_r.
  destruct (List.m_type l); try by rewrite !sapp_assoc.
  destruct (String.eqb label "").
  - by rewrite Hfresh, !sapp_assoc.
  - by rewrite lookup_insert_eq, !sapp_assoc.
Qed.

Lemma List_addItem_generate_witness :
  let l := List.addItem "first" "A" (List.new List.DESCRIPTION) in
  List.m_itemLabels l !! length (List.m_items l) = None
  ∧ ∃ pre,
      List.generate l = pre +:+ List.end_ l
      ∧ List.generate (List.addItem "second" "B" l)
        = pre +:+ "\item " +:+ "[B] " +:+ "second" +:+ nl +:+ List.end_ l.
Proof.
  intros l.
  assert (List.m_itemLabels l !! length (List.m_items l) = None) as H
    by reflexivity.
  split; [exact H|].
  exact (List_addItem_generate l "second" "B" H).
Defined.

(** X8.  The labels of a list that is not a description list have no effect
    on its text. *)
Theorem List_labels_ignored (name : string) (type : List.ListType)
    (items : list string) (labels : gmap nat string) :
  type ≠ List.DESCRIPTION →
  List.generate (List.mk name type items labels)
  = List.generate (List.mk name type items ∅).
Proof.
  intros Htype. unfold List.generate, List.begin_, List.end_. cbn [List.m_name List.m_items].
  do 3 f_equal. apply imap_ext. intros i x _.
  unfold List.item_line. cbn [List.m_type List.m_itemLabels].
  by destruct type.
Qed.

Lemma List_labels_ignored_witness :
  List.ITEMIZE ≠ List.DESCRIPTION
  ∧ List.generate (List.mk "itemize" List.ITEMIZE ["a"; "b"] {[ 0 := "x" ]})
    = List.generate (List.mk "itemize" List.ITEMIZE ["a"; "b"] ∅).
Proof.
  assert (List.ITEMIZE ≠ List.DESCRIPTION) as H by discriminate.
  split; [exact H|].
  exact (List_labels_ignored "itemize" List.ITEMIZE ["a"; "b"] {[ 0 := "x" ]} H).
Defined.

(** The indentation of a pseudocode line: four spaces per level. *)
Lemma indentation_length n :
  String.length (str_concat (replicate n "    ")) = 4 * n.
Proof.
  induction n as [|n IH]; [done|].
  cbn [replicate]. unfold str_concat in *. cbn [foldr].
  rewrite slength_app, IH. simpl. lia.
Qed.

(** X9.  [Algorithm::addLine] followed by [Algorithm::generate]: the new
    line is inserted just before [\end{algorithmic}], after four spaces per
    indentation level; a level that is zero or negative gives no
    indentation. *)
Theorem Algorithm_addLine_generate (a : Algorithm.t) (line : string) (indent : Z) :
  ∃ pre,
    let post := "\end{algorithmic}" +:+ nl +:+ "\end{algorithm}" +:+ nl in
    let indentation := str_concat (replicate (Z.to_nat indent) "    ") in
    Algorithm.generate a = pre +:+ post
    ∧ Algorithm.generate (Algorithm.addLine line indent a)
      = pre +:+ indentation +:+ line +:+ nl +:+ post
    ∧ String.length indentation = 4 * Z.to_nat indent
    ∧ ((indent ≤ 0)%Z →
       Algorithm.generate (Algorithm.addLine line indent a)
       = pre +:+ line +:+ nl +:+ post).
Proof.
  exists ("\begin{algorithm}" +:+ nl
          +:+ opt_line "\caption" (Algorithm.m_caption a)
          +:+ opt_line "\label" (Algorithm.m_label a)
          +:+ "\begin{algorithmic}[1]" +:+ nl
          +:+ str_concat (map Algorithm.line_text (Algorithm.m_lines a))).
  cbn zeta.
  assert (Algorithm.generate (Algorithm.addLine line indent a)
          = ("\begin{algorithm}" +:+ nl
             +:+ opt_line "\caption" (Algorithm.m_caption a)
             +:+ opt_line "\label" (Algorithm.m_label a)
             +:+ "\begin{algorithmic}[1]" +:+ nl
             +:+ str_concat (map Algorithm.line_text (Algorithm.m_lines a)))
            +:+ str_concat (replicate (Z.to_nat indent) "    ")
            +:+ line +:+ nl
            +:+ "\end{algorithmic}" +:+ nl +:+ "\end{algorithm}" +:+ nl) as Hadd.
  { unfold Algorithm.generate, Algorithm.addLine.
    cbn [Algorithm.m_caption Algorithm.m_label Algorithm.m_lines].
    rewrite map_app. cbn [map]. rewrite str_concat_snoc.
    unfold Algorithm.line_text at 2. cbn [fst snd].
    by rewrite !sapp_assoc. }
  split; [|split; [|split]].
  - unfold Algorithm.generate. by rewrite !sapp_assoc.
  - exact Hadd.
  - apply indentation_length.
  - intros Hle. rewrite Hadd. by replace (Z.to_nat indent) with 0 by lia.
Qed.

Lemma Algorithm_addLine_generate_witness :
  let a := Algorithm.addLine "\State y" 1 (Algorithm.new "") in
  let post := "\end{algorithmic}" +:+ nl +:+ "\end{algorithm}" +:+ nl in
  (-1 ≤ 0)%Z
  ∧ ∃ pre,
      Algorithm.generate a = pre +:+ post
      ∧ Algorithm.generate (Algorithm.addLine "x" (-1) a)
        = pre +:+ "x" +:+ nl +:+ post.
Proof.
  intros a post.
  assert (-1 ≤ 0)%Z as H by lia.
  split; [exact H|].
  destruct (Algorithm_addLine_generate a "x" (-1)) as (pre & Ha & _ & _ & Hzero).
  exists pre. split; [exact Ha|exact (Hzero H)].
Defined.

(** ** Bibliography entries *)

Lemma fields_text_concat (fields : list (string * string)) :
  BibEntry.fields_text fields
  = String.concat ("," +:+ nl) (map bib_field_line fields)
    +:+ match fields with [] => "" | _ => nl end.
Proof.
  induction fields as [|field fields IH]; [done|].
  cbn [BibEntry.fields_text map]. rewrite IH. unfold bib_field_line at 2.
  destruct fields as [|field' fields].
  - cbn. by rewrite !sapp_assoc, !sapp_nil_r.
  - cbn [map String.concat]. by rewrite !sapp_assoc.
Qed.

(** X10.  The text of a bibliography entry: the header line with type and
    key, the fields in increasing order of their names, each as
    [name = {value}], separated by a comma and a newline with no comma after
    the last one, then the closing brace. *)
Theorem BibEntry_generate_fields (entry : BibEntry.t) :
  let fields := map_items (BibEntry.m_fields entry) in
  BibEntry.generate entry
  = "@" +:+ BibEntry.getTypeString (BibEntry.m_type entry) +:+ "{"
    +:+ BibEntry.m_key entry +:+ "," +:+ nl
    +:+ String.concat ("," +:+ nl) (map bib_field_line fields)
    +:+ (match fields with [] => "" | _ => nl end)
    +:+ "}" +:+ nl
  ∧ fields ≡ₚ map_to_list (BibEntry.m_fields entry)
  ∧ StronglySorted key_le fields.
Proof.
  intros fields. split; [|split].
  - unfold BibEntry.generate. fold fields. rewrite fields_text_concat.
    by rewrite !sapp_assoc.
  - apply map_items_Permutation.
  - apply map_items_sorted.
Qed.

(** X11.  [BibEntry::addField] replaces: after the call the entry has exactly
    one field of that name, with the new value, and its line is in the
    generated text. *)
Theorem BibEntry_addField_last_wins (entry : BibEntry.t) (field value : string) :
  filter (fun f : string * string => f.1 = field)
    (map_items (BibEntry.m_fields (BibEntry.addField field value entry)))
  = [(field, value)]
  ∧ occurs_in (bib_field_line (field, value))
      (BibEntry.generate (BibEntry.addField field value entry)).
Proof.
  assert (BibEntry.m_fields (BibEntry.addField field value entry) !! field
          = Some value) as Hlook by apply lookup_insert_eq.
  split; [by apply map_items_filter_key|].
  assert ((field, value)
          ∈ map_items (BibEntry.m_fields (BibEntry.addField field value entry)))
    as Hin.
  { rewrite map_items_Permutation. by apply elem_of_map_to_list. }
  unfold BibEntry.generate. do 6 apply occurs_in_app_l. apply occurs_in_app_r.
  revert Hin. generalize (map_items (BibEntry.m_fields
                                       (BibEntry.addField field value entry))).
  intros fields Hin. induction fields as [|f fields IH]; [by apply elem_of_nil in Hin|].
  cbn [BibEntry.fields_text]. apply elem_of_cons in Hin as [<-|Hin].
  - unfold bib_field_line. cbn [fst snd].
    exists "", ((match fields with [] => "" | _ => "," end)
                +:+ nl +:+ BibEntry.fields_text fields).
    by rewrite !sapp_assoc.
  - do 7 apply occurs_in_app_l. by apply IH.
Qed.

(** ** Bibliography styles *)

(** X12.  The custom bibliography style is forgotten by [setStyle]: after
    [setCustomStyle] the style name is the custom one, and it stays so under
    [setStyle(CUSTOM)]; but a [setStyle] with another style in between
    erases it, and a later [setStyle(CUSTOM)] gives the empty style name,
    hence an empty [\bibliographystyle{}] command. *)
Theorem Bibliography_custom_style_forgotten (b : Bibliography.t)
    (customStyle : string) (style : BibStyle) :
  style ≠ CUSTOM →
  Bibliography.getStyleName (Bibliography.setCustomStyle customStyle b)
  = customStyle
  ∧ Bibliography.getStyleName
      (Bibliography.setStyle CUSTOM (Bibliography.setCustomStyle customStyle b))
    = customStyle
  ∧ Bibliography.getStyleName
      (Bibliography.setStyle CUSTOM
         (Bibliography.setStyle style
            (Bibliography.setCustomStyle customStyle b))) = ""
  ∧ Bibliography.getIncludeCommands
      (Bibliography.setStyle CUSTOM
         (Bibliography.setStyle style
            (Bibliography.setCustomStyle customStyle b)))
    = nl +:+ "\bibliographystyle{}" +:+ nl
      +:+ "\bibliography{" +:+ Bibliography.m_bibFile b +:+ "}" +:+ nl.
Proof.
  intros Hstyle. repeat split; by destruct style.
Qed.

Lemma Bibliography_custom_style_forgotten_witness :
  IEEE ≠ CUSTOM
  ∧ Bibliography.getStyleName
      (Bibliography.setStyle CUSTOM
         (Bibliography.setStyle IEEE
            (Bibliography.setCustomStyle "mystyle" Bibliography.new))) = "".
Proof.
  assert (IEEE ≠ CUSTOM) as H by discriminate.
  split; [exact H|].
  exact (proj1 (proj2 (proj2 (Bibliography_custom_style_forgotten
                                Bibliography.new "mystyle" IEEE H)))).
Defined.

(** ** The skeleton of a document *)

Lemma generateDocument_skeleton doc :
  ∃ body,
    generateDocument doc
    = "\begin{document}" +:+ nl +:+ nl +:+ body +:+ "\end{document}" +:+ nl.
Proof.
  destruct doc as [d|d|d|d|d]; cbn [generateDocument].
  - unfold Document.generateDocument.
    match goal with |- ∃ _, _ +:+ _ +:+ _ +:+ ?rest = _ =>
      assert (ends_with ("\end{document}" +:+ nl) rest) as [body Hb] by peel_end;
      exists body; by rewrite Hb end.
  - unfold Article.generateDocument, Article.after_title_block.
    match goal with |- ∃ _, _ +:+ _ +:+ _ +:+ ?rest = _ =>
      assert (ends_with ("\end{document}" +:+ nl) rest) as [body Hb] by peel_end;
      exists body; by rewrite Hb end.
  - unfold Report.generateDocument.
    match goal with |- ∃ _, _ +:+ _ +:+ _ +:+ ?rest = _ =>
      assert (ends_with ("\end{document}" +:+ nl) rest) as [body Hb] by peel_end;
      exists body; by rewrite Hb end.
  - unfold Book.generateDocument, Book.front, Book.back. rewrite !sapp_assoc.
    match goal with |- ∃ _, _ +:+ _ +:+ _ +:+ ?rest = _ =>
      assert (ends_with ("\end{document}" +:+ nl) rest) as [body Hb] by peel_end;
      exists body; by rewrite Hb end.
  - unfold Presentation.generateDocument.
    match goal with |- ∃ _, _ +:+ _ +:+ _ +:+ ?rest = _ =>
      assert (ends_with ("\end{document}" +:+ nl) rest) as [body Hb] by peel_end;
      exists body; by rewrite Hb end.
Qed.

(** X13.  The skeleton of every generated document, whatever its class: the
    [\documentclass] line, a blank line, the package lines of the package
    map, a blank line, the rest of the preamble, then the body between
    [\begin{document}] and [\end{document}], which ends the text. *)
Theorem generate_skeleton (doc : AnyDocument) :
  ∃ class preamble body,
    generate doc
    = "\documentclass{" +:+ class +:+ "}" +:+ nl +:+ nl
      +:+ package_block (Document.m_packages (base_of doc)) +:+ nl
      +:+ preamble
      +:+ "\begin{document}" +:+ nl +:+ nl
      +:+ body
      +:+ "\end{document}" +:+ nl.
Proof.
  destruct (generatePreamble_packages doc) as (class & rest & Hp).
  destruct (generateDocument_skeleton doc) as (body & Hd).
  exists class, rest, body. unfold generate. rewrite Hp, Hd.
  unfold package_block. by rewrite !sapp_assoc.
Qed.

(** ** Citations *)

Lemma cite_base key doc :
  base_of (cite key doc).1
  = Document.set_usedCitations
      ({[ key ]} ∪ Document.m_usedCitations (base_of doc)) (base_of doc).
Proof. by destruct doc. Qed.

(** X14.  [cite] returns the [\cite] command, and one call is enough to make
    a plain document or an article end with the bibliography commands just
    before [\end{document}]; the body of a report, a book or a presentation
    is not changed by it. *)
Theorem cite_bibliography (doc : AnyDocument) (key : string) :
  let doc' := (cite key doc).1 in
  (cite key doc).2 = "\cite{" +:+ key +:+ "}"
  ∧ if emits_bibliography doc
    then ends_with
           (Bibliography.getIncludeCommands
              (Document.m_bibliography (base_of doc))
            +:+ nl +:+ "\end{document}" +:+ nl)
           (generateDocument doc')
    else generateDocument doc' = generateDocument doc.
Proof.
  intros doc'. split; [done|].
  destruct doc as [d|d|d|d|d]; cbn [emits_bibliography]; try reflexivity.
  - apply (Document_body_with_citations (Document.cite key d).1),
      cite_citationsUsed.
  - apply (Article_body_with_citations
             (Article.set_base (Document.cite key (Article.base d)).1 d)),
      cite_citationsUsed.
Qed.

(** X15.  As long as nothing has been cited, setting a bibliography does not
    change the generated text of a document of any class. *)
Theorem generate_without_citations (doc : AnyDocument)
    (bibliography : Bibliography.t) :
  Document.m_usedCitations (base_of doc) = ∅ →
  generate (setBibliography bibliography doc) = generate doc.
Proof.
  intros Hused.
  assert (Document.citationsUsed (base_of doc) = false) as Hc.
  { unfold Document.citationsUsed. by rewrite Hused, bool_decide_eq_true_2. }
  destruct doc as [d|d|d|d|d]; cbn [base_of] in Hc; unfold generate;
    cbn [setBibliography with_base generatePreamble generateDocument];
    try reflexivity.
  - f_equal; try reflexivity. by apply Document_body_without_citations.
  - f_equal; try reflexivity.
    unfold Article.generateDocument, Article.after_title_block,
      Document.bibliography_block. cbn [Article.base Article.set_base].
    change (Document.citationsUsed
              (Document.setBibliography bibliography (Article.base d)))
      with (Document.citationsUsed (Article.base d)). by rewrite Hc.
Qed.

Lemma generate_without_citations_witness :
  let doc := DocArticle (Article.new "T" "A" "D" FRENCH) in
  Document.m_usedCitations (base_of doc) = ∅
  ∧ generate (setBibliography (Bibliography.new_file "refs" IEEE) doc)
    = generate doc.
Proof.
  intros doc.
  assert (Document.m_usedCitations (base_of doc) = ∅) as H by reflexivity.
  split; [exact H|].
  exact (generate_without_citations doc (Bibliography.new_file "refs" IEEE) H).
Defined.

Lemma Document_cite_twice (d : Document.t) key :
  (Document.cite key (Document.cite key d).1).1 = (Document.cite key d).1.
Proof.
  unfold Document.cite, Document.set_usedCitations. cbn. f_equal.
  by rewrite (assoc_L (∪)), (idemp_L (∪)).
Qed.

Lemma Document_cite_commute (d : Document.t) key key' :
  (Document.cite key (Document.cite key' d).1).1
  = (Document.cite key' (Document.cite key d).1).1.
Proof.
  unfold Document.cite, Document.set_usedCitations. cbn. f_equal.
  by rewrite !(assoc_L (∪)), (comm_L (∪) {[ key ]}).
Qed.

(** X16.  The citation keys are a set: citing the same key twice is citing
    it once, and the order of two citations does not matter for the state of
    the document. *)
Theorem cite_is_set (doc : AnyDocument) (key key' : string) :
  (cite key (cite key doc).1).1 = (cite key doc).1
  ∧ (cite key (cite key' doc).1).1 = (cite key' (cite key doc).1).1.
Proof.
  split.
  - destruct doc as [d|d|d|d|d]; unfold cite; cbn [fst with_base base_of];
      [ by rewrite Document_cite_twice
      | cbn [Article.base Article.set_base]
      | cbn [Report.base Report.set_base]
      | cbn [Book.base Book.set_base]
      | cbn [Presentation.base Presentation.set_base] ];
      rewrite Document_cite_twice; reflexivity.
  - destruct doc as [d|d|d|d|d]; unfold cite; cbn [fst with_base base_of];
      [ by rewrite Document_cite_commute
      | cbn [Article.base Article.set_base]
      | cbn [Report.base Report.set_base]
      | cbn [Book.base Book.set_base]
      | cbn [Presentation.base Presentation.set_base] ];
      rewrite Document_cite_commute; reflexivity.
Qed.

(** ** Packages: the order of the calls *)

(** X17.  The order of two [addPackage] calls for different packages does
    not matter. *)
Theorem addPackage_commute (doc : AnyDocument)
    (package options package' options' : string) :
  package ≠ package' →
  addPackage package options (addPackage package' options' doc)
  = addPackage package' options' (addPackage package options doc).
Proof.
  intros Hne.
  assert (∀ d : Document.t,
            Document.addPackage package options
              (Document.addPackage package' options' d)
            = Document.addPackage package' options'
                (Document.addPackage package options d)) as Hd.
  { intros d. unfold Document.addPackage. cbn. f_equal.
    by apply insert_insert_ne. }
  destruct doc as [d|d|d|d|d]; unfold addPackage; cbn [with_base];
    [ by rewrite Hd
    | cbn [Article.base Article.set_base]
    | cbn [Report.base Report.set_base]
    | cbn [Book.base Book.set_base]
    | cbn [Presentation.base Presentation.set_base] ];
    rewrite Hd; reflexivity.
Qed.

Lemma addPackage_commute_witness :
  let doc := DocBook (Book.new "T" "A" "D" ENGLISH) in
  "hyperref" ≠ "xcolor"
  ∧ addPackage "hyperref" "colorlinks" (addPackage "xcolor" "" doc)
    = addPackage "xcolor" "" (addPackage "hyperref" "colorlinks" doc).
Proof.
  intros doc.
  assert ("hyperref" ≠ "xcolor") as H by discriminate.
  split; [exact H|].
  exact (addPackage_commute doc "hyperref" "colorlinks" "xcolor" "" H).
Defined.

(** ** Book: the state that the methods keep *)

(** X18.  The state of a book: a new book has [m_currentPart] at the index of
    the last part ([-1]) and chapters stored under indices of parts only;
    [addPart] (below [2^31] parts, where the conversion to [int] keeps the
    index) and [addChapterToPart] keep both facts. *)
Theorem Book_state_kept (b : Book.t) (title author date : string)
    (language : Language) (part : string) (chapter : Section.t) :
  (Book_current_is_last (Book.new title author date language)
   ∧ Book_chapters_in_range (Book.new title author date language))
  ∧ ((Z.of_nat (length (Book.m_parts b)) < 2 ^ 31)%Z →
     Book_current_is_last (Book.addPart part b))
  ∧ (Book_chapters_in_range b → Book_chapters_in_range (Book.addPart part b))
  ∧ (Book_current_is_last b →
     Book_current_is_last (Book.addChapterToPart chapter b))
  ∧ (Book_chapters_in_range b →
     Book_chapters_in_range (Book.addChapterToPart chapter b)).
Proof.
  split; [|split; [|split; [|split]]].
  - split; [reflexivity|]. intros k [x Hx]. cbn in Hx.
    by rewrite lookup_empty in Hx.
  - intros Hlen. unfold Book_current_is_last, Book.addPart.
    cbn [Book.m_currentPart Book.m_parts]. apply to_int_small.
    rewrite length_app. cbn [length]. lia.
  - intros Hr k Hk. unfold Book.addPart in *. cbn [Book.m_parts Book.m_partChapters] in *.
    rewrite length_app. apply Hr in Hk. lia.
  - intros Hc. unfold Book_current_is_last, Book.addChapterToPart in *.
    by destruct (_ && _).
  - intros Hr k Hk. unfold Book.addChapterToPart in *.
    destruct ((0 <=? Book.m_currentPart b)%Z
              && (Book.m_currentPart b <? Z.of_nat (length (Book.m_parts b)))%Z)
      eqn:Hguard; [|by apply Hr].
    cbn [Book.m_parts Book.m_partChapters] in *.
    apply andb_prop in Hguard as [H0 H1].
    apply Z.leb_le in H0. apply Z.ltb_lt in H1.
    destruct (decide (k = Z.to_nat (Book.m_currentPart b))) as [->|Hne].
    + lia.
    + rewrite lookup_insert_ne in Hk by done. by apply Hr.
Qed.

Lemma Book_state_kept_witness :
  let b := Book.addPart "P1" (Book.new "T" "A" "D" ENGLISH) in
  let chapter := Section.new "C" Section.CHAPTER in
  (Z.of_nat (length (Book.m_parts b)) < 2 ^ 31)%Z
  ∧ Book_chapters_in_range b ∧ Book_current_is_last b
  ∧ Book_current_is_last (Book.addPart "P2" b)
  ∧ Book_chapters_in_range (Book.addPart "P2" b)
  ∧ Book_current_is_last (Book.addChapterToPart chapter b)
  ∧ Book_chapters_in_range (Book.addChapterToPart chapter b).
Proof.
  intros b chapter.
  destruct (Book_state_kept b "T" "A" "D" ENGLISH "P2" chapter)
    as (_ & H1 & H2 & H3 & H4).
  assert (Z.of_nat (length (Book.m_parts b)) < 2 ^ 31)%Z as Hlen by (simpl; lia).
  assert (Book_chapters_in_range b) as Hr.
  { intros k [x Hx]. vm_compute in Hx. discriminate. }
  assert (Book_current_is_last b) as Hc by reflexivity.
  repeat (split; [assumption|]).
  split; [exact (H1 Hlen)|]. split; [exact (H2 Hr)|].
  split; [exact (H3 Hc)|exact (H4 Hr)].
Defined.

Lemma sections_block_snoc chapters chapter :
  Document.sections_block (chapters ++ [chapter])
  = Document.sections_block chapters +:+ Section.generate chapter +:+ nl.
Proof.
  unfold Document.sections_block. rewrite map_app. cbn [map].
  rewrite str_concat_app. unfold str_concat at 2. cbn [foldr].
  by rewrite sapp_nil_r.
Qed.

(** The text of the parts, part by part. *)
Lemma parts_block_snoc chapters parts part :
  str_concat (imap (Book.part_text chapters) (parts ++ [part]))
  = str_concat (imap (Book.part_text chapters) parts)
    +:+ Book.part_text chapters (length parts) part.
Proof.
  rewrite imap_app. cbn [imap]. rewrite str_concat_app.
  unfold str_concat at 2. cbn [foldr]. by rewrite Nat.add_0_r, sapp_nil_r.
Qed.

(** X19.  [Book::addChapterToPart] on a book with at least one part, whose
    current part is the last one: the chapter is written at the end of the
    parts, that is after the chapters of the last part, and the text before
    and after the parts is the same. *)
Theorem Book_addChapterToPart_generate (b : Book.t) (chapter : Section.t) :
  Book.m_parts b ≠ [] → Book_current_is_last b →
  Book.parts_block (Book.addChapterToPart chapter b)
  = Book.parts_block b +:+ Section.generate chapter +:+ nl
  ∧ Book.generateDocument (Book.addChapterToPart chapter b)
    = Book.front b
      +:+ (Book.parts_block b +:+ Section.generate chapter +:+ nl)
      +:+ Book.back b.
Proof.
  intros Hparts Hcur.
  assert (Book.parts_block (Book.addChapterToPart chapter b)
          = Book.parts_block b +:+ Section.generate chapter +:+ nl) as Hblock.
  { destruct (exists_last Hparts) as (parts & part & Hp).
    unfold Book_current_is_last in Hcur.
    unfold Book.addChapterToPart. rewrite Hcur, Hp, length_app. cbn [length].
    replace (0 <=? Z.of_nat (length parts + 1) - 1)%Z with true
      by (symmetry; apply Z.leb_le; lia).
    replace (Z.of_nat (length parts + 1) - 1 <? Z.of_nat (length parts + 1))%Z
      with true by (symmetry; apply Z.ltb_lt; lia).
    cbn [andb].
    replace (Z.to_nat (Z.of_nat (length parts + 1) - 1)) with (length parts)
      by lia.
    unfold Book.parts_block. cbn [Book.m_parts Book.m_partChapters].
    rewrite Hp, !parts_block_snoc.
    assert (imap (Book.part_text
                    (<[length parts :=
                         default [] (Book.m_partChapters b !! length parts)
                         ++ [chapter]]> (Book.m_partChapters b))) parts
            = imap (Book.part_text (Book.m_partChapters b)) parts) as ->.
    { apply imap_ext. intros i x Hi. apply lookup_lt_Some in Hi.
      unfold Book.part_text. by rewrite lookup_insert_ne by lia. }
    rewrite sapp_assoc. f_equal. unfold Book.part_text.
    rewrite lookup_insert_eq, sections_block_snoc.
    destruct (Book.m_partChapters b !! length parts); cbn [default];
      by rewrite ?sapp_assoc. }
  split; [done|].
  unfold Book.generateDocument. rewrite Hblock.
  assert (Book.front (Book.addChapterToPart chapter b) = Book.front b) as ->.
  { unfold Book.addChapterToPart. by destruct (_ && _). }
  assert (Book.back (Book.addChapterToPart chapter b) = Book.back b) as ->.
  { unfold Book.addChapterToPart. by destruct (_ && _). }
  done.
Qed.

Lemma Book_addChapterToPart_generate_witness :
  let b := Book.addPart "P2" (Book.addPart "P1" (Book.new "T" "A" "D" ENGLISH)) in
  let chapter := Section.new "C" Section.CHAPTER in
  Book.m_parts b ≠ [] ∧ Book_current_is_last b
  ∧ Book.parts_block (Book.addChapterToPart chapter b)
    = Book.parts_block b +:+ Section.generate chapter +:+ nl.
Proof.
  intros b chapter.
  assert (Book.m_parts b ≠ []) as H1 by discriminate.
  assert (Book_current_is_last b) as H2 by reflexivity.
  split; [exact H1|]. split; [exact H2|].
  exact (proj1 (Book_addChapterToPart_generate b chapter H1 H2)).
Defined.

(** X20.  [Book::addPart] on a book whose chapters are stored under indices
    of parts: the [\part] line and a blank line are written after the parts
    and chapters there were, with no chapter under the new part. *)
Theorem Book_addPart_generate (b : Book.t) (part : string) :
  Book_chapters_in_range b →
  Book.generateDocument (Book.addPart part b)
  = Book.front b
    +:+ (Book.parts_block b +:+ "\part{" +:+ part +:+ "}" +:+ nl +:+ nl)
    +:+ Book.back b.
Proof.
  intros Hr. unfold Book.generateDocument. f_equal.
  change (Book.back (Book.addPart part b)) with (Book.back b). f_equal.
  unfold Book.parts_block, Book.addPart. cbn [Book.m_parts Book.m_partChapters].
  rewrite parts_block_snoc. f_equal. unfold Book.part_text.
  destruct (Book.m_partChapters b !! length (Book.m_parts b)) eqn:Hk.
  - assert (length (Book.m_parts b) < length (Book.m_parts b)); [|lia].
    apply Hr. by eexists.
  - by rewrite sapp_nil_r.
Qed.

Lemma Book_addPart_generate_witness :
  let b := Book.addChapterToPart (Section.new "C" Section.CHAPTER)
             (Book.addPart "P1" (Book.new "T" "A" "D" ENGLISH)) in
  Book_chapters_in_range b
  ∧ Book.generateDocument (Book.addPart "P2" b)
    = Book.front b
      +:+ (Book.parts_block b +:+ "\part{" +:+ "P2" +:+ "}" +:+ nl +:+ nl)
      +:+ Book.back b.
Proof.
  intros b.
  assert (Book_chapters_in_range b) as H.
  { intros k [x Hx]. destruct (decide (k = 0)) as [->|Hk]; [simpl; lia|].
    change (Book.m_partChapters b)
      with (<[0 := [Section.new "C" Section.CHAPTER]]>
              (∅ : gmap nat (list Section.t))) in Hx.
    by rewrite lookup_insert_ne, lookup_empty in Hx. }
  split; [exact H|]. exact (Book_addPart_generate b "P2" H).
Defined.

(** ** Presentation: the frame of a section *)

Lemma index_char_absent c s :
  ¬ occurs_in (String c "") s → String.index 0 (String c "") s = None.
Proof.
  induction s as [|b s IH]; intros Hno; [done|].
  cbn [String.index String.prefix].
  destruct (ascii_dec c b) as [->|Hne].
  - destruct Hno. by exists "", s.
  - rewrite IH; [done|].
    intros (pre & post & ->). apply Hno. by exists (String b pre), post.
Qed.

Lemma index_char_first c p r :
  String.index 0 (String c "") p = None →
  String.index 0 (String c "") (p +:+ String c r) = Some (String.length p).
Proof.
  induction p as [|b p IH]; intros Hno.
  - change ("" +:+ String c r) with (String c r).
    cbn [String.index String.prefix String.length].
    destruct (ascii_dec c c); [|done]. by destruct r.
  - rewrite sapp_cons. cbn [String.index String.prefix String.length] in *.
    destruct (ascii_dec c b) as [->|Hne].
    + by destruct p.
    + destruct (String.index 0 (String c "") p) eqn:E; [done|].
      by rewrite IH.
Qed.

(** X21.  A section added to a presentation, with a title without braces:
    whatever its level, it becomes a [\section] with that title and one
    frame with the same title, whose content is the sanitized text of the
    section after its heading, starting with the newline that ended the
    heading line. *)
Theorem Presentation_section_frame (title : string) (level : Section.Level)
    (content : list string) :
  ¬ occurs_in "{" title → ¬ occurs_in "}" title →
  Presentation.section_frame (Section.mk title level content)
  = "\section{" +:+ title +:+ "}" +:+ nl +:+ nl
    +:+ "\begin{frame}{" +:+ title +:+ "}" +:+ nl
    +:+ sanitizeMathContent
          (nl +:+ str_concat (map (fun line => line +:+ nl) content))
    +:+ "\end{frame}" +:+ nl +:+ nl.
Proof.
  intros Hopen Hclose.
  apply index_char_absent in Hopen, Hclose.
  set (rest := nl +:+ str_concat (map (fun line => line +:+ nl) content)).
  assert (∃ command,
    Section.generate (Section.mk title level content)
    = command +:+ "{" +:+ title +:+ "}" +:+ rest
    ∧ String.index 0 "{" command = None
    ∧ String.index 0 "}" command = None) as (command & Hgen & Hc1 & Hc2).
  { unfold Section.generate. cbn [Section.m_level Section.m_title Section.m_content].
    destruct level;
      [exists "\chapter"|exists "\section"|exists "\subsection"
      |exists "\subsubsection"];
      (split; [|by split]); unfold rest; by rewrite ?sapp_assoc. }
  assert (String.index 0 "}" (command +:+ "{" +:+ title) = None) as Hc3.
  { clear -Hc2 Hclose. induction command as [|b command IH].
    - change ("" +:+ "{" +:+ title) with (String "{"%char title).
      cbn [String.index String.prefix].
      destruct (ascii_dec "}" "{"); [done|]. by rewrite Hclose.
    - rewrite sapp_cons. cbn [String.index String.prefix] in *.
      destruct (ascii_dec "}" b); [by destruct command|].
      destruct (String.index 0 "}" command); [done|]. by rewrite IH. }
  set (s := command +:+ "{" +:+ title +:+ "}" +:+ rest) in *.
  assert (s = command +:+ String "{"%char (title +:+ "}" +:+ rest)) as E1
    by reflexivity.
  assert (s = (command +:+ "{" +:+ title) +:+ String "}"%char rest) as E2
    by (unfold s; by rewrite !sapp_assoc).
  assert (s = (command +:+ "{") +:+ title +:+ "}" +:+ rest) as E3
    by (unfold s; by rewrite !sapp_assoc).
  assert (s = ((command +:+ "{" +:+ title) +:+ "}") +:+ rest) as E4
    by (unfold s; by rewrite !sapp_assoc).
  assert (str_find "{" s 0 = Some (String.length command)) as Hs.
  { unfold str_find. rewrite E1. by apply index_char_first. }
  assert (str_find "}" s 0 = Some (String.length (command +:+ "{" +:+ title)))
    as He.
  { unfold str_find. rewrite E2. by apply index_char_first. }
  assert (substr s (String.length (command +:+ "{")) (String.length title)
          = title) as Ht.
  { rewrite E3. apply substr_middle. }
  assert (substr_from s (String.length ((command +:+ "{" +:+ title) +:+ "}"))
          = rest) as Hr.
  { rewrite E4. apply substr_from_app. }
  assert (String.length (command +:+ "{") = String.length command + 1) as L1
    by (by rewrite slength_app).
  assert (String.length (command +:+ "{" +:+ title)
          = String.length command + 1 + String.length title) as L2
    by (rewrite !slength_app; cbn [String.length]; lia).
  assert (String.length ((command +:+ "{" +:+ title) +:+ "}")
          = String.length command + 1 + String.length title + 1) as L3
    by (rewrite slength_app, L2; done).
  rewrite L1 in Ht. rewrite L3 in Hr. rewrite L2 in He.
  unfold Presentation.section_frame. rewrite Hgen, Hs, He.
  replace (String.length command + 1 + String.length title
           - String.length command - 1) with (String.length title) by lia.
  by rewrite Ht, Hr.
Qed.

Lemma Presentation_section_frame_witness :
  ¬ occurs_in "{" "Intro" ∧ ¬ occurs_in "}" "Intro"
  ∧ Presentation.section_frame
      (Section.mk "Intro" Section.SUBSECTION ["Some text"])
    = "\section{" +:+ "Intro" +:+ "}" +:+ nl +:+ nl
      +:+ "\begin{frame}{" +:+ "Intro" +:+ "}" +:+ nl
      +:+ sanitizeMathContent
            (nl +:+ str_concat (map (fun line => line +:+ nl) ["Some text"]))
      +:+ "\end{frame}" +:+ nl +:+ nl.
Proof.
  assert (∀ c, ¬ occurs_in (String c "") "Intro" ↔
               String.index 0 (String c "") "Intro" = None) as Hiff.
  { intros c. split; [apply index_char_absent|].
    intros Hi (pre & post & Heq).
    assert (String.index 0 (String c "") (pre +:+ String c "" +:+ post) ≠ None)
      as Hne; [|by rewrite <- Heq in Hne].
    clear. induction pre as [|b pre IH].
    - change ("" +:+ String c "" +:+ post) with (String c post).
      cbn [String.index String.prefix].
      destruct (ascii_dec c c); [|done]. by destruct post.
    - rewrite sapp_cons. cbn [String.index String.prefix].
      destruct (ascii_dec c b); [by destruct (pre +:+ _)|].
      by destruct (String.index 0 _ _). }
  assert (¬ occurs_in "{" "Intro") as H1 by (by apply Hiff).
  assert (¬ occurs_in "}" "Intro") as H2 by (by apply Hiff).
  split; [exact H1|]. split; [exact H2|].
  exact (Presentation_section_frame "Intro" Section.SUBSECTION ["Some text"] H1 H2).
Defined.

(** ** DocumentTemplate: what applying a template does to a document *)

Lemma addPackages_snoc calls package options doc :
  addPackages (calls ++ [(package, options)]) doc
  = addPackage package options (addPackages calls doc).
Proof. unfold addPackages. by rewrite foldl_snoc. Qed.

Lemma addPackages_app calls calls' doc :
  addPackages (calls ++ calls') doc = addPackages calls' (addPackages calls doc).
Proof. unfold addPackages. by rewrite foldl_app. Qed.

Lemma addPackages_title_author calls doc :
  Document.m_title (base_of (addPackages calls doc))
  = Document.m_title (base_of doc)
  ∧ Document.m_author (base_of (addPackages calls doc))
    = Document.m_author (base_of doc).
Proof.
  induction calls as [|[name options] calls IH] using rev_ind; [done|].
  rewrite addPackages_snoc. destruct IH as [<- <-].
  by destruct (addPackages calls doc).
Qed.

(** The calls of [applyTo], in two groups: the packages, then the preamble
    fragments. *)
Lemma applyTo_calls tpl doc :
  DocumentTemplate.applyTo tpl doc
  = foldl (fun d content => addInPreamble content d)
      (addPackages (template_package_calls tpl) doc)
      (template_fragments tpl (Document.m_title (base_of doc))
         (Document.m_author (base_of doc))).
Proof.
  unfold DocumentTemplate.applyTo, template_package_calls, template_fragments.
  rewrite !addPackages_app.
  change (foldl (λ d package, DocumentTemplate.doc_addPackage package.1 package.2 d)
            doc (map_items (DocumentTemplate.m_packages tpl)))
    with (addPackages (map_items (DocumentTemplate.m_packages tpl)) doc).
  set (doc1 := addPackages (map_items (DocumentTemplate.m_packages tpl)) doc).
  assert (Document.m_title (base_of doc1) = Document.m_title (base_of doc)
          ∧ Document.m_author (base_of doc1) = Document.m_author (base_of doc))
    as [Ht1 Ha1] by apply addPackages_title_author.
  destruct (String.eqb (DocumentTemplate.m_geometry tpl) "");
    destruct (String.eqb (DocumentTemplate.m_headerFooterStyle tpl) "");
    cbn [addPackages foldl app fst snd]; try reflexivity.
  - f_equal. f_equal. f_equal.
    + rewrite <- Ht1. by destruct doc1.
    + rewrite <- Ha1. by destruct doc1.
  - f_equal. f_equal. f_equal.
    + rewrite <- Ht1. by destruct doc1.
    + rewrite <- Ha1. by destruct doc1.
Qed.

Lemma addInPreamble_packages contents doc :
  Document.m_packages
    (base_of (foldl (fun d content => addInPreamble content d) doc contents))
  = Document.m_packages (base_of doc).
Proof.
  induction contents as [|content contents IH] using rev_ind; [done|].
  rewrite foldl_snoc, <- IH. by destruct (foldl _ doc contents).
Qed.

Lemma addPackages_union (m : gmap string string) doc :
  Document.m_packages (base_of (addPackages (map_items m) doc))
  = m ∪ Document.m_packages (base_of doc).
Proof.
  apply map_eq. intros package. rewrite addPackages_lookup, lookup_union.
  assert (last_options package (map_items m) = m !! package) as ->.
  { assert (∀ l : list (string * string), NoDup l.*1 →
        last_options package l = list_to_map (M := gmap string string) l !! package)
      as Hlast.
    { clear. intros l. induction l as [|[name options] l IH] using rev_ind;
        intros Hnd; [done|].
      unfold last_options in *. rewrite foldl_snoc. cbn [fst snd].
      rewrite fmap_app in Hnd. apply NoDup_app in Hnd as (Hnd & Hdis & _).
      rewrite list_to_map_app, lookup_union, list_to_map_cons, list_to_map_nil.
      destruct (decide (name = package)) as [->|Hne].
      - rewrite lookup_insert_eq.
        rewrite (not_elem_of_list_to_map_1 l package); [done|].
        intros Hin. apply (Hdis package Hin). cbn. left.
      - rewrite lookup_insert_ne, lookup_empty by done.
        rewrite IH by done. by destruct (list_to_map l !! package). }
    assert (NoDup (map_items m).*1) as Hnd.
    { rewrite map_items_Permutation. apply NoDup_fst_map_to_list. }
    rewrite Hlast by done.
    rewrite (list_to_map_proper (map_items m) (map_to_list m) Hnd
               (map_items_Permutation m)).
    by rewrite list_to_map_to_list. }
  by destruct (m !! package), (Document.m_packages (base_of doc) !! package).
Qed.

(** X22.  The packages of a document after [DocumentTemplate::applyTo]: those
    of the template, whose options win over the ones the document had for
    the same package, then [geometry] with the template's options if the
    template has a geometry, then [fancyhdr] without options if it has a
    header and footer style. *)
Theorem applyTo_packages (tpl : DocumentTemplate.t) (doc : AnyDocument) :
  Document.m_packages (base_of (DocumentTemplate.applyTo tpl doc))
  = (if String.eqb (DocumentTemplate.m_headerFooterStyle tpl) "" then id
     else <["fancyhdr" := ""]>)
      ((if String.eqb (DocumentTemplate.m_geometry tpl) "" then id
        else <["geometry" := DocumentTemplate.m_geometry tpl]>)
         (DocumentTemplate.m_packages tpl ∪ Document.m_packages (base_of doc))).
Proof.
  rewrite applyTo_calls, addInPreamble_packages.
  unfold template_package_calls. rewrite !addPackages_app.
  destruct (String.eqb (DocumentTemplate.m_geometry tpl) "");
    destruct (String.eqb (DocumentTemplate.m_headerFooterStyle tpl) "");
    cbn [addPackages foldl fst snd id];
    rewrite ?base_of_addPackage;
    change (foldl (λ d call, addPackage call.1 call.2 d) doc
              (map_items (DocumentTemplate.m_packages tpl)))
      with (addPackages (map_items (DocumentTemplate.m_packages tpl)) doc);
    by rewrite addPackages_union.
Qed.

Lemma addInPreamble_presentation contents p :
  generate (foldl (fun d content => addInPreamble content d)
              (DocPresentation p) contents)
  = generate (DocPresentation p).
Proof.
  revert p. induction contents as [|content contents IH]; intros p; [done|].
  cbn [foldl addInPreamble with_base]. by rewrite IH.
Qed.

Lemma addPackages_presentation calls p :
  ∃ p', addPackages calls (DocPresentation p) = DocPresentation p'.
Proof.
  induction calls as [|[name options] calls [p' IH]] using rev_ind;
    [by exists p|].
  rewrite addPackages_snoc, IH. by eexists.
Qed.

(** X23.  For a presentation, a template counts through its packages only:
    the header and footer configuration and the preamble content that
    [applyTo] adds are not written by [Presentation::generatePreamble]. *)
Theorem applyTo_presentation (tpl : DocumentTemplate.t) (p : Presentation.t) :
  generate (DocumentTemplate.applyTo tpl (DocPresentation p))
  = generate (addPackages (template_package_calls tpl) (DocPresentation p)).
Proof.
  rewrite applyTo_calls.
  destruct (addPackages_presentation (template_package_calls tpl) p) as [p' ->].
  apply addInPreamble_presentation.
Qed.

Lemma addInPreamble_article contents a :
  foldl (fun d content => addInPreamble content d) (DocArticle a) contents
  = DocArticle
      (Article.mk (Article.base a) (Article.m_abstract a)
         (Article.m_customPreamble a ++ contents) (Article.m_keywords a)
         (Article.m_includeIndex a) (Article.m_includeTableOfContents a)).
Proof.
  revert a. induction contents as [|content contents IH]; intros a.
  - rewrite app_nil_r. by destruct a.
  - cbn [foldl addInPreamble]. rewrite IH. unfold Article.addInPreamble.
    cbn. by rewrite <- app_assoc.
Qed.

Lemma with_base_fold {A} (f : A → Document.t → Document.t) (l : list A) doc :
  foldl (fun d x => with_base (f x) d) doc l
  = with_base (fun d => foldl (fun d x => f x d) d l) doc.
Proof.
  revert doc. induction l as [|x l IH]; intros doc.
  - cbn [foldl]. by destruct doc as [d|[]|[]|[]|[]].
  - cbn [foldl]. rewrite IH. by destruct doc.
Qed.

Lemma addInPreamble_other contents doc :
  (∀ a, doc ≠ DocArticle a) →
  foldl (fun d content => addInPreamble content d) doc contents
  = with_base
      (fun d => foldl (fun d content => Document.addInPreamble content d)
                  d contents) doc.
Proof.
  revert doc. induction contents as [|content contents IH]; intros doc Hdoc.
  - cbn [foldl]. by destruct doc as [d|[]|[]|[]|[]].
  - cbn [foldl]. destruct doc as [d|a|r|b|p]; [|by destruct (Hdoc a)|..];
      by rewrite IH.
Qed.

Lemma Document_addInPreamble_fold contents d :
  Document.m_customPreamble
    (foldl (fun d content => Document.addInPreamble content d) d contents)
  = Document.m_customPreamble d ++ contents.
Proof.
  induction contents as [|content contents IH] using rev_ind.
  - by rewrite app_nil_r.
  - rewrite foldl_snoc. cbn [Document.addInPreamble Document.m_customPreamble].
    by rewrite IH, <- app_assoc.
Qed.

(** Where a loop writes a piece, the piece is in the text. *)
Ltac find_piece H :=
  repeat match goal with
         | |- occurs_in _ (_ +:+ _) =>
             first [ apply occurs_in_app_r; exact H | apply occurs_in_app_l ]
         end.

(** X24.  For a document of any other class, every preamble fragment of the
    template (the header and footer configuration, if there is a style, and
    each preamble content) is in the preamble generated after [applyTo],
    followed by a newline. *)
Theorem applyTo_content_emitted (tpl : DocumentTemplate.t) (doc : AnyDocument)
    (content : string) :
  (∀ p, doc ≠ DocPresentation p) →
  content ∈ template_fragments tpl (Document.m_title (base_of doc))
              (Document.m_author (base_of doc)) →
  occurs_in (content +:+ nl)
    (generatePreamble (DocumentTemplate.applyTo tpl doc)).
Proof.
  intros Hdoc Hin. rewrite applyTo_calls.
  set (fragments := template_fragments tpl _ _) in *.
  unfold addPackages, addPackage. rewrite with_base_fold.
  set (packages := fun d => foldl _ d (template_package_calls tpl)).
  assert (∀ before,
    occurs_in (content +:+ nl)
      (str_concat (map (fun content => content +:+ nl) (before ++ fragments))))
    as Hocc.
  { intros before.
    apply (occurs_in_str_concat (fun content => content +:+ nl) content).
    - apply elem_of_app. by right.
    - apply occurs_in_refl. }
  assert (∀ d before,
    Document.m_customPreamble d = before ++ fragments →
    occurs_in (content +:+ nl) (Document.generatePreamble d)) as Hbase.
  { intros d before Hd. unfold Document.generatePreamble, Document.preamble_rest.
    rewrite Hd. specialize (Hocc before). find_piece Hocc. }
  destruct doc as [d|a|r|b|p].
  - rewrite addInPreamble_other by done. cbn [with_base generatePreamble].
    eapply Hbase. apply Document_addInPreamble_fold.
  - cbn [with_base]. rewrite addInPreamble_article.
    cbn [generatePreamble]. unfold Article.generatePreamble.
    cbn [Article.m_customPreamble Article.set_base].
    specialize (Hocc (Article.m_customPreamble a)). find_piece Hocc.
  - rewrite addInPreamble_other by done. cbn [with_base generatePreamble].
    unfold Report.generatePreamble. cbn [Report.base Report.set_base].
    eapply Hbase. apply Document_addInPreamble_fold.
  - rewrite addInPreamble_other by done. cbn [with_base generatePreamble].
    unfold Book.generatePreamble. cbn [Book.base Book.set_base].
    apply occurs_in_app_r.
    eapply Hbase. apply Document_addInPreamble_fold.
  - by destruct (Hdoc p).
Qed.

Lemma applyTo_content_emitted_witness :
  let tpl :=
    DocumentTemplate.addPreambleContent "\newcommand{\R}{\mathbb{R}}"
      (DocumentTemplate.setHeaderFooterStyle "fancy"
         (DocumentTemplate.new "Academic")) in
  let doc := DocArticle (Article.new "T" "A" "D" ENGLISH) in
  (∀ p, doc ≠ DocPresentation p)
  ∧ "\newcommand{\R}{\mathbb{R}}"
      ∈ template_fragments tpl (Document.m_title (base_of doc))
          (Document.m_author (base_of doc))
  ∧ occurs_in ("\newcommand{\R}{\mathbb{R}}" +:+ nl)
      (generatePreamble (DocumentTemplate.applyTo tpl doc)).
Proof.
  intros tpl doc.
  assert (∀ p, doc ≠ DocPresentation p) as H1 by (intros p; discriminate).
  assert ("\newcommand{\R}{\mathbb{R}}"
            ∈ template_fragments tpl (Document.m_title (base_of doc))
                (Document.m_author (base_of doc))) as H2.
  { vm_compute. right. left. }
  split; [exact H1|]. split; [exact H2|].
  exact (applyTo_content_emitted tpl doc _ H1 H2).
Defined.

(** ** Article: the keyword line *)

Lemma keywords_from_concat size i keywords :
  size = i + length keywords →
  Article.keywords_from size i keywords = String.concat ", " keywords.
Proof.
  revert i. induction keywords as [|keyword keywords IH]; intros i Hsize; [done|].
  cbn [Article.keywords_from String.concat length] in *.
  destruct keywords as [|keyword' keywords].
  - cbn [Article.keywords_from length] in *.
    replace (i <? size - 1) with false by (symmetry; apply Nat.ltb_ge; lia).
    by rewrite !sapp_nil_r.
  - replace (i <? size - 1) with true
      by (symmetry; apply Nat.ltb_lt; cbn [length] in Hsize; lia).
    rewrite (IH (S i)) by (cbn [length] in *; lia). done.
Qed.

(** X25.  The body of an article with a title and at least one keyword:
    after [\maketitle] comes one [\keywords] line with the keywords in the
    order they were added, joined by a comma and a space, with no separator
    after the last one. *)
Theorem Article_keywords_line (a : Article.t) :
  Document.m_title (Article.base a) ≠ "" → Article.m_keywords a ≠ [] →
  Article.generateDocument a
  = "\begin{document}" +:+ nl +:+ nl
    +:+ ("\maketitle" +:+ nl +:+ nl
         +:+ "\keywords{" +:+ String.concat ", " (Article.m_keywords a)
         +:+ "}" +:+ nl +:+ nl)
    +:+ Article.after_title_block a.
Proof.
  intros Htitle Hkeywords. unfold Article.generateDocument, Article.title_block.
  apply String.eqb_neq in Htitle. rewrite Htitle.
  destruct (Article.m_keywords a) as [|keyword keywords] eqn:E; [done|].
  cbn [Article.is_empty]. rewrite keywords_from_concat by done. done.
Qed.

Lemma Article_keywords_line_witness :
  let a := Article.addKeyword "rocq" (Article.addKeyword "latex"
             (Article.new "T" "A" "D" ENGLISH)) in
  Document.m_title (Article.base a) ≠ "" ∧ Article.m_keywords a ≠ []
  ∧ Article.generateDocument a
    = "\begin{document}" +:+ nl +:+ nl
      +:+ ("\maketitle" +:+ nl +:+ nl
           +:+ "\keywords{" +:+ String.concat ", " (Article.m_keywords a)
           +:+ "}" +:+ nl +:+ nl)
      +:+ Article.after_title_block a.
Proof.
  intros a.
  assert (Document.m_title (Article.base a) ≠ "") as H1 by discriminate.
  assert (Article.m_keywords a ≠ []) as H2 by discriminate.
  split; [exact H1|]. split; [exact H2|].
  exact (Article_keywords_line a H1 H2).
Defined.

(** ** Presentation: the order of the body *)

(** X26.  The body of a presentation does not keep the order in which slides
    and section headings were added: a heading added after a slide is
    written before all slides, also the ones added before it, and the text
    is the same as when the heading had been added first. *)
Theorem Presentation_sections_before_slides (p : Presentation.t)
    (title : string) (content : list string)
    (sectionTitle : string) (createFrame : bool) :
  let p' := Presentation.addSection sectionTitle createFrame
              (Presentation.addSlide title content p) in
  occurs_in
    (Presentation.structure_text (Section.SECTION, sectionTitle, createFrame)
     +:+ Presentation.slides_block p
     +:+ Presentation.slide_frame (title, content))
    (Presentation.generateDocument p')
  ∧ Presentation.generateDocument p'
    = Presentation.generateDocument
        (Presentation.addSlide title content
           (Presentation.addSection sectionTitle createFrame p)).
Proof.
  intros p'. split.
  - unfold Presentation.generateDocument, Presentation.slides_block.
    replace (Presentation.m_structure p')
      with (Presentation.m_structure p
            ++ [(Section.SECTION, sectionTitle, createFrame)]) by reflexivity.
    replace (Presentation.m_slides p')
      with (Presentation.m_slides p ++ [(title, content)]) by reflexivity.
    rewrite !map_app, !str_concat_app.
    set (structure := str_concat (map Presentation.structure_text
                                    (Presentation.m_structure p))).
    set (slides := str_concat (map Presentation.slide_frame
                                 (Presentation.m_slides p))).
    do 12 apply occurs_in_app_l.
    match goal with
    | |- occurs_in _ (_ +:+ _ +:+ ?rest) => exists structure, rest
    end.
    cbn [map]. unfold str_concat. cbn [foldr].
    by rewrite !sapp_nil_r, !sapp_assoc.
  - unfold p', Presentation.addSection, Presentation.add_structure,
      Presentation.addSlide.
    cbn [Presentation.base Presentation.m_institute Presentation.m_subtitle
         Presentation.m_theme Presentation.m_colorTheme
         Presentation.m_transition Presentation.m_showNavigation
         Presentation.m_slides Presentation.m_structure].
    reflexivity.
Qed.

(** ** Theorem and algorithm support *)

(** X27.  [addAlgorithm] and [addTheorem] switch on the algorithm packages
    and the theorem setup of the preamble for a plain document, an article,
    a report and a book; the preamble of a presentation is the same as
    before the call. *)
Theorem add_environment_setup (doc : AnyDocument) (caption label : string)
    (type : TheoremEnvironment.Type_) (content title : string) :
  let with_algorithm := with_base (Document.addAlgorithm caption label) doc in
  let with_theorem := with_base (Document.addTheorem type content title) doc in
  match doc with
  | DocPresentation _ =>
      generatePreamble with_algorithm = generatePreamble doc
      ∧ generatePreamble with_theorem = generatePreamble doc
  | _ =>
      occurs_in Algorithm.getAlgorithmPackages (generatePreamble with_algorithm)
      ∧ occurs_in
          (TheoremEnvironment.getTheoremSetup (Document.m_language (base_of doc)))
          (generatePreamble with_theorem)
  end.
Proof.
  assert (∀ d, Document.m_algorithmsEnabled d = true →
               occurs_in Algorithm.getAlgorithmPackages
                 (Document.generatePreamble d)) as Ha.
  { intros d Hd. unfold Document.generatePreamble, Document.preamble_rest.
    rewrite Hd. pose proof (occurs_in_refl Algorithm.getAlgorithmPackages) as H.
    find_piece H. }
  assert (∀ d, Document.m_theoremsEnabled d = true →
               occurs_in
                 (TheoremEnvironment.getTheoremSetup (Document.m_language d))
                 (Document.generatePreamble d)) as Ht.
  { intros d Hd. unfold Document.generatePreamble, Document.preamble_rest.
    rewrite Hd.
    pose proof (occurs_in_refl
                  (TheoremEnvironment.getTheoremSetup (Document.m_language d)))
      as H.
    find_piece H. }
  destruct doc as [d|a|r|b|p]; cbn [with_base generatePreamble base_of].
  - split; [by apply Ha|]. by apply (Ht (Document.addTheorem type content title d)).
  - unfold Article.generatePreamble. cbn [Article.base Article.set_base].
    split; apply occurs_in_app_r.
    + by apply Ha.
    + by apply (Ht (Document.addTheorem type content title (Article.base a))).
  - unfold Report.generatePreamble. cbn [Report.base Report.set_base].
    split; [by apply Ha|].
    by apply (Ht (Document.addTheorem type content title (Report.base r))).
  - unfold Book.generatePreamble. cbn [Book.base Book.set_base].
    split; apply occurs_in_app_r.
    + by apply Ha.
    + by apply (Ht (Document.addTheorem type content title (Book.base b))).
  - by split.
Qed.

(** ** What is attached to a document is in its body *)

(** X28.  What is attached to a document is in its body, for every class:
    the text of each environment followed by a newline, each raw content
    followed by a blank line, and each section, as its own text followed by
    a newline or, in a presentation, as its section frame. *)
Theorem attached_content_emitted (doc : AnyDocument) :
  (∀ env, env ∈ Document.m_environments (base_of doc) →
          occurs_in (Environment_generate env +:+ nl) (generateDocument doc))
  ∧ (∀ content, content ∈ Document.m_rawContent (base_of doc) →
                occurs_in (content +:+ nl +:+ nl) (generateDocument doc))
  ∧ match doc with
    | DocPresentation p =>
        ∀ section, section ∈ Document.m_sections (base_of doc) →
                   occurs_in (Presentation.section_frame section)
                     (generateDocument doc)
    | _ =>
        ∀ section, section ∈ Document.m_sections (base_of doc) →
                   occurs_in (Section.generate section +:+ nl)
                     (generateDocument doc)
    end.
Proof.
  assert (∀ d env, env ∈ Document.m_environments d →
            occurs_in (Environment_generate env +:+ nl)
              (Document.environments_block d)) as Henv.
  { intros d env Hin. unfold Document.environments_block.
    eapply occurs_in_str_concat; [exact Hin|]. apply occurs_in_refl. }
  assert (∀ d content, content ∈ Document.m_rawContent d →
            occurs_in (content +:+ nl +:+ nl) (Document.rawContent_block d))
    as Hraw.
  { intros d content Hin. unfold Document.rawContent_block.
    eapply occurs_in_str_concat; [exact Hin|]. apply occurs_in_refl. }
  assert (∀ sections section, section ∈ sections →
            occurs_in (Section.generate section +:+ nl)
              (Document.sections_block sections)) as Hsec.
  { intros sections section Hin. unfold Document.sections_block.
    eapply occurs_in_str_concat; [exact Hin|]. apply occurs_in_refl. }
  destruct doc as [d|a|r|b|p]; cbn [base_of generateDocument].
  - unfold Document.generateDocument. repeat split.
    + intros env Hin. specialize (Henv _ _ Hin). find_piece Henv.
    + intros content Hin. specialize (Hraw _ _ Hin). find_piece Hraw.
    + intros section Hin. specialize (Hsec _ _ Hin). find_piece Hsec.
  - unfold Article.generateDocument, Article.after_title_block. repeat split.
    + intros env Hin. specialize (Henv _ _ Hin). find_piece Henv.
    + intros content Hin. specialize (Hraw _ _ Hin). find_piece Hraw.
    + intros section Hin. specialize (Hsec _ _ Hin). find_piece Hsec.
  - unfold Report.generateDocument. repeat split.
    + intros env Hin. specialize (Henv _ _ Hin). find_piece Henv.
    + intros content Hin. specialize (Hraw _ _ Hin). find_piece Hraw.
    + intros section Hin. specialize (Hsec _ _ Hin). find_piece Hsec.
  - unfold Book.generateDocument, Book.back. repeat split.
    + intros env Hin. specialize (Henv _ _ Hin). find_piece Henv.
    + intros content Hin. specialize (Hraw _ _ Hin). find_piece Hraw.
    + intros section Hin. specialize (Hsec _ _ Hin). find_piece Hsec.
  - unfold Presentation.generateDocument. repeat split.
    + intros env Hin.
      assert (occurs_in (Environment_generate env +:+ nl)
                (str_concat (map Presentation.environment_frame
                   (Document.m_environments (Presentation.base p))))) as H.
      { eapply occurs_in_str_concat; [exact Hin|].
        unfold Presentation.environment_frame. apply occurs_in_app_l.
        rewrite <- sapp_assoc. apply occurs_in_app_r, occurs_in_refl. }
      find_piece H.
    + intros content Hin. specialize (Hraw _ _ Hin). find_piece Hraw.
    + intros section Hin.
      assert (occurs_in (Presentation.section_frame section)
                (str_concat (map Presentation.section_frame
                   (Document.m_sections (Presentation.base p))))) as H.
      { eapply occurs_in_str_concat; [exact Hin|]. apply occurs_in_refl. }
      find_piece H.
Qed.

Lemma attached_content_emitted_witness :
  let env := EnvList (List.addItem "one" "" (List.new List.ITEMIZE)) in
  let doc :=
    DocPresentation
      (Presentation.set_base
         (Document.addEnvironment env
            (Presentation.base
               (Presentation.new "T" "A" "D" ENGLISH
                  Presentation.MADRID Presentation.COLOR_DEFAULT)))
         (Presentation.new "T" "A" "D" ENGLISH
            Presentation.MADRID Presentation.COLOR_DEFAULT)) in
  env ∈ Document.m_environments (base_of doc)
  ∧ occurs_in (Environment_generate env +:+ nl) (generateDocument doc).
Proof.
  intros env doc.
  assert (env ∈ Document.m_environments (base_of doc)) as H by (cbn; left).
  split; [exact H|].
  exact (proj1 (attached_content_emitted doc) env H).
Defined.
